(** * Aggregateless event store: feature slices and their store contract

    A shallow embedding of the banking feature slices
    (transfer-money, deposit-money, withdraw-money in its two variants,
    open-bank-account, get-account) together with a model of the event
    store they talk to.

    Conventions.
    - A JavaScript [number] is an IEEE 754 double, the primitive
      [float]; [+=] and [-=] are the language's [+] and [-], with
      their conversions of strings, [null], booleans, arrays and
      objects.
    - A string is a sequence of code units below 256.
    - A JavaScript value that may be [undefined] is an [option json];
      [None] is [undefined].
    - A call of an async method throws or returns a promise, which
      settles at some time; an [await]ed call is a state-and-exception
      computation over the state of the store it is given.
    - Sequence numbers are integers. *)

From Stdlib Require Import ZArith List String Ascii Bool Lia Permutation Floats.
Import ListNotations.
Local Open Scope string_scope.
Local Open Scope Z_scope.
Set Warnings "-inexact-float".

(* ================================================================== *)
(** ** Numbers

    A JavaScript [number] is an IEEE 754 binary64 value: the kernel's
    primitive [float], whose [+], [-] and comparisons round and compare
    as the language's do.  Conversions to and from strings go through
    the exact value [m * 2^e] of a finite number. *)

Module Number.

Definition prec : Z := 53.
Definition emax : Z := 1024.

(** The number nearest to [num / den], ties to even, with the sign
    given. *)
Definition of_ratio (negative : bool) (num den : positive) : float :=
  SF2Prim (SFdiv prec emax (S754_finite negative num 0) (S754_finite false den 0)).

(** The number nearest to [m * 10^e] for [m >= 0]. *)
Definition of_decimal (negative : bool) (m e : Z) : float :=
  match m with
  | Zpos p =>
      if 0 <=? e then of_ratio negative (p * Z.to_pos (10 ^ e)) 1
      else of_ratio negative p (Z.to_pos (10 ^ (- e)))
  | _ => if negative then neg_zero else zero
  end.

Definition of_Z (n : Z) : float := of_decimal (n <? 0) (Z.abs n) 0.

(** *** [Number::toString], radix 10 *)

(** [x < 10^n] for [x = m * 2^e]. *)
Definition below_pow10 (m e n : Z) : bool :=
  m * 2 ^ (Z.max e 0) * 10 ^ (Z.max (- n) 0) <? 2 ^ (Z.max (- e) 0) * 10 ^ (Z.max n 0).

(** The least [n' >= n] with [x < 10^n']. *)
Fixpoint magnitude_from (fuel : nat) (m e n : Z) : Z :=
  match fuel with
  | O => n
  | S fuel' => if below_pow10 m e n then n else magnitude_from fuel' m e (n + 1)
  end.

(** [n] with [10^(n-1) <= x < 10^n], searched upwards from a bound
    below it: [x >= 2^b] for [b = log2 m + e], and
    [log10 2 > 30102 / 100000]. *)
Definition magnitude (m e : Z) : Z :=
  let b := Z.log2 m + e in
  magnitude_from 8 m e ((if 0 <=? b then b * 30102 else b * 30103 - 99999) / 100000 - 1).

(** The [k]-digit decimals next to [x = m * 2^e]: with
    [t = x / 10^(n-k)], the integer below [t] and the one above, the
    latter written with [k] digits again when it reaches [10^k]; and
    whether the lower one is the nearer (on a tie, whether it is
    even). *)
Definition neighbours (m e n k : Z) : (Z * Z) * (Z * Z) * bool :=
  let tnum := m * 2 ^ (Z.max e 0) * 10 ^ (Z.max (k - n) 0) in
  let tden := 2 ^ (Z.max (- e) 0) * 10 ^ (Z.max (n - k) 0) in
  let lo := tnum / tden in
  let hi := lo + 1 in
  let lower_nearer :=
    match 2 * tnum ?= (2 * lo + 1) * tden with
    | Lt => true
    | Gt => false
    | Eq => Z.even lo
    end in
  ((lo, n), (if hi =? 10 ^ k then (10 ^ (k - 1), n + 1) else (hi, n)), lower_nearer).

(** [s * 10^(n-k)] reads back as [x]. *)
Definition reads_back (x : float) (k : Z) (sn : Z * Z) : bool :=
  PrimFloat.eqb (of_decimal false (fst sn) (snd sn - k)) x.

(** The digits [s], their number [k] and the exponent [n] of
    [Number::toString]: [k] as small as possible with
    [s * 10^(n-k)] reading back as [x], and [s] the nearest to [x]. *)
Fixpoint shortest_from (fuel : nat) (x : float) (m e n k : Z) : Z * Z * Z :=
  let '(lo, hi, lower_nearer) := neighbours m e n k in
  let pick (sn : Z * Z) := (fst sn, k, snd sn) in
  match fuel with
  | O => pick lo
  | S fuel' =>
      match reads_back x k lo, reads_back x k hi with
      | true, true => pick (if lower_nearer then lo else hi)
      | true, false => pick lo
      | false, true => pick hi
      | false, false => shortest_from fuel' x m e n (k + 1)
      end
  end.

Definition shortest (x : float) : Z * Z * Z :=
  match Prim2SF x with
  | S754_finite _ m e => shortest_from 17 x (Zpos m) e (magnitude (Zpos m) e) 1
  | _ => (0, 1, 1)
  end.

Definition digit (d : Z) : ascii := ascii_of_nat (48 + Z.to_nat d).

Fixpoint decimal_from (fuel : nat) (n : Z) (acc : string) : string :=
  let acc' := String (digit (n mod 10)) acc in
  match fuel with
  | O => acc'
  | S fuel' => if n / 10 =? 0 then acc' else decimal_from fuel' (n / 10) acc'
  end.

(** The decimal digits of [n >= 0]. *)
Definition decimal (n : Z) : string := decimal_from (Z.to_nat (Z.log2 n)) n "".

Fixpoint zeros (n : nat) : string :=
  match n with
  | O => ""
  | S n' => String "0" (zeros n')
  end.

Definition take (n : Z) (s : string) : string := substring 0 (Z.to_nat n) s.
Definition drop (n : Z) (s : string) : string :=
  substring (Z.to_nat n) (String.length s - Z.to_nat n) s.

(** Steps 6 to 10 of [Number::toString]. *)
Definition layout (s k n : Z) : string :=
  let digits := decimal s in
  if (k <=? n) && (n <=? 21) then digits ++ zeros (Z.to_nat (n - k))
  else if (0 <? n) && (n <=? 21) then take n digits ++ "." ++ drop n digits
  else if (-6 <? n) && (n <=? 0) then "0." ++ zeros (Z.to_nat (- n)) ++ digits
  else
    let exponent := (if 0 <? n - 1 then "+" else "-") ++ decimal (Z.abs (n - 1)) in
    if k =? 1 then digits ++ "e" ++ exponent
    else take 1 digits ++ "." ++ drop 1 digits ++ "e" ++ exponent.

Definition to_string (x : float) : string :=
  if is_nan x then "NaN"
  else if is_zero x then "0"
  else
    let magnitude := abs x in
    (if PrimFloat.ltb x 0 then "-" else "")
    ++ (if is_infinity magnitude then "Infinity"
        else let '(s, k, n) := shortest magnitude in layout s k n).

(** *** [StringToNumber] *)

(** [StrWhiteSpaceChar] among the code units below 256: tab, line
    feed, vertical tab, form feed, carriage return, space, no-break
    space. *)
Definition is_white (c : ascii) : bool :=
  match nat_of_ascii c with
  | 9%nat | 10%nat | 11%nat | 12%nat | 13%nat | 32%nat | 160%nat => true
  | _ => false
  end.

Fixpoint skip_white (s : list ascii) : list ascii :=
  match s with
  | c :: rest => if is_white c then skip_white rest else s
  | [] => []
  end.

Definition trim_white (s : list ascii) : list ascii :=
  rev (skip_white (rev (skip_white s))).

(** The value of a digit in a radix up to 16. *)
Definition digit_value (radix : Z) (c : ascii) : option Z :=
  let n := Z.of_nat (nat_of_ascii c) in
  let v := if (48 <=? n) && (n <=? 57) then n - 48
           else if (97 <=? n) && (n <=? 102) then n - 87
           else if (65 <=? n) && (n <=? 70) then n - 55
           else 16 in
  if v <? radix then Some v else None.

(** A run of digits: its value on top of [acc], its length, the rest. *)
Fixpoint digits (radix : Z) (s : list ascii) (acc count : Z) : Z * Z * list ascii :=
  match s with
  | c :: rest =>
      match digit_value radix c with
      | Some d => digits radix rest (acc * radix + d) (count + 1)
      | None => (acc, count, s)
      end
  | [] => (acc, count, [])
  end.

(** [ExponentPart], or nothing; [None] when what follows is neither. *)
Definition exponent_part (s : list ascii) : option Z :=
  match s with
  | [] => Some 0
  | c :: rest =>
      if Ascii.eqb c "e" || Ascii.eqb c "E" then
        let '(negative, rest') :=
          match rest with
          | "-"%char :: r => (true, r)
          | "+"%char :: r => (false, r)
          | _ => (false, rest)
          end in
        match digits 10 rest' 0 0 with
        | (v, count, []) => if 0 <? count then Some (if negative then - v else v) else None
        | _ => None
        end
      else None
  end.

(** [StrUnsignedDecimalLiteral] but [Infinity]: the mantissa and the
    power of ten. *)
Definition unsigned_decimal (s : list ascii) : option (Z * Z) :=
  let '(whole, whole_count, rest) := digits 10 s 0 0 in
  let '(mantissa, fraction_count, dotted, rest') :=
    match rest with
    | "."%char :: r =>
        let '(m, c, r') := digits 10 r whole 0 in (m, c, true, r')
    | _ => (whole, 0, false, rest)
    end in
  if (0 <? whole_count) || (dotted && (0 <? fraction_count)) then
    match exponent_part rest' with
    | Some e => Some (mantissa, e - fraction_count)
    | None => None
    end
  else None.

Definition signed_decimal (s : list ascii) : option float :=
  let '(negative, body) :=
    match s with
    | "-"%char :: r => (true, r)
    | "+"%char :: r => (false, r)
    | _ => (false, s)
    end in
  if String.eqb (string_of_list_ascii body) "Infinity"
  then Some (if negative then neg_infinity else infinity)
  else match unsigned_decimal body with
       | Some (m, e) => Some (of_decimal negative m e)
       | None => None
       end.

(** [NonDecimalIntegerLiteral]: [0b], [0o] or [0x] and digits. *)
Definition non_decimal (s : list ascii) : option float :=
  match s with
  | "0"%char :: c :: rest =>
      let radix := if Ascii.eqb c "x" || Ascii.eqb c "X" then 16
                   else if Ascii.eqb c "o" || Ascii.eqb c "O" then 8
                   else if Ascii.eqb c "b" || Ascii.eqb c "B" then 2
                   else 0 in
      match digits radix rest 0 0 with
      | (v, count, []) => if 0 <? count then Some (of_Z v) else None
      | _ => None
      end
  | _ => None
  end.

Definition of_string (s : string) : float :=
  match trim_white (list_ascii_of_string s) with
  | [] => zero
  | body =>
      match non_decimal body with
      | Some x => x
      | None => match signed_decimal body with
                | Some x => x
                | None => nan
                end
      end
  end.

End Number.

(* ================================================================== *)
(** ** JSON values *)

Module Json.

Unset Elimination Schemes.
Inductive json : Type :=
| JNull
| JBool (b : bool)
| JNum (n : float)
| JStr (s : string)
| JArr (items : list json)
| JObj (members : list (string * json)).
Set Elimination Schemes.

(** An object is an association list; a key reads its first binding. *)
Definition object := list (string * json).

(** A value that may be [undefined]. *)
Definition jsval := option json.

Fixpoint lookup {A : Type} (k : string) (o : list (string * A)) : option A :=
  match o with
  | [] => None
  | (k', v) :: rest => if String.eqb k k' then Some v else lookup k rest
  end.

(** JavaScript truthiness: [undefined], [null], [false], [0], [-0],
    [NaN] and the empty string are falsy, everything else is truthy. *)
Definition truthy (v : jsval) : bool :=
  match v with
  | None => false
  | Some JNull => false
  | Some (JBool b) => b
  | Some (JNum n) => negb (is_zero n || is_nan n)
  | Some (JStr s) => negb (String.eqb s "")
  | Some (JArr _) => true
  | Some (JObj _) => true
  end.

(** [a || b]. *)
Definition js_or (a b : jsval) : jsval := if truthy a then a else b.

(** [a === b] on values read from two different records: primitives by
    value (numbers as IEEE 754 compares them), objects and arrays by
    identity (two deserialised rows never share one). *)
Definition strict_eq (a b : jsval) : bool :=
  match a, b with
  | None, None => true
  | Some JNull, Some JNull => true
  | Some (JBool x), Some (JBool y) => Bool.eqb x y
  | Some (JNum x), Some (JNum y) => PrimFloat.eqb x y
  | Some (JStr x), Some (JStr y) => String.eqb x y
  | _, _ => false
  end.

(** [v === 'literal'] and [v === s] for a string [s]. *)
Definition is_str (v : jsval) (s : string) : bool := strict_eq v (Some (JStr s)).

(** [ToString] of a value that is not [undefined]; an array joins its
    elements with commas, [null] elements as empty strings; a plain
    object is ["[object Object]"]. *)
Fixpoint to_string (j : json) : string :=
  match j with
  | JNull => "null"
  | JBool b => if b then "true" else "false"
  | JNum n => Number.to_string n
  | JStr s => s
  | JArr items =>
      (fix join (l : list json) : string :=
         match l with
         | [] => ""
         | x :: rest =>
             let element := match x with JNull => "" | _ => to_string x end in
             match rest with
             | [] => element
             | _ => element ++ "," ++ join rest
             end
         end) items
  | JObj _ => "[object Object]"
  end.

(** [ToPrimitive]: arrays and plain objects become their string. *)
Definition to_primitive (v : jsval) : jsval :=
  match v with
  | Some (JArr items) => Some (JStr (to_string (JArr items)))
  | Some (JObj members) => Some (JStr (to_string (JObj members)))
  | _ => v
  end.

(** [ToNumber]. *)
Definition to_number (v : jsval) : float :=
  match to_primitive v with
  | None => nan
  | Some JNull => zero
  | Some (JBool b) => if b then one else zero
  | Some (JNum n) => n
  | Some (JStr s) => Number.of_string s
  | Some _ => nan
  end.

(** [a + b], the operator of [currentBalance += event.amount]: a
    concatenation when either operand is a string (or an array or
    object), a sum of numbers otherwise. *)
Definition js_add (a b : jsval) : jsval :=
  let a' := to_primitive a in
  let b' := to_primitive b in
  let text (v : jsval) := match v with Some j => to_string j | None => "undefined" end in
  match a', b' with
  | Some (JStr _), _ | _, Some (JStr _) => Some (JStr (text a' ++ text b'))
  | _, _ => Some (JNum (to_number a' + to_number b'))
  end.

(** [a - b], the operator of [currentBalance -= event.amount]. *)
Definition js_sub (a b : jsval) : jsval := Some (JNum (to_number a - to_number b)).

(** [Math.max(a, b, c)] on sequence numbers. *)
Definition math_max3 (a b c : Z) : Z := Z.max (Z.max a b) c.

End Json.
Export Json.

(* ================================================================== *)
(** ** Event filter

    The slices call [createFilter], [withPayloadPredicate] and
    [withPayloadPredicates] of the [EventFilter] class, whose code is
    outside the files embedded here. *)

Module Filter.

(** Modelled from the spec: the class [EventFilter] is missing.  A
    filter is a value with a non-empty set of event type tags and an
    ordered list of payload subset objects (section 3). *)
Record EventFilter : Type := mkFilter {
  event_types : list string;
  payload_predicates : list object
}.

Definition is_space (c : ascii) : bool :=
  match nat_of_ascii c with
  | 32%nat | 9%nat | 10%nat | 13%nat => true
  | _ => false
  end.

Fixpoint is_blank (s : string) : bool :=
  match s with
  | EmptyString => true
  | String c rest => is_space c && is_blank rest
  end.

(** Section 3 and 4.2: the type set is non-empty and no tag is blank. *)
Definition wf_filter (f : EventFilter) : bool :=
  negb (match event_types f with [] => true | _ => false end)
  && forallb (fun t => negb (is_blank t)) (event_types f).

Inductive FilterError := BadFilter.

(** Modelled from the spec: [createFilter(types, predicates?)] "fails
    with BadFilter if types is empty or any tag is blank"; an omitted
    predicate list is the empty list. *)
Definition createFilter (types : list string) (predicates : list object)
  : FilterError + EventFilter :=
  let f := mkFilter types predicates in
  if wf_filter f then inr f else inl BadFilter.

(** Modelled from the spec: "returns a new filter whose predicate list
    has one additional subset equal to obj". *)
Definition withPayloadPredicates (obj : object) (f : EventFilter) : EventFilter :=
  mkFilter (event_types f) (payload_predicates f ++ [obj])%list.

(** Modelled from the spec: "one additional subset { key: value }". *)
Definition withPayloadPredicate (key : string) (value : json) (f : EventFilter)
  : EventFilter :=
  withPayloadPredicates [(key, value)] f.

(** Modelled from the spec: JSON subset containment (section 3 and the
    glossary).  [contains big small] holds when [small] is contained in
    [big]: scalars by structural equality, objects key by key and
    recursively, arrays by containment of every listed element. *)
Fixpoint contains (big small : json) {struct small} : bool :=
  match small, big with
  | JNull, JNull => true
  | JBool a, JBool b => Bool.eqb a b
  | JNum a, JNum b => PrimFloat.Leibniz.eqb a b
  | JStr a, JStr b => String.eqb a b
  | JArr xs, JArr ys =>
      forallb (fun x => existsb (fun y => contains y x) ys) xs
  | JObj ps, JObj qs =>
      forallb (fun kv => match lookup (fst kv) qs with
                         | Some w => contains w (snd kv)
                         | None => false
                         end) ps
  | _, _ => false
  end.

Definition is_nil {A : Type} (l : list A) : bool :=
  match l with [] => true | _ => false end.

(** Modelled from the spec (4.2, "Matching semantics (authoritative)"):
    the type is in the set AND (the predicate list is empty OR some
    predicate is contained in the payload). *)
Definition matches_filter (f : EventFilter) (ty : string) (payload : object) : bool :=
  existsb (String.eqb ty) (event_types f)
  && (is_nil (payload_predicates f)
      || existsb (fun p => contains (JObj payload) (JObj p)) (payload_predicates f)).

(** Two filters have the same scope when they have the same set of
    type tags and the same list of predicates. *)
Definition same_scope (f g : EventFilter) : Prop :=
  (forall t, In t (event_types f) <-> In t (event_types g))
  /\ payload_predicates f = payload_predicates g.

End Filter.
Export Filter.

(* ================================================================== *)
(** ** Event records, exceptions and the store interface *)

Module Runtime.

(** The record a slice reads: its data fields, and the [eventType]
    member of the [HasEventType] interface when the record has one
    ([Some r] is a method returning [r]; rows read back from a store
    carry data fields only). *)
Record EventRecord : Type := mkRecord {
  fields : object;
  eventType : option json
}.

(** [e.key] *)
Definition get (e : EventRecord) (key : string) : jsval := lookup key (fields e).

(** [e.event_type || (e.eventType && e.eventType())] *)
Definition typeTag (e : EventRecord) : jsval :=
  js_or (get e "event_type")
        (match eventType e with
         | None => None            (* e.eventType is undefined: no call *)
         | Some r => Some r        (* e.eventType() *)
         end).

(** The error taxonomy of the store (section 7 of the specification). *)
Inductive StoreError :=
| ErrBadFilter
| ErrBadEvent
| ConcurrencyConflict
| StoreUnavailable
| StoreInternal.

(** What a call can throw. *)
Inductive exn :=
| TypeError
| StoreFailure (e : StoreError)
| Thrown (what : string).

(** An awaited computation over a store state [S]. *)
Definition M (S A : Type) : Type := S -> (exn + A) * S.

Definition ret {S A : Type} (a : A) : M S A := fun s => (inr a, s).

Definition throw {S A : Type} (e : exn) : M S A := fun s => (inl e, s).

Definition bind {S A B : Type} (m : M S A) (k : A -> M S B) : M S B :=
  fun s => match m s with
           | (inr a, s') => k a s'
           | (inl e, s') => (inl e, s')
           end.

(** [try { body } catch (error) { handler }] *)
Definition try_catch {S A : Type} (body : M S A) (handler : exn -> M S A) : M S A :=
  fun s => match body s with
           | (inr a, s') => (inr a, s')
           | (inl e, s') => handler e s'
           end.

(** What a call of an async method gives its caller: it throws before
    there is a promise, or it returns a promise, which settles
    (fulfilled with a value, or rejected with an error) at some time. *)
Inductive Called (A : Type) : Type :=
| Threw (e : exn)
| Promised (settled_at : nat) (outcome : exn + A).
Arguments Threw {A} e.
Arguments Promised {A} settled_at outcome.

Definition Call (S A : Type) : Type := S -> Called A * S.

(** What [await] makes of a call. *)
Definition outcome_of {A : Type} (c : Called A) : exn + A :=
  match c with
  | Threw e => inl e
  | Promised _ r => r
  end.

(** [await call] *)
Definition await {S A : Type} (call : Call S A) : M S A :=
  fun s => let (c, s') := call s in (outcome_of c, s').

(** A call of an [async function]: the body runs and the promise
    returned is settled with what the body gave; the call itself does
    not throw. *)
Definition async {S A : Type} (body : M S A) : Call S A :=
  fun s => let (r, s') := body s in (Promised 0 r, s').

(** Of two rejections the one that came first, the one listed first
    when they came together. *)
Definition sooner (ta : nat) (ea : exn) (tb : nat) (eb : exn) : nat * exn :=
  if (tb <? ta)%nat then (tb, eb) else (ta, ea).
Arguments sooner : simpl never.

(** What [Promise.all] makes of three promises: their values, or the
    reason of the promise rejected first. *)
Definition all3 {A : Type} (ta : nat) (ra : exn + A) (tb : nat) (rb : exn + A)
           (tc : nat) (rc : exn + A) : exn + A * A * A :=
  match ra, rb, rc with
  | inr x, inr y, inr z => inr (x, y, z)
  | inl ea, inr _, inr _ => inl ea
  | inr _, inl eb, inr _ => inl eb
  | inr _, inr _, inl ec => inl ec
  | inl ea, inl eb, inr _ => inl (snd (sooner ta ea tb eb))
  | inl ea, inr _, inl ec => inl (snd (sooner ta ea tc ec))
  | inr _, inl eb, inl ec => inl (snd (sooner tb eb tc ec))
  | inl ea, inl eb, inl ec =>
      let (t, e) := sooner ta ea tb eb in inl (snd (sooner t e tc ec))
  end.

(** [await Promise.all([a, b, c])]: the array literal makes the three
    calls in this order, and a call that throws ends it there; the
    promises returned are then awaited together. *)
Definition promise_all3 {S A : Type} (a b c : Call S A) : M S (A * A * A) :=
  fun s =>
    match a s with
    | (Threw e, s1) => (inl e, s1)
    | (Promised ta ra, s1) =>
        match b s1 with
        | (Threw e, s2) => (inl e, s2)
        | (Promised tb rb, s2) =>
            match c s2 with
            | (Threw e, s3) => (inl e, s3)
            | (Promised tc rc, s3) => (all3 ta ra tb rb tc rc, s3)
            end
        end
    end.

(** What [eventStore.query] resolves to: some slices use it as a bare
    array, another as [{ events, maxSequenceNumber }]. *)
Inductive QueryValue :=
| QArray (events : list EventRecord)
| QRecord (events : list EventRecord) (maxSequenceNumber : Z).

(** Using the value as an array ([.find], [.filter], [.map], spread):
    a plain object has none of these and is not iterable. *)
Definition as_array {S : Type} (v : QueryValue) : M S (list EventRecord) :=
  match v with
  | QArray evs => ret evs
  | QRecord _ _ => throw TypeError
  end.

(** [[...v.events]]: on an array [v.events] is [undefined], which is
    not iterable. *)
Definition events_of {S : Type} (v : QueryValue) : M S (list EventRecord) :=
  match v with
  | QRecord evs _ => ret evs
  | QArray _ => throw TypeError
  end.

(** [v.maxSequenceNumber], read after [v.events] was spread. *)
Definition maxSequenceNumber_of {S : Type} (v : QueryValue) : M S Z :=
  match v with
  | QRecord _ m => ret m
  | QArray _ => throw TypeError
  end.

(** [IEventStore]: [query(filter)] and
    [append(filter, events, expectedMaxSequenceNumber?)]. *)
Class IEventStore (S : Type) : Type := {
  query : EventFilter -> Call S QueryValue;
  append : EventFilter -> list EventRecord -> option Z -> Call S unit
}.

(** [EventFilter.createFilter(...)] as a call that may throw. *)
Definition newFilter {S : Type} (types : list string) (predicates : list object)
  : M S EventFilter :=
  match createFilter types predicates with
  | inr f => ret f
  | inl BadFilter => throw (StoreFailure ErrBadFilter)
  end.

(** [{ success: true, event } | { success: false, error: { type, message } }] *)
Inductive Result (E : Type) : Type :=
| Success (event : E)
| Failure (type message : string).
Arguments Success {E} event.
Arguments Failure {E} type message.

(** A field of a class instance; an [undefined] value reads the same
    as a missing key. *)
Definition field (key : string) (v : jsval) : object :=
  match v with
  | Some j => [(key, j)]
  | None => []
  end.

End Runtime.
Export Runtime.

Declare Scope slice_scope.
Delimit Scope slice_scope with slice.
Notation "x <- m ;; k" := (bind m (fun x => k))
  (at level 61, m at next level, right associativity) : slice_scope.
Notation "m ;;; k" := (bind m (fun _ => k))
  (at level 61, right associativity) : slice_scope.

(* ================================================================== *)
(** ** Account state rebuilt from events

    [buildAccountState] appears with the same text in transfer-money
    and in both variants of withdraw-money. *)

Module Account.

Record AccountState : Type := mkAccount {
  balance : jsval;
  currency : jsval
}.

(** The predicate given to [events.find]. *)
Definition is_opening_of (accountId : string) (e : EventRecord) : bool :=
  is_str (typeTag e) "BankAccountOpened" && is_str (get e "accountId") accountId.

(** One turn of the [for (const event of events)] loop. *)
Definition apply_event (accountId : string) (openingEvent : EventRecord)
           (currentBalance : jsval) (event : EventRecord) : jsval :=
  let eventType := typeTag event in
  if is_str eventType "MoneyDeposited"
     && is_str (get event "accountId") accountId
     && strict_eq (get event "currency") (get openingEvent "currency")
  then js_add currentBalance (get event "amount")
  else if is_str eventType "MoneyWithdrawn"
          && is_str (get event "accountId") accountId
          && strict_eq (get event "currency") (get openingEvent "currency")
  then js_sub currentBalance (get event "amount")
  else if is_str eventType "MoneyTransferred"
          && strict_eq (get event "currency") (get openingEvent "currency")
  then
    if is_str (get event "fromAccountId") accountId
    then js_sub currentBalance (get event "amount")
    else if is_str (get event "toAccountId") accountId
    then js_add currentBalance (get event "amount")
    else currentBalance
  else currentBalance.

Definition buildAccountState (events : list EventRecord) (accountId : string)
  : option AccountState :=
  match find (is_opening_of accountId) events with
  | None => None
  | Some openingEvent =>
      Some {| balance := fold_left (apply_event accountId openingEvent) events
                                   (get openingEvent "initialDeposit");
              currency := get openingEvent "currency" |}
  end.

End Account.

(* ================================================================== *)
(** ** transfer-money *)

Module TransferMoney.
Import Account.
Local Open Scope slice_scope.

Record TransferMoneyCommand : Type := mkCommand {
  fromAccountId : string;
  toAccountId : string;
  amount : float;
  currency : jsval;        (* optional in the command *)
  transferId : string
}.

(** [result.event] of the decision function. *)
Record MoneyTransferred : Type := mkEvent {
  ev_fromAccountId : string;
  ev_toAccountId : string;
  ev_amount : float;
  ev_currency : jsval;
  ev_transferId : string;
  ev_timestamp : float
}.

Definition TransferResult := Result MoneyTransferred.

Record TransferState : Type := mkState {
  fromAccount : option AccountState;
  toAccount : option AccountState;
  existingTransferIds : list jsval
}.

(** [new MoneyTransferredEvent(...)]: an instance with its public
    fields and the [eventType()] method of its class. *)
Definition MoneyTransferredEvent (e : MoneyTransferred) : EventRecord :=
  {| fields := ([("fromAccountId", JStr (ev_fromAccountId e));
                 ("toAccountId", JStr (ev_toAccountId e));
                 ("amount", JNum (ev_amount e))]
                ++ field "currency" (ev_currency e)
                ++ [("transferId", JStr (ev_transferId e));
                    ("timestamp", JNum (ev_timestamp e))])%list;
     eventType := Some (JStr "MoneyTransferred") |}.

(** The filter built in [getTransferState]. *)
Definition contextTypes : list string :=
  ["BankAccountOpened"; "MoneyDeposited"; "MoneyWithdrawn"; "MoneyTransferred"].

Definition contextPredicates (fromAccountId toAccountId : string) : list object :=
  [ [("accountId", JStr fromAccountId)];
    [("accountId", JStr toAccountId)];
    [("toAccountId", JStr fromAccountId)];
    [("fromAccountId", JStr toAccountId)] ].

Section Slice.
Context {S : Type} {eventStore : IEventStore S}.
(** The pure decision function of [./core], a parameter here:
    command, balance of the source account, known transfer ids. *)
Variable processTransferCommand :
  TransferMoneyCommand -> jsval -> list jsval -> TransferResult.

Definition getTransferState (fromAccountId toAccountId : string) : M S TransferState :=
  filter <- newFilter contextTypes (contextPredicates fromAccountId toAccountId) ;;
  allEvents <- await (query filter) ;;
  allEvents <- as_array allEvents ;;
  ret {| fromAccount := buildAccountState allEvents fromAccountId;
         toAccount := buildAccountState allEvents toAccountId;
         existingTransferIds :=
           map (fun e => get e "transferId")
               (List.filter (fun e => is_str (typeTag e) "MoneyTransferred") allEvents) |}.

Definition effectiveCommand (command : TransferMoneyCommand) (account : AccountState)
  : TransferMoneyCommand :=
  {| fromAccountId := fromAccountId command;
     toAccountId := toAccountId command;
     amount := amount command;
     currency := js_or (currency command) (Account.currency account);
     transferId := transferId command |}.

Definition execute (command : TransferMoneyCommand) : M S TransferResult :=
  transferState <- getTransferState (fromAccountId command) (toAccountId command) ;;
  match fromAccount transferState with
  | None => ret (Failure "InsufficientFunds" "From account not found")
  | Some fromAcc =>
    match toAccount transferState with
    | None => ret (Failure "InsufficientFunds" "To account not found")
    | Some _ =>
      let result := processTransferCommand (effectiveCommand command fromAcc)
                      (balance fromAcc) (existingTransferIds transferState) in
      match result with
      | Failure _ _ => ret result
      | Success event =>
        try_catch
          (filter <- newFilter ["MoneyTransferred"] [] ;;
           let filter := withPayloadPredicate "transferId" (JStr (transferId command)) filter in
           await (append filter [MoneyTransferredEvent event] None) ;;;
           ret result)
          (fun _ => ret (Failure "InsufficientFunds" "Failed to save transfer event"))
      end
    end
  end.

End Slice.
End TransferMoney.

(* ================================================================== *)
(** ** deposit-money *)

Module DepositMoney.
Local Open Scope slice_scope.

Record DepositMoneyCommand : Type := mkCommand {
  accountId : string;
  amount : float;
  currency : jsval;
  depositId : string
}.

Record MoneyDeposited : Type := mkEvent {
  ev_accountId : string;
  ev_amount : float;
  ev_currency : jsval;
  ev_depositId : string;
  ev_timestamp : float
}.

Definition DepositResult := Result MoneyDeposited.

(** [{ currency: openingEvent.currency } | null] *)
Record DepositAccount : Type := mkAccount { acc_currency : jsval }.

Record DepositState : Type := mkState {
  account : option DepositAccount;
  existingDepositIds : list jsval
}.

Definition MoneyDepositedEvent (e : MoneyDeposited) : EventRecord :=
  {| fields := ([("accountId", JStr (ev_accountId e));
                 ("amount", JNum (ev_amount e))]
                ++ field "currency" (ev_currency e)
                ++ [("depositId", JStr (ev_depositId e));
                    ("timestamp", JNum (ev_timestamp e))])%list;
     eventType := Some (JStr "MoneyDeposited") |}.

Section Slice.
Context {S : Type} {eventStore : IEventStore S}.
Variable processDepositCommand : DepositMoneyCommand -> list jsval -> DepositResult.

Definition getDepositState (accountId : string) : M S DepositState :=
  filter <- newFilter ["BankAccountOpened"; "MoneyDeposited"] [] ;;
  let filter := withPayloadPredicates [("accountId", JStr accountId)] filter in
  events <- await (query filter) ;;
  events <- as_array events ;;
  let openingEvent := find (fun e => is_str (typeTag e) "BankAccountOpened") events in
  ret {| account := match openingEvent with
                    | Some o => Some {| acc_currency := get o "currency" |}
                    | None => None
                    end;
         existingDepositIds :=
           map (fun e => get e "depositId")
               (List.filter (fun e => is_str (typeTag e) "MoneyDeposited") events) |}.

Definition effectiveCommand (command : DepositMoneyCommand) (acc : DepositAccount)
  : DepositMoneyCommand :=
  {| accountId := accountId command;
     amount := amount command;
     currency := js_or (currency command) (acc_currency acc);
     depositId := depositId command |}.

Definition execute (command : DepositMoneyCommand) : M S DepositResult :=
  depositState <- getDepositState (accountId command) ;;
  match account depositState with
  | None => ret (Failure "InvalidAmount" "Account not found")
  | Some acc =>
    let result := processDepositCommand (effectiveCommand command acc)
                    (existingDepositIds depositState) in
    match result with
    | Failure _ _ => ret result
    | Success event =>
      try_catch
        (filter <- newFilter ["MoneyDeposited"] [] ;;
         let filter := withPayloadPredicate "accountId" (JStr (accountId command)) filter in
         await (append filter [MoneyDepositedEvent event] None) ;;;
         ret result)
        (fun _ => ret (Failure "InvalidAmount" "Failed to save deposit event"))
    end
  end.

End Slice.
End DepositMoney.

(* ================================================================== *)
(** ** get-account *)

Module GetAccount.
Local Open Scope slice_scope.

Record GetAccountQuery : Type := mkQuery { accountId : string }.

Record BankAccount : Type := mkBankAccount {
  ba_accountId : jsval;
  ba_customerName : jsval;
  ba_accountType : jsval;
  ba_balance : jsval;
  ba_currency : jsval;
  ba_openedAt : jsval
}.

(** One turn of the loop of [getAccountViewState]: unlike
    [buildAccountState] it does not compare [event.accountId]. *)
Definition apply_event (accountId : string) (openingEvent : EventRecord)
           (currentBalance : jsval) (event : EventRecord) : jsval :=
  let eventType := typeTag event in
  if is_str eventType "MoneyDeposited"
     && strict_eq (get event "currency") (get openingEvent "currency")
  then js_add currentBalance (get event "amount")
  else if is_str eventType "MoneyWithdrawn"
          && strict_eq (get event "currency") (get openingEvent "currency")
  then js_sub currentBalance (get event "amount")
  else if is_str eventType "MoneyTransferred"
          && strict_eq (get event "currency") (get openingEvent "currency")
  then
    if is_str (get event "fromAccountId") accountId
    then js_sub currentBalance (get event "amount")
    else if is_str (get event "toAccountId") accountId
    then js_add currentBalance (get event "amount")
    else currentBalance
  else currentBalance.

Section Slice.
Context {S : Type} {eventStore : IEventStore S}.

Definition getAccountViewState (accountId : string) : M S (option BankAccount) :=
  accountEventsFilter <- newFilter ["BankAccountOpened"; "MoneyDeposited"; "MoneyWithdrawn"] [] ;;
  let accountEventsFilter :=
    withPayloadPredicates [("accountId", JStr accountId)] accountEventsFilter in
  transferFromFilter <- newFilter ["MoneyTransferred"] [] ;;
  let transferFromFilter :=
    withPayloadPredicates [("fromAccountId", JStr accountId)] transferFromFilter in
  transferToFilter <- newFilter ["MoneyTransferred"] [] ;;
  let transferToFilter :=
    withPayloadPredicates [("toAccountId", JStr accountId)] transferToFilter in
  rs <- promise_all3 (query accountEventsFilter) (query transferFromFilter)
                     (query transferToFilter) ;;
  let '(accountEvents, transferFromEvents, transferToEvents) := rs in
  accountEvents <- as_array accountEvents ;;
  transferFromEvents <- as_array transferFromEvents ;;
  transferToEvents <- as_array transferToEvents ;;
  let allEvents := (accountEvents ++ transferFromEvents ++ transferToEvents)%list in
  match find (fun e => is_str (typeTag e) "BankAccountOpened") allEvents with
  | None => ret None
  | Some openingEvent =>
      ret (Some {| ba_accountId := get openingEvent "accountId";
                   ba_customerName := get openingEvent "customerName";
                   ba_accountType := get openingEvent "accountType";
                   ba_balance := fold_left (apply_event accountId openingEvent) allEvents
                                           (get openingEvent "initialDeposit");
                   ba_currency := get openingEvent "currency";
                   ba_openedAt := get openingEvent "openedAt" |})
  end.

Definition execute (q : GetAccountQuery) : M S (option BankAccount) :=
  getAccountViewState (accountId q).

End Slice.
End GetAccount.

(* ================================================================== *)
(** ** withdraw-money

    The repository holds two variants of the slice; this is the one
    that appends without an expected sequence number. *)

Module WithdrawMoney.
Import Account.
Local Open Scope slice_scope.

Record WithdrawMoneyCommand : Type := mkCommand {
  accountId : string;
  amount : float;
  currency : jsval;
  withdrawalId : string
}.

Record MoneyWithdrawn : Type := mkEvent {
  ev_accountId : string;
  ev_amount : float;
  ev_currency : jsval;
  ev_withdrawalId : string;
  ev_timestamp : float
}.

Definition WithdrawResult := Result MoneyWithdrawn.

Record WithdrawState : Type := mkState {
  account : option AccountState;
  existingWithdrawalIds : list jsval
}.

Definition MoneyWithdrawnEvent (e : MoneyWithdrawn) : EventRecord :=
  {| fields := ([("accountId", JStr (ev_accountId e));
                 ("amount", JNum (ev_amount e))]
                ++ field "currency" (ev_currency e)
                ++ [("withdrawalId", JStr (ev_withdrawalId e));
                    ("timestamp", JNum (ev_timestamp e))])%list;
     eventType := Some (JStr "MoneyWithdrawn") |}.

Definition effectiveCommand (command : WithdrawMoneyCommand) (acc : AccountState)
  : WithdrawMoneyCommand :=
  {| accountId := accountId command;
     amount := amount command;
     currency := js_or (currency command) (Account.currency acc);
     withdrawalId := withdrawalId command |}.

Section Slice.
Context {S : Type} {eventStore : IEventStore S}.
Variable processWithdrawCommand :
  WithdrawMoneyCommand -> jsval -> list jsval -> WithdrawResult.

Definition getWithdrawState (accountId : string) : M S WithdrawState :=
  accountEventsFilter <- newFilter ["BankAccountOpened"; "MoneyDeposited"; "MoneyWithdrawn"] [] ;;
  let accountEventsFilter :=
    withPayloadPredicates [("accountId", JStr accountId)] accountEventsFilter in
  transferFromFilter <- newFilter ["MoneyTransferred"] [] ;;
  let transferFromFilter :=
    withPayloadPredicates [("fromAccountId", JStr accountId)] transferFromFilter in
  transferToFilter <- newFilter ["MoneyTransferred"] [] ;;
  let transferToFilter :=
    withPayloadPredicates [("toAccountId", JStr accountId)] transferToFilter in
  rs <- promise_all3 (query accountEventsFilter) (query transferFromFilter)
                     (query transferToFilter) ;;
  let '(accountEvents, transferFromEvents, transferToEvents) := rs in
  accountEvents <- as_array accountEvents ;;
  transferFromEvents <- as_array transferFromEvents ;;
  transferToEvents <- as_array transferToEvents ;;
  let allEvents := (accountEvents ++ transferFromEvents ++ transferToEvents)%list in
  ret {| account := buildAccountState allEvents accountId;
         existingWithdrawalIds :=
           map (fun e => get e "withdrawalId")
               (List.filter (fun e => is_str (typeTag e) "MoneyWithdrawn") accountEvents) |}.

Definition execute (command : WithdrawMoneyCommand) : M S WithdrawResult :=
  withdrawState <- getWithdrawState (accountId command) ;;
  match account withdrawState with
  | None => ret (Failure "InsufficientFunds" "Account not found")
  | Some acc =>
    let result := processWithdrawCommand (effectiveCommand command acc)
                    (balance acc) (existingWithdrawalIds withdrawState) in
    match result with
    | Failure _ _ => ret result
    | Success event =>
      try_catch
        (filter <- newFilter ["MoneyWithdrawn"] [] ;;
         let filter := withPayloadPredicate "accountId" (JStr (accountId command)) filter in
         await (append filter [MoneyWithdrawnEvent event] None) ;;;
         ret result)
        (fun _ => ret (Failure "InsufficientFunds" "Failed to save withdrawal event"))
    end
  end.

End Slice.
End WithdrawMoney.

(* ================================================================== *)
(** ** withdraw-money, second variant

    The same command, event and decision function; the state comes
    with the highest sequence number read, and [append] is given it as
    the expected value. *)

Module WithdrawMoney2.
Import Account.
Local Open Scope slice_scope.

(** [{ state, maxSequenceNumber }] *)
Record WithdrawStateResult : Type := mkStateResult {
  state : WithdrawMoney.WithdrawState;
  maxSequenceNumber : Z
}.

(** The filter built in [execute]. *)
Definition appendTypes : list string :=
  ["BankAccountOpened"; "MoneyDeposited"; "MoneyWithdrawn"; "MoneyTransferred"].

Definition appendPredicates (accountId : string) : list object :=
  [ [("accountId", JStr accountId)];
    [("fromAccountId", JStr accountId)];
    [("toAccountId", JStr accountId)] ].

Section Slice.
Context {S : Type} {eventStore : IEventStore S}.
Variable processWithdrawCommand :
  WithdrawMoney.WithdrawMoneyCommand -> jsval -> list jsval -> WithdrawMoney.WithdrawResult.

Definition getWithdrawState (accountId : string) : M S WithdrawStateResult :=
  accountEventsFilter <- newFilter ["BankAccountOpened"; "MoneyDeposited"; "MoneyWithdrawn"] [] ;;
  let accountEventsFilter :=
    withPayloadPredicates [("accountId", JStr accountId)] accountEventsFilter in
  transferFromFilter <- newFilter ["MoneyTransferred"] [] ;;
  let transferFromFilter :=
    withPayloadPredicates [("fromAccountId", JStr accountId)] transferFromFilter in
  transferToFilter <- newFilter ["MoneyTransferred"] [] ;;
  let transferToFilter :=
    withPayloadPredicates [("toAccountId", JStr accountId)] transferToFilter in
  rs <- promise_all3 (query accountEventsFilter) (query transferFromFilter)
                     (query transferToFilter) ;;
  let '(accountEventsResult, transferFromEventsResult, transferToEventsResult) := rs in
  accountEvents <- events_of accountEventsResult ;;
  transferFromEvents <- events_of transferFromEventsResult ;;
  transferToEvents <- events_of transferToEventsResult ;;
  let allEvents := (accountEvents ++ transferFromEvents ++ transferToEvents)%list in
  m1 <- maxSequenceNumber_of accountEventsResult ;;
  m2 <- maxSequenceNumber_of transferFromEventsResult ;;
  m3 <- maxSequenceNumber_of transferToEventsResult ;;
  ret {| state := {| WithdrawMoney.account := buildAccountState allEvents accountId;
                     WithdrawMoney.existingWithdrawalIds :=
                       map (fun e => get e "withdrawalId")
                           (List.filter (fun e => is_str (typeTag e) "MoneyWithdrawn")
                                        accountEvents) |};
         maxSequenceNumber := math_max3 m1 m2 m3 |}.

Definition execute (command : WithdrawMoney.WithdrawMoneyCommand)
  : M S WithdrawMoney.WithdrawResult :=
  withdrawStateResult <- getWithdrawState (WithdrawMoney.accountId command) ;;
  match WithdrawMoney.account (state withdrawStateResult) with
  | None => ret (Failure "InsufficientFunds" "Account not found")
  | Some acc =>
    let result := processWithdrawCommand (WithdrawMoney.effectiveCommand command acc)
                    (balance acc)
                    (WithdrawMoney.existingWithdrawalIds (state withdrawStateResult)) in
    match result with
    | Failure _ _ => ret result
    | Success event =>
      try_catch
        (filter <- newFilter appendTypes (appendPredicates (WithdrawMoney.accountId command)) ;;
         await (append filter [WithdrawMoney.MoneyWithdrawnEvent event]
                       (Some (maxSequenceNumber withdrawStateResult))) ;;;
         ret result)
        (fun _ => ret (Failure "InsufficientFunds" "Failed to save withdrawal event"))
    end
  end.

End Slice.
End WithdrawMoney2.

(* ================================================================== *)
(** ** open-bank-account *)

Module OpenBankAccount.
Local Open Scope slice_scope.

Record OpenBankAccountCommand : Type := mkCommand {
  customerName : string;
  accountType : jsval;
  initialDeposit : option float;
  currency : jsval
}.

Record BankAccountOpened : Type := mkEvent {
  ev_accountId : string;
  ev_customerName : string;
  ev_accountType : jsval;
  ev_initialDeposit : float;
  ev_currency : jsval;
  ev_openedAt : float
}.

Definition OpenAccountResult := Result BankAccountOpened.

Definition BankAccountOpenedEvent (e : BankAccountOpened) : EventRecord :=
  {| fields := ([("accountId", JStr (ev_accountId e));
                 ("customerName", JStr (ev_customerName e))]
                ++ field "accountType" (ev_accountType e)
                ++ [("initialDeposit", JNum (ev_initialDeposit e))]
                ++ field "currency" (ev_currency e)
                ++ [("openedAt", JNum (ev_openedAt e))])%list;
     eventType := Some (JStr "BankAccountOpened") |}.

Section Slice.
Context {S : Type} {eventStore : IEventStore S}.
Variable processOpenAccountCommand :
  OpenBankAccountCommand -> string -> list jsval -> OpenAccountResult.

Definition getOpenAccountState (customerName : string) : M S (list jsval) :=
  filter <- newFilter ["BankAccountOpened"] [] ;;
  allEvents <- await (query filter) ;;
  allEvents <- as_array allEvents ;;
  ret (map (fun e => get e "customerName") allEvents).

(** [accountId] is the value [uuidv4()] returned for this call. *)
Definition execute (accountId : string) (command : OpenBankAccountCommand)
  : M S OpenAccountResult :=
  existingCustomerNames <- getOpenAccountState (customerName command) ;;
  let result := processOpenAccountCommand command accountId existingCustomerNames in
  match result with
  | Failure _ _ => ret result
  | Success event =>
    try_catch
      (filter <- newFilter ["BankAccountOpened"] [] ;;
       let filter := withPayloadPredicate "customerName" (JStr (customerName command)) filter in
       await (append filter [BankAccountOpenedEvent event] None) ;;;
       ret result)
      (fun _ => ret (Failure "InvalidCustomerName" "Failed to save account opening event"))
  end.

End Slice.
End OpenBankAccount.

(* ================================================================== *)
(** ** The event store

    The implementation of the store is outside the files embedded
    here (the README gives its interface, schema and append
    statement), so it is modelled from the specification.  The model
    is of an open, reachable store: [StoreUnavailable] and
    [StoreInternal] never arise in it. *)

Module Store.

(** Modelled from the spec: the backend row of section 6,
    [{ sequence_number, occurred_at, event_type, payload, metadata }]. *)
Record StoredEvent : Type := mkRow {
  sequence_number : Z;
  occurred_at : Z;
  event_type : string;
  payload : object;
  metadata : object
}.

(** Modelled from the spec: the log in insertion order, the next value
    of the sequence (gaps are allowed, so it is kept apart from the
    log) and the server clock that stamps [occurred_at]. *)
Record State : Type := mkStore {
  log : list StoredEvent;
  next_seq : Z;
  clock : Z
}.

Definition empty : State := {| log := []; next_seq := 1; clock := 0 |}.

Definition row_matches (f : EventFilter) (r : StoredEvent) : bool :=
  matches_filter f (event_type r) (payload r).

Definition select (f : EventFilter) (rows : list StoredEvent) : list StoredEvent :=
  List.filter (row_matches f) rows.

(** Modelled from the spec: "the largest sequence_number among the
    returned events, or 0 if none match". *)
Definition max_seq_of (rows : list StoredEvent) : Z :=
  match rows with
  | [] => 0
  | r :: rest => fold_left (fun m r' => Z.max m (sequence_number r')) rest (sequence_number r)
  end.

Definition currentMaxSeq (f : EventFilter) (st : State) : Z :=
  max_seq_of (select f (log st)).

(** Modelled from the spec: a returned record "carries its event_type
    as a data field", with [sequence_number] and [occurred_at]; the
    slices read the payload's keys ([accountId], [amount], ...) on the
    record itself, so the payload's members are its further fields. *)
Definition deliver (r : StoredEvent) : EventRecord :=
  {| fields := ("event_type", JStr (event_type r))
               :: ("sequence_number", JNum (Number.of_Z (sequence_number r)))
               :: ("occurred_at", JNum (Number.of_Z (occurred_at r)))
               :: payload r;
     eventType := None |}.

(** The README declares [query] as resolving to the events alone; the
    specification (4.3) as resolving to the events with
    [maxSequenceNumber]. *)
Inductive Shape := BareArray | WithMax.

Definition pack (shape : Shape) (rows : list StoredEvent) : QueryValue :=
  match shape with
  | BareArray => QArray (map deliver rows)
  | WithMax => QRecord (map deliver rows) (max_seq_of rows)
  end.

(** Modelled from the spec (4.3): every matching event, in log order;
    [BadFilter] for a malformed filter; the log is not changed. *)
Definition query_store (shape : Shape) (f : EventFilter) : M State QueryValue :=
  fun st =>
    if wf_filter f
    then (inr (pack shape (select f (log st))), st)
    else (inl (StoreFailure ErrBadFilter), st).

(** The tag an appended event provides: the result of its
    [eventType()] (README, [HasEventType]); it must be a non-empty
    string. *)
Definition event_tag (e : EventRecord) : option string :=
  match eventType e with
  | Some (JStr t) => if String.eqb t "" then None else Some t
  | _ => None
  end.

(** Rows for a batch, numbered from [n] in the caller's order. *)
Fixpoint to_rows (n now : Z) (events : list EventRecord) : option (list StoredEvent) :=
  match events with
  | [] => Some []
  | e :: rest =>
      match event_tag e, to_rows (n + 1) now rest with
      | Some t, Some rows =>
          Some ({| sequence_number := n; occurred_at := now; event_type := t;
                   payload := fields e; metadata := [] |} :: rows)
      | _, _ => None
      end
  end.

(** Modelled from the spec (4.4), as one atomic step (the README gives
    the statement: a common table expression computes
    [MAX(sequence_number)] for the filter and the [INSERT] selects from
    it under [COALESCE(max_seq, 0) = expected]):
    1. recompute the current maximum for the filter ([BadFilter] when
       the filter is malformed);
    2. when an expected value is supplied and differs, fail with
       [ConcurrencyConflict];
    3. otherwise insert the events in order, all or none ([BadEvent]
       for an event without a type tag).
    A failed call leaves the state as it was. *)
Definition append_store (f : EventFilter) (events : list EventRecord)
           (expectedMaxSequenceNumber : option Z) : M State unit :=
  fun st =>
    if negb (wf_filter f) then (inl (StoreFailure ErrBadFilter), st)
    else
      let currentMax := currentMaxSeq f st in
      let conflict := match expectedMaxSequenceNumber with
                      | Some expected => negb (currentMax =? expected)
                      | None => false
                      end in
      if conflict then (inl (StoreFailure ConcurrencyConflict), st)
      else
        match to_rows (next_seq st) (clock st) events with
        | None => (inl (StoreFailure ErrBadEvent), st)
        | Some rows =>
            (inr tt, {| log := (log st ++ rows)%list;
                        next_seq := next_seq st + Z.of_nat (List.length rows);
                        clock := clock st |})
        end.

Definition eventStore (shape : Shape) : IEventStore State :=
  {| query := fun f => async (query_store shape f);
     append := fun f events expected => async (append_store f events expected) |}.

(** The store of the README's interface and the store of the
    specification. *)
Definition arrayStore : IEventStore State := eventStore BareArray.
Definition recordStore : IEventStore State := eventStore WithMax.

(** The ordering invariant of the log: sequence numbers are positive,
    strictly ascending along the log, and below the next value of the
    sequence. *)
Fixpoint ascending_from (lo : Z) (rows : list StoredEvent) : bool :=
  match rows with
  | [] => true
  | r :: rest => (lo <? sequence_number r) && ascending_from (sequence_number r) rest
  end.

Definition store_ok (st : State) : bool :=
  ascending_from 0 (log st)
  && forallb (fun r => sequence_number r <? next_seq st) (log st)
  && (0 <? next_seq st).

(** *** Two racing appends

    An append is one atomic step, so two concurrent calls interleave
    in one of two ways. *)
Record AppendCall : Type := mkCall {
  call_filter : EventFilter;
  call_events : list EventRecord;
  call_expected : option Z
}.

Definition run_call (c : AppendCall) : M State unit :=
  append_store (call_filter c) (call_events c) (call_expected c).

Inductive Schedule := FirstThenSecond | SecondThenFirst.

(** The outcomes of caller [a] and of caller [b], and the final state. *)
Definition race (a b : AppendCall) (sched : Schedule) (st : State)
  : (exn + unit) * (exn + unit) * State :=
  match sched with
  | FirstThenSecond =>
      let (ra, st1) := run_call a st in
      let (rb, st2) := run_call b st1 in
      (ra, rb, st2)
  | SecondThenFirst =>
      let (rb, st1) := run_call b st in
      let (ra, st2) := run_call a st1 in
      (ra, rb, st2)
  end.

(** The claim "at most one call succeeds and the other fails with
    ConcurrencyConflict". *)
Definition one_wins (ra rb : exn + unit) : Prop :=
  (ra = inr tt /\ rb = inl (StoreFailure ConcurrencyConflict))
  \/ (rb = inr tt /\ ra = inl (StoreFailure ConcurrencyConflict)).

(** *** JSON subset, as a relation

    "every key of p present in the payload with a structurally equal
    value, recursively for nested objects"; arrays by containment of
    every listed element. *)
Unset Elimination Schemes.
Inductive json_subset : json -> json -> Prop :=
| subset_null : json_subset JNull JNull
| subset_bool b : json_subset (JBool b) (JBool b)
| subset_num n : json_subset (JNum n) (JNum n)
| subset_str s : json_subset (JStr s) (JStr s)
| subset_arr xs ys :
    (forall x, In x xs -> exists y, In y ys /\ json_subset x y) ->
    json_subset (JArr xs) (JArr ys)
| subset_obj ps qs :
    (forall k v, In (k, v) ps -> exists w, lookup k qs = Some w /\ json_subset v w) ->
    json_subset (JObj ps) (JObj qs).
Set Elimination Schemes.

(** A row matches a filter, in the words of section 4.2. *)
Definition matches_spec (f : EventFilter) (r : StoredEvent) : Prop :=
  In (event_type r) (event_types f)
  /\ (payload_predicates f = []
      \/ exists p, In p (payload_predicates f) /\ json_subset (JObj p) (JObj (payload r))).

End Store.

(* ================================================================== *)
(** ** Recording the calls a slice makes *)

Module Trace.

(** A call and what it answered. *)
Inductive Call :=
| CQuery (filter : EventFilter) (outcome : exn + QueryValue)
| CAppend (filter : EventFilter) (events : list EventRecord) (expected : option Z)
          (outcome : exn + unit).

(** A store that behaves as [inner] and notes every call it receives. *)
Definition traced {S : Type} (inner : IEventStore S) : IEventStore (S * list Call) :=
  {| query := fun f st =>
       let (c, s') := @query S inner f (fst st) in
       (c, (s', (snd st ++ [CQuery f (outcome_of c)])%list));
     append := fun f events expected st =>
       let (c, s') := @append S inner f events expected (fst st) in
       (c, (s', (snd st ++ [CAppend f events expected (outcome_of c)])%list)) |}.

(** The calls made by running [m] from state [s]. *)
Definition calls_of {S A : Type} (m : M (S * list Call) A) (s : S) : list Call :=
  snd (snd (m (s, []))).

Definition query_filters (calls : list Call) : list EventFilter :=
  flat_map (fun c => match c with CQuery f _ => [f] | CAppend _ _ _ _ => [] end) calls.

Definition append_filters (calls : list Call) : list EventFilter :=
  flat_map (fun c => match c with CQuery _ _ => [] | CAppend f _ _ _ => [f] end) calls.


(** What a computation returned, when it did not throw. *)
Definition returns {S A : Type} (r : (exn + A) * S) : Prop := exists a, fst r = inr a.

(** Some [append] of the run threw. *)
Definition append_threw (calls : list Call) : Prop :=
  exists f events expected e, In (CAppend f events expected (inl e)) calls.

(** The claim "the filter passed to append is identical in scope to
    the filter used for the preceding query". *)
Definition scope_kept (calls : list Call) : Prop :=
  forall fq fa, In fq (query_filters calls) -> In fa (append_filters calls) ->
                same_scope fq fa.

(** A store whose [query] is that of [inner] and whose [append] always
    throws [e]. *)
Definition failing_append {S : Type} (e : exn) (inner : IEventStore S) : IEventStore S :=
  {| query := @query S inner; append := fun _ _ _ => async (throw e) |}.

(** A store resolves its queries to bare arrays, or to records. *)
Definition resolves_to_arrays {S : Type} (store : IEventStore S) : Prop :=
  forall f s, wf_filter f = true ->
              exists evs s', await (@query S store f) s = (inr (QArray evs), s').

Definition resolves_to_records {S : Type} (store : IEventStore S) : Prop :=
  forall f s, wf_filter f = true ->
              exists evs m s', await (@query S store f) s = (inr (QRecord evs m), s').

End Trace.

(* ================================================================== *)
(** ** Decision functions used to run the shells

    The [core] modules are parameters of the shells above; their unit
    tests describe them.  The functions below answer as those tests
    expect.  [now] is the value of [new Date()]. *)

Module Reference.

Definition supportedCurrencies : list string := ["USD"; "EUR"; "GBP"].

Definition supported (c : jsval) : bool :=
  existsb (fun s => is_str c s) supportedCurrencies.

(** The currency inside a template literal. *)
Definition show (c : jsval) : string :=
  match c with
  | Some (JStr s) => s
  | None => "undefined"
  | Some JNull => "null"
  | Some _ => "[object]"
  end.

Definition unsupported (c : jsval) : string :=
  "Currency " ++ show c ++ " is not supported".

(** [ids.includes(id)] *)
Definition includes (ids : list jsval) (id : string) : bool :=
  existsb (fun v => is_str v id) ids.

(** [balance < amount], for a number [amount]. *)
Definition less (balance : jsval) (amount : float) : bool :=
  PrimFloat.ltb (to_number balance) amount.

Definition processTransferCommand (now : float)
           (command : TransferMoney.TransferMoneyCommand)
           (balance : jsval) (existingTransferIds : list jsval)
  : TransferMoney.TransferResult :=
  if String.eqb (TransferMoney.fromAccountId command) (TransferMoney.toAccountId command)
  then Failure "SameAccount" "Cannot transfer to the same account"
  else if PrimFloat.leb (TransferMoney.amount command) 0
  then Failure "InvalidAmount" "Transfer amount must be positive"
  else if PrimFloat.ltb (TransferMoney.amount command) 0.01
  then Failure "InvalidAmount" "Minimum transfer amount is 0.01"
  else if PrimFloat.ltb 50000 (TransferMoney.amount command)
  then Failure "InvalidAmount" "Maximum transfer amount is 50000"
  else if negb (supported (TransferMoney.currency command))
  then Failure "InvalidCurrency" (unsupported (TransferMoney.currency command))
  else if includes existingTransferIds (TransferMoney.transferId command)
  then Failure "DuplicateTransfer" "Transfer ID already exists"
  else if less balance (TransferMoney.amount command)
  then Failure "InsufficientFunds" "Insufficient funds for transfer"
  else Success {| TransferMoney.ev_fromAccountId := TransferMoney.fromAccountId command;
                  TransferMoney.ev_toAccountId := TransferMoney.toAccountId command;
                  TransferMoney.ev_amount := TransferMoney.amount command;
                  TransferMoney.ev_currency := TransferMoney.currency command;
                  TransferMoney.ev_transferId := TransferMoney.transferId command;
                  TransferMoney.ev_timestamp := now |}.

Definition processDepositCommand (now : float) (command : DepositMoney.DepositMoneyCommand)
           (existingDepositIds : list jsval) : DepositMoney.DepositResult :=
  if PrimFloat.leb (DepositMoney.amount command) 0
  then Failure "InvalidAmount" "Deposit amount must be positive"
  else if PrimFloat.ltb (DepositMoney.amount command) 0.01
  then Failure "InvalidAmount" "Minimum deposit amount is 0.01"
  else if PrimFloat.ltb 1000000 (DepositMoney.amount command)
  then Failure "InvalidAmount" "Maximum deposit amount is 1000000"
  else if negb (supported (DepositMoney.currency command))
  then Failure "InvalidCurrency" (unsupported (DepositMoney.currency command))
  else if includes existingDepositIds (DepositMoney.depositId command)
  then Failure "DuplicateDeposit" "Deposit ID already exists"
  else Success {| DepositMoney.ev_accountId := DepositMoney.accountId command;
                  DepositMoney.ev_amount := DepositMoney.amount command;
                  DepositMoney.ev_currency := DepositMoney.currency command;
                  DepositMoney.ev_depositId := DepositMoney.depositId command;
                  DepositMoney.ev_timestamp := now |}.

Definition processWithdrawCommand (now : float)
           (command : WithdrawMoney.WithdrawMoneyCommand)
           (balance : jsval) (existingWithdrawalIds : list jsval)
  : WithdrawMoney.WithdrawResult :=
  if PrimFloat.leb (WithdrawMoney.amount command) 0
  then Failure "InvalidAmount" "Withdrawal amount must be positive"
  else if PrimFloat.ltb (WithdrawMoney.amount command) 0.01
  then Failure "InvalidAmount" "Minimum withdrawal amount is 0.01"
  else if PrimFloat.ltb 10000 (WithdrawMoney.amount command)
  then Failure "InvalidAmount" "Maximum withdrawal amount is 10000"
  else if negb (supported (WithdrawMoney.currency command))
  then Failure "InvalidCurrency" (unsupported (WithdrawMoney.currency command))
  else if includes existingWithdrawalIds (WithdrawMoney.withdrawalId command)
  then Failure "DuplicateWithdrawal" "Withdrawal ID already exists"
  else if less balance (WithdrawMoney.amount command)
  then Failure "InsufficientFunds" "Insufficient funds for withdrawal"
  else Success {| WithdrawMoney.ev_accountId := WithdrawMoney.accountId command;
                  WithdrawMoney.ev_amount := WithdrawMoney.amount command;
                  WithdrawMoney.ev_currency := WithdrawMoney.currency command;
                  WithdrawMoney.ev_withdrawalId := WithdrawMoney.withdrawalId command;
                  WithdrawMoney.ev_timestamp := now |}.

Fixpoint ltrim (s : string) : string :=
  match s with
  | EmptyString => EmptyString
  | String c rest => if is_space c then ltrim rest else s
  end.

Fixpoint rtrim (s : string) : string :=
  match s with
  | EmptyString => EmptyString
  | String c rest =>
      let rest' := rtrim rest in
      if is_space c && String.eqb rest' "" then EmptyString else String c rest'
  end.

Definition trim (s : string) : string := rtrim (ltrim s).

(** After the README's [processOpenAccountCommand]; the event carries
    the trimmed name, as the unit test expects. *)
Definition processOpenAccountCommand (now : float)
           (command : OpenBankAccount.OpenBankAccountCommand) (accountId : string)
           (existingCustomerNames : list jsval) : OpenBankAccount.OpenAccountResult :=
  let accountType := js_or (OpenBankAccount.accountType command) (Some (JStr "checking")) in
  let currency := js_or (OpenBankAccount.currency command) (Some (JStr "USD")) in
  let name := trim (OpenBankAccount.customerName command) in
  let deposit := match OpenBankAccount.initialDeposit command with
                 | Some d => d
                 | None => zero
                 end in
  if String.eqb name ""
  then Failure "InvalidCustomerName" "Customer name is required"
  else if (String.length name <? 2)%nat
  then Failure "InvalidCustomerName" "Customer name must be at least 2 characters"
  else if PrimFloat.ltb deposit 0
  then Failure "InvalidInitialDeposit" "Initial deposit cannot be negative"
  else if PrimFloat.ltb 1000000 deposit
  then Failure "InvalidInitialDeposit" "Initial deposit cannot exceed 1000000"
  else if negb (supported currency)
  then Failure "InvalidCurrency" (unsupported currency)
  else if includes existingCustomerNames name
  then Failure "InvalidCustomerName" "Customer name already exists"
  else Success {| OpenBankAccount.ev_accountId := accountId;
                  OpenBankAccount.ev_customerName := name;
                  OpenBankAccount.ev_accountType := accountType;
                  OpenBankAccount.ev_initialDeposit := deposit;
                  OpenBankAccount.ev_currency := currency;
                  OpenBankAccount.ev_openedAt := now |}.

End Reference.
(* ================================================================== *)
(** ** The balance of an account, in the words of the claims *)

Module AccountSpec.
Import Account.

(** The type tag of an event as the specification words it: the
    [event_type] data field when the record has a truthy one, what the
    [eventType()] method returns otherwise. *)
Definition tag (e : EventRecord) : jsval :=
  match lookup "event_type" (fields e) with
  | Some v => if truthy (Some v) then Some v else eventType e
  | None => eventType e
  end.

(** The event is classified [t]. *)
Definition classified (e : EventRecord) (t : string) : bool :=
  strict_eq (tag e) (Some (JStr t)).

(** "An event classified BankAccountOpened with accountId = a". *)
Definition opens (a : string) (e : EventRecord) : bool :=
  classified e "BankAccountOpened" && strict_eq (get e "accountId") (Some (JStr a)).

Definition same_currency (o e : EventRecord) : bool :=
  strict_eq (get e "currency") (get o "currency").

(** The four kinds of events that move the balance of account [a]
    opened by [o]. *)
Definition is_deposit (a : string) (o e : EventRecord) : bool :=
  classified e "MoneyDeposited" && strict_eq (get e "accountId") (Some (JStr a))
  && same_currency o e.

Definition is_withdrawal (a : string) (o e : EventRecord) : bool :=
  classified e "MoneyWithdrawn" && strict_eq (get e "accountId") (Some (JStr a))
  && same_currency o e.

Definition is_outgoing (a : string) (o e : EventRecord) : bool :=
  classified e "MoneyTransferred" && same_currency o e
  && strict_eq (get e "fromAccountId") (Some (JStr a)).

Definition is_incoming (a : string) (o e : EventRecord) : bool :=
  classified e "MoneyTransferred" && same_currency o e
  && negb (strict_eq (get e "fromAccountId") (Some (JStr a)))
  && strict_eq (get e "toAccountId") (Some (JStr a)).

(** What an event does to the balance. *)
Inductive Movement := Credit | Debit | Nothing.

Definition movement (a : string) (o e : EventRecord) : Movement :=
  if is_deposit a o e || is_incoming a o e then Credit
  else if is_withdrawal a o e || is_outgoing a o e then Debit
  else Nothing.

Definition moved (a : string) (o : EventRecord) (b : jsval) (e : EventRecord) : jsval :=
  match movement a o e with
  | Credit => js_add b (get e "amount")
  | Debit => js_sub b (get e "amount")
  | Nothing => b
  end.

(** The opening deposit with the amounts added and subtracted one
    after the other, in the order of the events. *)
Definition spec_balance (events : list EventRecord) (a : string) (o : EventRecord) : jsval :=
  fold_left (moved a o) events (get o "initialDeposit").

(** The balance as a sum by kinds: the opening deposit, plus the
    amounts of the deposits, minus those of the withdrawals, minus
    those of the outgoing transfers, plus those of the incoming
    transfers. *)
Definition plus_amounts (p : EventRecord -> bool) (events : list EventRecord) (b : jsval)
  : jsval :=
  fold_left (fun b e => js_add b (get e "amount")) (List.filter p events) b.

Definition minus_amounts (p : EventRecord -> bool) (events : list EventRecord) (b : jsval)
  : jsval :=
  fold_left (fun b e => js_sub b (get e "amount")) (List.filter p events) b.

Definition sum_by_kinds (events : list EventRecord) (a : string) (o : EventRecord) : jsval :=
  plus_amounts (is_incoming a o) events
    (minus_amounts (is_outgoing a o) events
       (minus_amounts (is_withdrawal a o) events
          (plus_amounts (is_deposit a o) events (get o "initialDeposit")))).

(** [o] is the first event of [events] that opens account [a]. *)
Definition first_opening (events : list EventRecord) (a : string) (o : EventRecord) : Prop :=
  exists pre post,
    events = (pre ++ o :: post)%list
    /\ opens a o = true
    /\ forall e, In e pre -> opens a e = false.
End AccountSpec.

(* ================================================================== *)
(** ** Batches and induction on JSON values *)

Module StoreSpec.
Import Store.

(** Every event of the batch provides a type tag. *)
Definition batch_ok (events : list EventRecord) : bool :=
  forallb (fun e => match event_tag e with Some _ => true | None => false end) events.

(** Some event of the batch is in the scope of the filter. *)
Definition batch_touches (f : EventFilter) (events : list EventRecord) : bool :=
  existsb (fun e => match event_tag e with
                    | Some t => matches_filter f t (fields e)
                    | None => false
                    end) events.

(** The call that is served first under a schedule. *)
Definition served_first (a b : AppendCall) (sched : Schedule) : AppendCall :=
  match sched with
  | FirstThenSecond => a
  | SecondThenFirst => b
  end.

Definition served_second (a b : AppendCall) (sched : Schedule) : AppendCall :=
  match sched with
  | FirstThenSecond => b
  | SecondThenFirst => a
  end.

(** The outcomes in the order in which the calls were served. *)
Definition in_service_order (sched : Schedule) (ra rb : exn + unit)
  : (exn + unit) * (exn + unit) :=
  match sched with
  | FirstThenSecond => (ra, rb)
  | SecondThenFirst => (rb, ra)
  end.

Section JsonInduction.
Variable P : json -> Prop.
Hypothesis on_null : P JNull.
Hypothesis on_bool : forall b, P (JBool b).
Hypothesis on_num : forall n, P (JNum n).
Hypothesis on_str : forall s, P (JStr s).
Hypothesis on_arr : forall items, Forall P items -> P (JArr items).
Hypothesis on_obj : forall members, Forall (fun kv => P (snd kv)) members -> P (JObj members).

Fixpoint json_induction (j : json) : P j :=
  match j with
  | JNull => on_null
  | JBool b => on_bool b
  | JNum n => on_num n
  | JStr s => on_str s
  | JArr items =>
      on_arr items
        ((fix each (l : list json) : Forall P l :=
            match l with
            | [] => Forall_nil P
            | x :: rest => Forall_cons x (json_induction x) (each rest)
            end) items)
  | JObj members =>
      on_obj members
        ((fix each (l : list (string * json)) : Forall (fun kv => P (snd kv)) l :=
            match l with
            | [] => Forall_nil _
            | kv :: rest => Forall_cons kv (json_induction (snd kv)) (each rest)
            end) members)
  end.
End JsonInduction.

End StoreSpec.

(* ================================================================== *)
(** ** The filters each slice queries and appends with *)

Module Scopes.

(** transfer-money *)
Definition transferQuery (fromAccountId toAccountId : string) : EventFilter :=
  mkFilter TransferMoney.contextTypes
           (TransferMoney.contextPredicates fromAccountId toAccountId).

Definition transferAppend (transferId : string) : EventFilter :=
  mkFilter ["MoneyTransferred"] [ [("transferId", JStr transferId)] ].

(** deposit-money *)
Definition depositQuery (accountId : string) : EventFilter :=
  mkFilter ["BankAccountOpened"; "MoneyDeposited"] [ [("accountId", JStr accountId)] ].

Definition depositAppend (accountId : string) : EventFilter :=
  mkFilter ["MoneyDeposited"] [ [("accountId", JStr accountId)] ].

(** withdraw-money, both variants: the three queries *)
Definition accountEventsFilter (accountId : string) : EventFilter :=
  mkFilter ["BankAccountOpened"; "MoneyDeposited"; "MoneyWithdrawn"]
           [ [("accountId", JStr accountId)] ].

Definition transferFromFilter (accountId : string) : EventFilter :=
  mkFilter ["MoneyTransferred"] [ [("fromAccountId", JStr accountId)] ].

Definition transferToFilter (accountId : string) : EventFilter :=
  mkFilter ["MoneyTransferred"] [ [("toAccountId", JStr accountId)] ].

Definition withdrawQueries (accountId : string) : list EventFilter :=
  [accountEventsFilter accountId; transferFromFilter accountId; transferToFilter accountId].

(** withdraw-money, first variant *)
Definition withdrawAppend (accountId : string) : EventFilter :=
  mkFilter ["MoneyWithdrawn"] [ [("accountId", JStr accountId)] ].

(** withdraw-money, second variant *)
Definition withdrawAppend2 (accountId : string) : EventFilter :=
  mkFilter WithdrawMoney2.appendTypes (WithdrawMoney2.appendPredicates accountId).

(** open-bank-account *)
Definition openQuery : EventFilter := mkFilter ["BankAccountOpened"] [].

Definition openAppend (customerName : string) : EventFilter :=
  mkFilter ["BankAccountOpened"] [ [("customerName", JStr customerName)] ].

(** Every row in the scope of [f] is in the scope of [g]. *)
Definition covers (g f : EventFilter) : Prop :=
  forall r, Store.row_matches f r = true -> Store.row_matches g r = true.

End Scopes.

(* ================================================================== *)
(** ** A small bank, used to run the slices on concrete inputs *)

Module Sample.
Import Store.

Definition opened (seq : Z) (accountId customerName : string) (deposit : float) : StoredEvent :=
  {| sequence_number := seq; occurred_at := 0; event_type := "BankAccountOpened";
     payload := [("accountId", JStr accountId); ("customerName", JStr customerName);
                 ("accountType", JStr "checking"); ("initialDeposit", JNum deposit);
                 ("currency", JStr "USD"); ("openedAt", JNum 0)];
     metadata := [] |}.

Definition transferred (seq : Z) (fromAccountId toAccountId : string) (amount : float)
           (transferId : string) : StoredEvent :=
  {| sequence_number := seq; occurred_at := 0; event_type := "MoneyTransferred";
     payload := [("fromAccountId", JStr fromAccountId); ("toAccountId", JStr toAccountId);
                 ("amount", JNum amount); ("currency", JStr "USD");
                 ("transferId", JStr transferId); ("timestamp", JNum 0)];
     metadata := [] |}.

(** Two accounts: "acc-1" opened with 100 USD, "acc-2" with 50 USD. *)
Definition bank : State :=
  {| log := [opened 1 "acc-1" "Alice" 100; opened 2 "acc-2" "Bob" 50];
     next_seq := 3; clock := 0 |}.

(** The same bank after "acc-1" sent 80 USD to "acc-2". *)
Definition bank_after_transfer : State :=
  {| log := [opened 1 "acc-1" "Alice" 100; opened 2 "acc-2" "Bob" 50;
             transferred 3 "acc-1" "acc-2" 80 "t-0"];
     next_seq := 4; clock := 0 |}.

(** Commands that leave the currency out. *)
Definition transfer30 : TransferMoney.TransferMoneyCommand :=
  {| TransferMoney.fromAccountId := "acc-1"; TransferMoney.toAccountId := "acc-2";
     TransferMoney.amount := 30; TransferMoney.currency := None;
     TransferMoney.transferId := "t-1" |}.

Definition transfer80 : TransferMoney.TransferMoneyCommand :=
  {| TransferMoney.fromAccountId := "acc-1"; TransferMoney.toAccountId := "acc-2";
     TransferMoney.amount := 80; TransferMoney.currency := None;
     TransferMoney.transferId := "t-1" |}.

Definition deposit20 : DepositMoney.DepositMoneyCommand :=
  {| DepositMoney.accountId := "acc-1"; DepositMoney.amount := 20;
     DepositMoney.currency := None; DepositMoney.depositId := "d-1" |}.

Definition withdraw10 : WithdrawMoney.WithdrawMoneyCommand :=
  {| WithdrawMoney.accountId := "acc-1"; WithdrawMoney.amount := 10;
     WithdrawMoney.currency := None; WithdrawMoney.withdrawalId := "w-1" |}.

Definition openCarol : OpenBankAccount.OpenBankAccountCommand :=
  {| OpenBankAccount.customerName := "Carol"; OpenBankAccount.accountType := None;
     OpenBankAccount.initialDeposit := Some 10%float; OpenBankAccount.currency := None |}.

(** Stores whose [append] is out of reach. *)
Definition brokenArrayStore : IEventStore State :=
  Trace.failing_append (StoreFailure StoreUnavailable) arrayStore.

Definition brokenRecordStore : IEventStore State :=
  Trace.failing_append (StoreFailure StoreUnavailable) recordStore.

(** Records as a store delivers them, for account "acc-1". *)
Definition history : list EventRecord :=
  [ {| fields := [("event_type", JStr "BankAccountOpened"); ("accountId", JStr "acc-1");
                  ("initialDeposit", JNum 100); ("currency", JStr "USD")];
       eventType := None |};
    {| fields := [("event_type", JStr "MoneyDeposited"); ("accountId", JStr "acc-1");
                  ("amount", JNum 50); ("currency", JStr "USD")];
       eventType := None |};
    {| fields := [("event_type", JStr "MoneyWithdrawn"); ("accountId", JStr "acc-1");
                  ("amount", JNum 30); ("currency", JStr "USD")];
       eventType := None |};
    {| fields := [("event_type", JStr "MoneyTransferred"); ("fromAccountId", JStr "acc-1");
                  ("toAccountId", JStr "acc-2"); ("amount", JNum 20);
                  ("currency", JStr "USD")];
       eventType := None |};
    {| fields := [("event_type", JStr "MoneyTransferred"); ("fromAccountId", JStr "acc-2");
                  ("toAccountId", JStr "acc-1"); ("amount", JNum 5);
                  ("currency", JStr "USD")];
       eventType := None |};
    {| fields := [("event_type", JStr "MoneyDeposited"); ("accountId", JStr "acc-1");
                  ("amount", JNum 7); ("currency", JStr "EUR")];
       eventType := None |} ].

(** An account opened with nothing, and amounts that are no binary
    fractions. *)
Definition fractions : list EventRecord :=
  [ {| fields := [("event_type", JStr "BankAccountOpened"); ("accountId", JStr "acc-1");
                  ("initialDeposit", JNum 0); ("currency", JStr "USD")];
       eventType := None |};
    {| fields := [("event_type", JStr "MoneyDeposited"); ("accountId", JStr "acc-1");
                  ("amount", JNum 0.1); ("currency", JStr "USD")];
       eventType := None |};
    {| fields := [("event_type", JStr "MoneyWithdrawn"); ("accountId", JStr "acc-1");
                  ("amount", JNum 0.3); ("currency", JStr "USD")];
       eventType := None |};
    {| fields := [("event_type", JStr "MoneyDeposited"); ("accountId", JStr "acc-1");
                  ("amount", JNum 0.2); ("currency", JStr "USD")];
       eventType := None |} ].

(** Two callers appending, with the same filter and expectation, an
    event outside the scope of that filter. *)
Definition filterA : EventFilter := mkFilter ["A"] [].

Definition eventOf (tag : string) (x : float) : EventRecord :=
  {| fields := [("x", JNum x)]; eventType := Some (JStr tag) |}.

Definition callerOne : AppendCall :=
  {| call_filter := filterA; call_events := [eventOf "B" 1]; call_expected := Some 0 |}.

Definition callerTwo : AppendCall :=
  {| call_filter := filterA; call_events := [eventOf "B" 2]; call_expected := Some 0 |}.

(** Two callers appending an event inside the scope. *)
Definition callerThree : AppendCall :=
  {| call_filter := filterA; call_events := [eventOf "A" 3]; call_expected := Some 0 |}.

Definition callerFour : AppendCall :=
  {| call_filter := filterA; call_events := [eventOf "A" 4]; call_expected := Some 0 |}.

(** Scenario S6 of the specification. *)
Definition nested : StoredEvent :=
  {| sequence_number := 1; occurred_at := 0; event_type := "T";
     payload := [("a", JNum 1); ("b", JObj [("c", JNum 2)])]; metadata := [] |}.

Definition nestedStore : State := {| log := [nested]; next_seq := 2; clock := 0 |}.

Definition nestedFilter (c : float) : EventFilter :=
  mkFilter ["T"] [ [("b", JObj [("c", JNum c)])] ].

End Sample.

(* ================================================================== *)
(** ** A command that names no currency *)

Module CurrencySpec.





End CurrencySpec.

(* ================================================================== *)
(** ** Further vocabulary for the properties of the slices *)

Module Facts.
Import Account.

(** The event names account [a] in one of the three fields the slices
    compare with an account id. *)
Definition mentions (a : string) (e : EventRecord) : bool :=
  is_str (get e "accountId") a
  || is_str (get e "fromAccountId") a
  || is_str (get e "toAccountId") a.

(** The event moves the balance of account [a] opened by [o]: it is a
    deposit, a withdrawal or a transfer of the account in the currency
    of [o]. *)
Definition moves (a : string) (o e : EventRecord) : bool :=
  match AccountSpec.movement a o e with
  | AccountSpec.Nothing => false
  | _ => true
  end.

(** The event is what the account queries of get-account and
    withdraw-money return for account [a]: a transfer, or an event
    whose [accountId] is [a]. *)
Definition account_shaped (a : string) (e : EventRecord) : bool :=
  is_str (typeTag e) "MoneyTransferred" || is_str (get e "accountId") a.

(** The part of get-account's view that withdraw-money also computes. *)
Definition view_state (v : option GetAccount.BankAccount) : option AccountState :=
  match v with
  | Some b => Some {| balance := GetAccount.ba_balance b;
                      currency := GetAccount.ba_currency b |}
  | None => None
  end.

(** What [getAccountViewState] computes from the spread of its three
    query results. *)
Definition accountView (allEvents : list EventRecord) (accountId : string)
  : option GetAccount.BankAccount :=
  match find (fun e => is_str (typeTag e) "BankAccountOpened") allEvents with
  | None => None
  | Some openingEvent =>
      Some {| GetAccount.ba_accountId := get openingEvent "accountId";
              GetAccount.ba_customerName := get openingEvent "customerName";
              GetAccount.ba_accountType := get openingEvent "accountType";
              GetAccount.ba_balance :=
                fold_left (GetAccount.apply_event accountId openingEvent) allEvents
                          (get openingEvent "initialDeposit");
              GetAccount.ba_currency := get openingEvent "currency";
              GetAccount.ba_openedAt := get openingEvent "openedAt" |}
  end.

(** The records the three account queries deliver from a log, in the
    order in which the slices spread them. *)
Definition accountEvents (a : string) (st : Store.State) : list EventRecord :=
  (map Store.deliver (Store.select (Scopes.accountEventsFilter a) (Store.log st))
   ++ map Store.deliver (Store.select (Scopes.transferFromFilter a) (Store.log st))
   ++ map Store.deliver (Store.select (Scopes.transferToFilter a) (Store.log st)))%list.

(** The log holds no transfer to account [a]; no transfer from or to
    it. *)
Definition no_incoming (a : string) (st : Store.State) : Prop :=
  Store.select (Scopes.transferToFilter a) (Store.log st) = [].

Definition no_transfers (a : string) (st : Store.State) : Prop :=
  Store.select (Scopes.transferFromFilter a) (Store.log st) = [] /\ no_incoming a st.

(** The [append] calls among the noted calls. *)
Definition append_calls (calls : list Trace.Call) : list Trace.Call :=
  List.filter (fun c => match c with Trace.CAppend _ _ _ _ => true | _ => false end) calls.

(** How the result of a run relates to its [append] calls: none and no
    success; or one that returned, with success and the decided event
    as the whole batch; or one that threw, with a failure. *)
Definition reports_what_happened {E : Type} (record : E -> EventRecord)
           (result : exn + Result E) (calls : list Trace.Call) : Prop :=
  match append_calls calls with
  | [] => forall event, result <> inr (Success event)
  | [Trace.CAppend _ events _ (inr _)] =>
      exists event, result = inr (Success event) /\ events = [record event]
  | [Trace.CAppend _ _ _ (inl _)] => exists type message, result = inr (Failure type message)
  | _ => False
  end.

(** A computation throws exactly what its first phase throws, and
    returns once that phase has returned. *)
Definition throws_only_from {S A B : Type} (phase : (exn + A) * S) (run : (exn + B) * S)
  : Prop :=
  match fst phase with
  | inl e => fst run = inl e
  | inr _ => exists b, fst run = inr b
  end.

(** The row the store makes of record [e] under tag [tag], and the
    store after that row was added. *)
Definition row_of (st : Store.State) (tag : string) (e : EventRecord) : Store.StoredEvent :=
  {| Store.sequence_number := Store.next_seq st; Store.occurred_at := Store.clock st;
     Store.event_type := tag; Store.payload := fields e; Store.metadata := [] |}.

Definition added (st : Store.State) (r : Store.StoredEvent) : Store.State :=
  {| Store.log := (Store.log st ++ [r])%list;
     Store.next_seq := Store.next_seq st + 1;
     Store.clock := Store.clock st |}.

(** A run that adds the row of its event when it returns success, and
    leaves the store as it was otherwise. *)
Definition adds_its_event {E : Type} (tag : string) (record : E -> EventRecord)
           (st : Store.State) (run : (exn + Result E) * Store.State) : Prop :=
  match fst run with
  | inr (Success event) => snd run = added st (row_of st tag (record event))
  | _ => snd run = st
  end.

(** The row has the shape of the events the slices write: a transfer
    has no [accountId] key, any other event no [fromAccountId] and no
    [toAccountId] key. *)
Definition absent (key : string) (r : Store.StoredEvent) : bool :=
  match lookup key (Store.payload r) with
  | None => true
  | Some _ => false
  end.

Definition domain_row (r : Store.StoredEvent) : bool :=
  if String.eqb (Store.event_type r) "MoneyTransferred"
  then absent "accountId" r
  else absent "fromAccountId" r && absent "toAccountId" r.

(** The highest sequence number of a list of rows, 0 for none. *)
Definition highest (rows : list Store.StoredEvent) : Z :=
  fold_right (fun r m => Z.max (Store.sequence_number r) m) 0 rows.

(** The invariant of a log written by the slices: ordered sequence
    numbers, rows of domain shape. *)
Definition sound (st : Store.State) : Prop :=
  Store.store_ok st = true /\ Forall (fun r => domain_row r = true) (Store.log st).

(** No row of the log opens account [a]. *)
Definition unknown (a : string) (st : Store.State) : Prop :=
  forall r, In r (Store.log st) -> Store.event_type r = "BankAccountOpened" ->
            lookup "accountId" (Store.payload r) <> Some (JStr a).

(** The store as a caller meets it whose queries were answered when the
    log was [seen] and whose append arrives later: queries read [seen],
    the append works on the log as it is by then. *)
Definition staleStore (shape : Store.Shape) (seen : Store.State) : IEventStore Store.State :=
  {| query := fun f => async (fun st => (fst (Store.query_store shape f seen), st));
     append := fun f events expected => async (Store.append_store f events expected) |}.

End Facts.

(* ================================================================== *)
(** ** Further sample data *)

Module Cases.
Import Store Facts.

(** Records as a store delivers them. *)
Definition depositFor (accountId : string) (amount : float) (currency : string) : EventRecord :=
  {| fields := [("event_type", JStr "MoneyDeposited"); ("accountId", JStr accountId);
                ("amount", JNum amount); ("currency", JStr currency)];
     eventType := None |}.

Definition openingFor (accountId : string) (deposit : float) : EventRecord :=
  {| fields := [("event_type", JStr "BankAccountOpened"); ("accountId", JStr accountId);
                ("initialDeposit", JNum deposit); ("currency", JStr "USD")];
     eventType := None |}.

(** The sample history with its deposit in EUR moved next to the
    opening event. *)
Definition shuffled : list EventRecord :=
  match Sample.history with
  | o :: d :: w :: out :: inc :: eur :: rest => o :: eur :: d :: w :: out :: inc :: rest
  | l => l
  end.

(** What the sample bank delivers, and the transfer of 80 USD. *)
Definition bankEvents : list EventRecord := map deliver (log Sample.bank).

Definition transfer80Event : EventRecord :=
  deliver (Sample.transferred 3 "acc-1" "acc-2" 80 "t-0").

(** The events the reference decisions return for the sample commands
    on the sample bank. *)
Definition withdrawn10 : WithdrawMoney.MoneyWithdrawn :=
  {| WithdrawMoney.ev_accountId := "acc-1"; WithdrawMoney.ev_amount := 10;
     WithdrawMoney.ev_currency := Some (JStr "USD");
     WithdrawMoney.ev_withdrawalId := "w-1"; WithdrawMoney.ev_timestamp := 0 |}.

Definition deposited20 : DepositMoney.MoneyDeposited :=
  {| DepositMoney.ev_accountId := "acc-1"; DepositMoney.ev_amount := 20;
     DepositMoney.ev_currency := Some (JStr "USD");
     DepositMoney.ev_depositId := "d-1"; DepositMoney.ev_timestamp := 0 |}.

Definition transferred30 : TransferMoney.MoneyTransferred :=
  {| TransferMoney.ev_fromAccountId := "acc-1"; TransferMoney.ev_toAccountId := "acc-2";
     TransferMoney.ev_amount := 30; TransferMoney.ev_currency := Some (JStr "USD");
     TransferMoney.ev_transferId := "t-1"; TransferMoney.ev_timestamp := 0 |}.

(** The sample bank after each of them. *)
Definition after_withdrawal : State :=
  added Sample.bank
        (row_of Sample.bank "MoneyWithdrawn" (WithdrawMoney.MoneyWithdrawnEvent withdrawn10)).

Definition after_deposit : State :=
  added Sample.bank
        (row_of Sample.bank "MoneyDeposited" (DepositMoney.MoneyDepositedEvent deposited20)).

Definition after_transfer : State :=
  added Sample.bank
        (row_of Sample.bank "MoneyTransferred"
                (TransferMoney.MoneyTransferredEvent transferred30)).

(** Two callers who each withdraw 60 USD from "acc-1", which holds 100. *)
Definition withdraw60 (withdrawalId : string) : WithdrawMoney.WithdrawMoneyCommand :=
  {| WithdrawMoney.accountId := "acc-1"; WithdrawMoney.amount := 60;
     WithdrawMoney.currency := None; WithdrawMoney.withdrawalId := withdrawalId |}.

Definition withdrawn60 (withdrawalId : string) : WithdrawMoney.MoneyWithdrawn :=
  {| WithdrawMoney.ev_accountId := "acc-1"; WithdrawMoney.ev_amount := 60;
     WithdrawMoney.ev_currency := Some (JStr "USD");
     WithdrawMoney.ev_withdrawalId := withdrawalId; WithdrawMoney.ev_timestamp := 0 |}.

(** The bank once the first caller's withdrawal is in the log. *)
Definition after_first_caller : State :=
  added Sample.bank
        (row_of Sample.bank "MoneyWithdrawn"
                (WithdrawMoney.MoneyWithdrawnEvent (withdrawn60 "w-1"))).

(** A deposit to the other account. *)
Definition depositOfBob : StoredEvent :=
  row_of Sample.bank "MoneyDeposited"
         (DepositMoney.MoneyDepositedEvent
            {| DepositMoney.ev_accountId := "acc-2"; DepositMoney.ev_amount := 5;
               DepositMoney.ev_currency := Some (JStr "USD");
               DepositMoney.ev_depositId := "d-9"; DepositMoney.ev_timestamp := 0 |}).

End Cases.

(* ================================================================== *)
(** * Properties *)

(* ================================================================== *)
(** ** Proof steps shared by the properties of the slices *)

(** Case analysis on everything a run branches on, innermost first;
    a filter built from literal type tags is well formed. *)
Ltac branch :=
  repeat (cbn in *;
          match goal with
          | |- context [createFilter ?t ?p] =>
              change (createFilter t p) with (@inr FilterError _ (mkFilter t p))
          | |- context [match ?x with _ => _ end] =>
              lazymatch x with
              | context [match _ with _ => _ end] => fail
              | _ => destruct x eqn:?
              end
          end).


Ltac unfold_run :=
  unfold bind, try_catch, promise_all3, all3, await, outcome_of, newFilter, as_array,
    events_of, maxSequenceNumber_of, ret, throw.

(** No [append] among the noted calls threw. *)
Ltac no_throw H :=
  destruct H as (?f & ?evs & ?exp & ?e & H); cbn in H;
  repeat (destruct H as [H | H]; try discriminate); try contradiction.

(** An awaited call that gave a value was a promise fulfilled with it;
    an async function is awaited as its body runs. *)
Lemma awaited_value {S A : Type} (call : Call S A) (s s' : S) (v : A) :
  await call s = (inr v, s') -> exists t, call s = (Promised t (inr v), s').
Proof.
  unfold await. destruct (call s) as [[e|t r] s1]; simpl; intros H; inversion H; subst.
  exists t. reflexivity.
Qed.

Lemma await_async {S A : Type} (body : M S A) (s : S) : await (async body) s = body s.
Proof. unfold await, async. destruct (body s) as [r s']. reflexivity. Qed.

(* ================================================================== *)
(** ** Classification of a record *)

Section Classification.

(** C7: the type tag is [e.event_type] when that field is truthy,
    whatever the [eventType] member is; when the field is falsy and the
    record has an [eventType] method, it is what the method returns. *)
Theorem typeTag_duck_typed (e : EventRecord) :
  (truthy (get e "event_type") = true ->
   forall m, typeTag {| fields := fields e; eventType := m |} = get e "event_type")
  /\ (truthy (get e "event_type") = false ->
      forall r, eventType e = Some r -> typeTag e = Some r).
Proof.
  split.
  - intros Ht m. unfold typeTag, js_or, get in *. simpl. rewrite Ht. reflexivity.
  - intros Hf r Hr. unfold typeTag, js_or. rewrite Hf, Hr. reflexivity.
Qed.

Lemma typeTag_duck_typed_witness :
  typeTag {| fields := [("event_type", JStr "MoneyDeposited")];
             eventType := Some (JStr "SomethingElse") |} = Some (JStr "MoneyDeposited")
  /\ typeTag {| fields := [("accountId", JStr "acc-1")];
                eventType := Some (JStr "MoneyDeposited") |} = Some (JStr "MoneyDeposited").
Proof.
  split.
  - exact (proj1 (typeTag_duck_typed
                    {| fields := [("event_type", JStr "MoneyDeposited")]; eventType := None |})
                 eq_refl (Some (JStr "SomethingElse"))).
  - exact (proj2 (typeTag_duck_typed
                    {| fields := [("accountId", JStr "acc-1")];
                       eventType := Some (JStr "MoneyDeposited") |})
                 eq_refl (JStr "MoneyDeposited") eq_refl).
Defined.

(** Without a truthy [event_type] and without an [eventType] member the
    guard [e.eventType && ...] yields [undefined]. *)
Lemma typeTag_neither (e : EventRecord) :
  truthy (get e "event_type") = false -> eventType e = None -> typeTag e = None.
Proof.
  intros Hf Hn. unfold typeTag, js_or. rewrite Hf, Hn. reflexivity.
Qed.

End Classification.

(* ================================================================== *)
(** ** buildAccountState *)

Section BuildAccountState.
Import Account AccountSpec.

Lemma is_str_excl (v : jsval) (s t : string) :
  s <> t -> is_str v s = true -> is_str v t = false.
Proof.
  intros Hne H. unfold is_str, strict_eq in *.
  destruct v as [[| | |x| |]|]; try discriminate.
  apply String.eqb_eq in H. subst x.
  apply String.eqb_neq. exact Hne.
Qed.

(** The tag of the specification is the expression of the source. *)
Lemma tag_typeTag (e : EventRecord) : tag e = typeTag e.
Proof.
  unfold tag, typeTag, js_or, get.
  destruct (lookup "event_type" (fields e)) as [v|].
  - destruct (truthy (Some v)); [reflexivity|]. destruct (eventType e); reflexivity.
  - simpl. destruct (eventType e); reflexivity.
Qed.

Lemma classified_typeTag (e : EventRecord) (t : string) :
  classified e t = is_str (typeTag e) t.
Proof. unfold classified, is_str. rewrite tag_typeTag. reflexivity. Qed.

Lemma opens_is_opening_of (a : string) (e : EventRecord) : opens a e = is_opening_of a e.
Proof. unfold opens, is_opening_of. rewrite classified_typeTag. reflexivity. Qed.

(** One turn of the loop, by the kind of the event. *)
Lemma apply_event_moved a o acc e : apply_event a o acc e = moved a o acc e.
Proof.
  unfold apply_event, moved, movement, is_deposit, is_withdrawal, is_outgoing, is_incoming,
    same_currency.
  rewrite !classified_typeTag.
  change (strict_eq (get e "accountId") (Some (JStr a))) with (is_str (get e "accountId") a).
  change (strict_eq (get e "fromAccountId") (Some (JStr a)))
    with (is_str (get e "fromAccountId") a).
  change (strict_eq (get e "toAccountId") (Some (JStr a)))
    with (is_str (get e "toAccountId") a).
  destruct (is_str (typeTag e) "MoneyDeposited") eqn:Hd.
  - rewrite (is_str_excl (typeTag e) "MoneyDeposited" "MoneyWithdrawn" ltac:(discriminate) Hd).
    rewrite (is_str_excl (typeTag e) "MoneyDeposited" "MoneyTransferred" ltac:(discriminate) Hd).
    destruct (is_str (get e "accountId") a);
      destruct (strict_eq (get e "currency") (get o "currency")); reflexivity.
  - destruct (is_str (typeTag e) "MoneyWithdrawn") eqn:Hw.
    + rewrite (is_str_excl (typeTag e) "MoneyWithdrawn" "MoneyTransferred"
                           ltac:(discriminate) Hw).
      destruct (is_str (get e "accountId") a);
        destruct (strict_eq (get e "currency") (get o "currency")); reflexivity.
    + destruct (is_str (typeTag e) "MoneyTransferred");
        destruct (strict_eq (get e "currency") (get o "currency"));
        destruct (is_str (get e "fromAccountId") a);
        destruct (is_str (get e "toAccountId") a); reflexivity.
Qed.

Lemma fold_apply_event a o evs : forall acc,
  fold_left (apply_event a o) evs acc = fold_left (moved a o) evs acc.
Proof.
  induction evs as [|e evs IH]; intros acc; [reflexivity|].
  simpl. rewrite apply_event_moved. apply IH.
Qed.

Lemma find_first_opening evs a o :
  first_opening evs a o -> find (is_opening_of a) evs = Some o.
Proof.
  intros (pre & post & -> & Ho & Hpre).
  rewrite opens_is_opening_of in Ho.
  induction pre as [|x pre IH]; simpl.
  - rewrite Ho. reflexivity.
  - rewrite <- opens_is_opening_of, (Hpre x (or_introl eq_refl)). apply IH.
    intros e He. apply Hpre. right. exact He.
Qed.

(** C8, as amended: [buildAccountState] returns null exactly when no
    event is classified BankAccountOpened with the given account id;
    otherwise, with [o] the first such event, the currency is
    [o.currency] and the balance is [o.initialDeposit] with the amounts
    of the events of that account in that currency added (deposits,
    incoming transfers from another account) and subtracted
    (withdrawals, outgoing transfers) one after the other, in the order
    of the events, by the [+] and [-] of the language. *)
Theorem buildAccountState_spec (evs : list EventRecord) (a : string) :
  (buildAccountState evs a = None <-> forall e, In e evs -> opens a e = false)
  /\ (forall o, first_opening evs a o ->
        buildAccountState evs a =
        Some {| balance := spec_balance evs a o; currency := get o "currency" |}).
Proof.
  split.
  - unfold buildAccountState. split.
    + destruct (find (is_opening_of a) evs) eqn:Hf; [discriminate|].
      intros _ e He. rewrite opens_is_opening_of. exact (find_none _ _ Hf e He).
    + intros Hall. destruct (find (is_opening_of a) evs) eqn:Hf; [|reflexivity].
      apply find_some in Hf. destruct Hf as [Hin Ho].
      rewrite <- opens_is_opening_of, (Hall _ Hin) in Ho. discriminate.
  - intros o Ho. unfold buildAccountState.
    rewrite (find_first_opening _ _ _ Ho).
    rewrite fold_apply_event. reflexivity.
Qed.

(** On the sample history: 100 + 50 - 30 - 20 + 5, the EUR deposit
    left out. *)
Lemma buildAccountState_spec_witness :
  first_opening Sample.history "acc-1" (hd (mkRecord [] None) Sample.history)
  /\ buildAccountState Sample.history "acc-1" =
     Some {| balance := Some (JNum 105); currency := Some (JStr "USD") |}.
Proof.
  assert (H : first_opening Sample.history "acc-1" (hd (mkRecord [] None) Sample.history)).
  { exists [], (tl Sample.history). repeat split.
    intros e []. }
  split; [exact H|].
  exact (proj2 (buildAccountState_spec Sample.history "acc-1") _ H).
Defined.

(** C8 as stated fails: on an account opened with 0 whose events are a
    deposit of 0.1, a withdrawal of 0.3 and a deposit of 0.2, the loop
    computes ((0 + 0.1) - 0.3) + 0.2, the sum by kinds
    ((0 + 0.1) + 0.2) - 0.3; the two numbers differ. *)
Lemma balance_is_not_the_sum_by_kinds :
  first_opening Sample.fractions "acc-1" (hd (mkRecord [] None) Sample.fractions)
  /\ option_map balance (buildAccountState Sample.fractions "acc-1")
     = Some (Some (JNum 2.7755575615628914e-17))
  /\ sum_by_kinds Sample.fractions "acc-1" (hd (mkRecord [] None) Sample.fractions)
     = Some (JNum 5.551115123125783e-17)
  /\ option_map balance (buildAccountState Sample.fractions "acc-1")
     <> Some (sum_by_kinds Sample.fractions "acc-1"
                           (hd (mkRecord [] None) Sample.fractions)).
Proof.
  assert (H : first_opening Sample.fractions "acc-1"
                            (hd (mkRecord [] None) Sample.fractions)).
  { exists [], (tl Sample.fractions). repeat split. intros e []. }
  split; [exact H|].
  split; [vm_compute; reflexivity|].
  split; [vm_compute; reflexivity|].
  vm_compute. intros E. inversion E.
Qed.

End BuildAccountState.

(* ================================================================== *)
(** ** The store: queries, conditional append, races *)

Section StoreProperties.
Import Store StoreSpec.

Lemma contains_iff_subset (small : json) :
  forall big, contains big small = true <-> json_subset small big.
Proof.
  induction small using json_induction; intros big.
  - destruct big; simpl; split; intros H; try discriminate; try constructor; inversion H.
  - destruct big; simpl; split; intros H; try discriminate; try (inversion H; fail).
    + apply Bool.eqb_prop in H. subst. constructor.
    + inversion H. subst. apply Bool.eqb_reflx.
  - destruct big; simpl; split; intros H; try discriminate; try (inversion H; fail).
    + apply FloatAxioms.Leibniz.eqb_spec in H. subst. constructor.
    + inversion H. subst. apply FloatAxioms.Leibniz.eqb_spec. reflexivity.
  - destruct big; simpl; split; intros H; try discriminate; try (inversion H; fail).
    + apply String.eqb_eq in H. subst. constructor.
    + inversion H. subst. apply String.eqb_refl.
  - rename H into IH. rewrite Forall_forall in IH.
    destruct big; simpl; split; intros H; try discriminate; try (inversion H; fail).
    + constructor. intros x Hx.
      rewrite forallb_forall in H. specialize (H x Hx).
      apply existsb_exists in H. destruct H as (y & Hy & Hc).
      exists y. split; [exact Hy|]. apply (IH x Hx). exact Hc.
    + inversion H as [| | | |xs ys Hall|]; subst.
      apply forallb_forall. intros x Hx.
      destruct (Hall x Hx) as (y & Hy & Hs).
      apply existsb_exists. exists y. split; [exact Hy|]. apply (IH x Hx). exact Hs.
  - rename H into IH. rewrite Forall_forall in IH.
    destruct big; simpl; split; intros H; try discriminate; try (inversion H; fail).
    + constructor. intros k v Hkv.
      rewrite forallb_forall in H. specialize (H (k, v) Hkv). simpl in H.
      destruct (lookup k members0) as [w|]; [|discriminate].
      exists w. split; [reflexivity|]. apply (IH (k, v) Hkv). exact H.
    + inversion H as [| | | | |ps qs Hall]; subst.
      apply forallb_forall. intros [k v] Hkv. simpl.
      destruct (Hall k v Hkv) as (w & Hw & Hs). rewrite Hw.
      apply (IH (k, v) Hkv). exact Hs.
Qed.

Lemma row_matches_iff (f : EventFilter) (r : StoredEvent) :
  row_matches f r = true <-> matches_spec f r.
Proof.
  unfold row_matches, matches_filter, matches_spec.
  rewrite andb_true_iff, orb_true_iff, existsb_exists, existsb_exists.
  split.
  - intros [(t & Ht & He) Hp]. apply String.eqb_eq in He. subst t.
    split; [exact Ht|].
    destruct Hp as [Hn | (p & Hp & Hc)].
    + left. destruct (payload_predicates f); [reflexivity|discriminate].
    + right. exists p. split; [exact Hp|]. apply contains_iff_subset. exact Hc.
  - intros [Ht Hp]. split.
    + exists (event_type r). split; [exact Ht|apply String.eqb_refl].
    + destruct Hp as [Hn | (p & Hp & Hs)].
      * left. rewrite Hn. reflexivity.
      * right. exists p. split; [exact Hp|]. apply contains_iff_subset. exact Hs.
Qed.

(** C4: a row of the log is returned by [query] exactly when its type
    is one of the filter's types and either the filter has no payload
    predicate or one of its predicates is a JSON subset of the row's
    payload. *)
Theorem query_returns_matching (shape : Shape) (f : EventFilter) (st : State) :
  wf_filter f = true ->
  exists rows,
    query_store shape f st = (inr (pack shape rows), st)
    /\ forall e, In e rows <-> (In e (log st) /\ matches_spec f e).
Proof.
  intros Hwf. exists (select f (log st)). split.
  - unfold query_store. rewrite Hwf. reflexivity.
  - intros e. unfold select. rewrite filter_In, row_matches_iff. reflexivity.
Qed.

Lemma query_returns_matching_witness :
  (exists rows,
      query_store WithMax (Sample.nestedFilter 2) Sample.nestedStore
      = (inr (pack WithMax rows), Sample.nestedStore)
      /\ forall e, In e rows <->
                   (In e (log Sample.nestedStore) /\ matches_spec (Sample.nestedFilter 2) e)).
Proof.
  exact (query_returns_matching WithMax (Sample.nestedFilter 2) Sample.nestedStore eq_refl).
Defined.

(** Scenario S6: [{b:{c:2}}] selects the row with payload
    [{a:1, b:{c:2}}], [{b:{c:3}}] does not. *)
Example subset_containment_scenario :
  query_store WithMax (Sample.nestedFilter 2) Sample.nestedStore
  = (inr (QRecord [deliver Sample.nested] 1), Sample.nestedStore)
  /\ query_store WithMax (Sample.nestedFilter 3) Sample.nestedStore
     = (inr (QRecord [] 0), Sample.nestedStore).
Proof. split; reflexivity. Qed.

Lemma append_conflict (f : EventFilter) (events : list EventRecord) (expected : Z)
      (st : State) :
  wf_filter f = true ->
  currentMaxSeq f st <> expected ->
  append_store f events (Some expected) st = (inl (StoreFailure ConcurrencyConflict), st).
Proof.
  intros Hwf Hne. unfold append_store. rewrite Hwf. simpl.
  apply Z.eqb_neq in Hne. rewrite Hne. reflexivity.
Qed.

Lemma bind_returned {S A B : Type} (m : M S A) (k : A -> M S B) (s s' : S) (a : A) :
  m s = (inr a, s') -> bind m k s = k a s'.
Proof. intros H. unfold bind. rewrite H. reflexivity. Qed.

(** Awaiting a call of the store is running the model of the call. *)
Lemma await_append_eventStore (shape : Shape) (f : EventFilter) (events : list EventRecord)
      (expected : option Z) (st : State) :
  await (@append _ (eventStore shape) f events expected) st
  = append_store f events expected st.
Proof. apply await_async. Qed.

(** What the second withdraw-money variant reads from the store of the
    specification. *)
Lemma getWithdrawState2_recordStore (a : string) (st : State) :
  @WithdrawMoney2.getWithdrawState _ (Trace.traced recordStore) a (st, []) =
  (let r1 := select (Scopes.accountEventsFilter a) (log st) in
   let r2 := select (Scopes.transferFromFilter a) (log st) in
   let r3 := select (Scopes.transferToFilter a) (log st) in
   (inr {| WithdrawMoney2.state :=
             {| WithdrawMoney.account :=
                  Account.buildAccountState
                    (map deliver r1 ++ map deliver r2 ++ map deliver r3) a;
                WithdrawMoney.existingWithdrawalIds :=
                  map (fun e => get e "withdrawalId")
                      (List.filter (fun e => is_str (typeTag e) "MoneyWithdrawn")
                                   (map deliver r1)) |};
           WithdrawMoney2.maxSequenceNumber :=
             math_max3 (max_seq_of r1) (max_seq_of r2) (max_seq_of r3) |},
    (st, [Trace.CQuery (Scopes.accountEventsFilter a) (inr (pack WithMax r1));
          Trace.CQuery (Scopes.transferFromFilter a) (inr (pack WithMax r2));
          Trace.CQuery (Scopes.transferToFilter a) (inr (pack WithMax r3))]))).
Proof. reflexivity. Qed.

(** The expected value the second withdraw-money variant passes is the
    maximum of what its three queries reported. *)
Lemma withdraw2_expected process cmd (st : State) f events expected outcome :
  In (Trace.CAppend f events expected outcome)
     (Trace.calls_of (@WithdrawMoney2.execute _ (Trace.traced recordStore) process cmd) st) ->
  expected =
  Some (math_max3
          (currentMaxSeq (Scopes.accountEventsFilter (WithdrawMoney.accountId cmd)) st)
          (currentMaxSeq (Scopes.transferFromFilter (WithdrawMoney.accountId cmd)) st)
          (currentMaxSeq (Scopes.transferToFilter (WithdrawMoney.accountId cmd)) st)).
Proof.
  unfold Trace.calls_of, WithdrawMoney2.execute.
  rewrite (bind_returned _ _ _ _ _ (getWithdrawState2_recordStore _ st)).
  unfold_run.
  branch; intros H;
    repeat (destruct H as [H | H]; try discriminate); try contradiction;
    inversion H; reflexivity.
Qed.

(** C3: an [append] whose expected maximum differs from the current
    maximum of the events matching the filter fails with
    ConcurrencyConflict and leaves the store, hence the log, as it
    was; the second withdraw-money variant supplies the maximum of the
    [maxSequenceNumber]s of its three queries. *)
Theorem conflict_rejects_append :
  (forall (f : EventFilter) (events : list EventRecord) (expected : Z) (st : State),
      wf_filter f = true ->
      currentMaxSeq f st <> expected ->
      append_store f events (Some expected) st
      = (inl (StoreFailure ConcurrencyConflict), st))
  /\ (forall process cmd (st : State) f events expected outcome,
        In (Trace.CAppend f events expected outcome)
           (Trace.calls_of
              (@WithdrawMoney2.execute _ (Trace.traced recordStore) process cmd) st) ->
        expected =
        Some (math_max3
                (currentMaxSeq (Scopes.accountEventsFilter (WithdrawMoney.accountId cmd)) st)
                (currentMaxSeq (Scopes.transferFromFilter (WithdrawMoney.accountId cmd)) st)
                (currentMaxSeq (Scopes.transferToFilter (WithdrawMoney.accountId cmd)) st))).
Proof.
  split.
  - exact append_conflict.
  - exact withdraw2_expected.
Qed.

(** Scenario S2, and the call the second withdraw-money variant makes
    on the sample bank. *)
Lemma conflict_rejects_append_witness :
  append_store Sample.filterA [Sample.eventOf "A" 2] (Some 0)
               {| log := [ {| sequence_number := 1; occurred_at := 0; event_type := "A";
                              payload := [("x", JNum 1)]; metadata := [] |} ];
                  next_seq := 2; clock := 0 |}
  = (inl (StoreFailure ConcurrencyConflict),
     {| log := [ {| sequence_number := 1; occurred_at := 0; event_type := "A";
                    payload := [("x", JNum 1)]; metadata := [] |} ];
        next_seq := 2; clock := 0 |})
  /\ Some 1 = Some (math_max3 1 0 0).
Proof.
  split.
  - apply (proj1 conflict_rejects_append); [reflexivity|discriminate].
  - apply (proj2 conflict_rejects_append (Reference.processWithdrawCommand 0)
                 Sample.withdraw10 Sample.bank
                 (Scopes.withdrawAppend2 "acc-1")
                 [WithdrawMoney.MoneyWithdrawnEvent
                    {| WithdrawMoney.ev_accountId := "acc-1"; WithdrawMoney.ev_amount := 10;
                       WithdrawMoney.ev_currency := Some (JStr "USD");
                       WithdrawMoney.ev_withdrawalId := "w-1";
                       WithdrawMoney.ev_timestamp := 0 |}]
                 (Some 1) (inr tt)).
    vm_compute. right. right. right. left. reflexivity.
Defined.

Lemma fold_max_ge (rows : list StoredEvent) : forall m,
  m <= fold_left (fun m r' => Z.max m (sequence_number r')) rows m
  /\ forall r, In r rows ->
       sequence_number r <= fold_left (fun m r' => Z.max m (sequence_number r')) rows m.
Proof.
  induction rows as [|x rows IH]; intros m; simpl.
  - split; [lia|]. intros r [].
  - destruct (IH (Z.max m (sequence_number x))) as [Hm Hin]. split; [lia|].
    intros r [-> | Hr]; [lia|]. apply Hin. exact Hr.
Qed.

Lemma fold_max_attained (rows : list StoredEvent) : forall m,
  fold_left (fun m r' => Z.max m (sequence_number r')) rows m = m
  \/ exists r, In r rows
       /\ fold_left (fun m r' => Z.max m (sequence_number r')) rows m = sequence_number r.
Proof.
  induction rows as [|x rows IH]; intros m; simpl.
  - left. reflexivity.
  - destruct (IH (Z.max m (sequence_number x))) as [H | (r & Hr & H)].
    + rewrite H. destruct (Z.max_spec m (sequence_number x)) as [[_ E] | [_ E]]; rewrite E.
      * right. exists x. split; [left; reflexivity|reflexivity].
      * left. reflexivity.
    + right. exists r. split; [right; exact Hr|exact H].
Qed.

Lemma max_seq_of_upper (rows : list StoredEvent) (r : StoredEvent) :
  In r rows -> sequence_number r <= max_seq_of rows.
Proof.
  destruct rows as [|x rows]; [intros []|]. simpl.
  destruct (fold_max_ge rows (sequence_number x)) as [Hm Hin].
  intros [<- | Hr]; [exact Hm|apply Hin; exact Hr].
Qed.

Lemma max_seq_of_attained (rows : list StoredEvent) :
  (rows = [] /\ max_seq_of rows = 0)
  \/ exists r, In r rows /\ max_seq_of rows = sequence_number r.
Proof.
  destruct rows as [|x rows]; [left; split; reflexivity|]. right. simpl.
  destruct (fold_max_attained rows (sequence_number x)) as [H | (r & Hr & H)].
  - exists x. split; [left; reflexivity|exact H].
  - exists r. split; [right; exact Hr|exact H].
Qed.

(** Under the invariant the current maximum of any filter is below the
    next value of the sequence. *)
Lemma currentMaxSeq_below_next (f : EventFilter) (st : State) :
  store_ok st = true -> currentMaxSeq f st < next_seq st.
Proof.
  unfold store_ok. intros H.
  apply andb_prop in H. destruct H as [H Hpos].
  apply andb_prop in H. destruct H as [_ Hbelow].
  apply Z.ltb_lt in Hpos. rewrite forallb_forall in Hbelow.
  unfold currentMaxSeq.
  destruct (max_seq_of_attained (select f (log st))) as [[_ E] | (r & Hr & E)]; rewrite E.
  - exact Hpos.
  - apply Z.ltb_lt. apply Hbelow. unfold select in Hr. apply filter_In in Hr. apply Hr.
Qed.

Lemma to_rows_ok (events : list EventRecord) : forall n now,
  batch_ok events = true ->
  exists rows,
    to_rows n now events = Some rows
    /\ List.length rows = List.length events
    /\ Forall (fun r => n <= sequence_number r) rows
    /\ (forall f, batch_touches f events = true ->
                  exists r, In r rows /\ row_matches f r = true).
Proof.
  induction events as [|e events IH]; intros n now Hok; simpl in *.
  - exists []. repeat split; try constructor. intros f Hf. discriminate.
  - apply andb_prop in Hok. destruct Hok as [He Hok].
    destruct (event_tag e) as [t|] eqn:Ht; [|discriminate].
    destruct (IH (n + 1) now Hok) as (rows & Hrows & Hlen & Hge & Htouch).
    rewrite Hrows. eexists. split; [reflexivity|]. split; [simpl; congruence|]. split.
    + constructor; [simpl; lia|].
      eapply Forall_impl; [|exact Hge]. simpl. intros; lia.
    + intros f Hf. apply orb_prop in Hf. destruct Hf as [Hf | Hf].
      * eexists. split; [left; reflexivity|]. exact Hf.
      * destruct (Htouch f Hf) as (r & Hr & Hm). exists r. split; [right; exact Hr|exact Hm].
Qed.

(** A successful append leaves the old log in place and adds the rows
    of the batch after it. *)
Lemma append_store_success (f : EventFilter) (events : list EventRecord)
      (expected : option Z) (st : State) (rows : list StoredEvent) :
  wf_filter f = true ->
  match expected with Some s => currentMaxSeq f st = s | None => True end ->
  to_rows (next_seq st) (clock st) events = Some rows ->
  append_store f events expected st =
  (inr tt, {| log := log st ++ rows;
              next_seq := next_seq st + Z.of_nat (List.length rows);
              clock := clock st |}).
Proof.
  intros Hwf Hexp Hrows. unfold append_store. rewrite Hwf. simpl.
  destruct expected as [s|].
  - rewrite Hexp, Z.eqb_refl. simpl. rewrite Hrows. reflexivity.
  - rewrite Hrows. reflexivity.
Qed.

Lemma served_first_wins (first second : AppendCall) (f : EventFilter) (s : Z) (st : State) :
  store_ok st = true ->
  wf_filter f = true ->
  call_filter first = f -> call_filter second = f ->
  call_expected first = Some s -> call_expected second = Some s ->
  currentMaxSeq f st = s ->
  batch_ok (call_events first) = true ->
  batch_touches f (call_events first) = true ->
  exists rows st1,
    run_call first st = (inr tt, st1)
    /\ run_call second st1 = (inl (StoreFailure ConcurrencyConflict), st1)
    /\ to_rows (next_seq st) (clock st) (call_events first) = Some rows
    /\ log st1 = (log st ++ rows)%list
    /\ Forall (fun r => s < sequence_number r) rows.
Proof.
  intros Hok Hwf Hf1 Hf2 He1 He2 Hcur Hbatch Htouch.
  destruct (to_rows_ok (call_events first) (next_seq st) (clock st) Hbatch)
    as (rows & Hrows & _ & Hge & Hin).
  destruct (Hin f Htouch) as (r & Hr & Hm).
  pose proof (currentMaxSeq_below_next f st Hok) as Hlt.
  eexists rows, _. split.
  { unfold run_call. rewrite Hf1, He1.
    apply append_store_success; [exact Hwf|exact Hcur|exact Hrows]. }
  split.
  { unfold run_call. rewrite Hf2, He2. apply append_conflict; [exact Hwf|].
    unfold currentMaxSeq. simpl. unfold select. rewrite filter_app.
    assert (Hmem : In r (List.filter (row_matches f) (log st) ++ List.filter (row_matches f) rows)).
    { apply in_or_app. right. apply filter_In. split; assumption. }
    pose proof (max_seq_of_upper _ _ Hmem) as Hup.
    rewrite Forall_forall in Hge. specialize (Hge r Hr). simpl in Hge.
    unfold currentMaxSeq, select in Hcur, Hlt. lia. }
  split; [exact Hrows|]. split; [reflexivity|].
  eapply Forall_impl; [|exact Hge]. simpl. intros x Hx. lia.
Qed.

(** C1, as amended: when the call served first carries well-formed
    events of which at least one is in the scope of the filter, exactly
    that call succeeds and the other fails with ConcurrencyConflict,
    under either schedule; the log afterwards is the old log followed
    by the winner's rows, each numbered above the expected value, and
    holds no row of the loser. *)
Theorem race_has_one_winner (a b : AppendCall) (sched : Schedule) (f : EventFilter)
        (s : Z) (st : State) :
  store_ok st = true ->
  wf_filter f = true ->
  call_filter a = f -> call_filter b = f ->
  call_expected a = Some s -> call_expected b = Some s ->
  currentMaxSeq f st = s ->
  batch_ok (call_events (served_first a b sched)) = true ->
  batch_touches f (call_events (served_first a b sched)) = true ->
  exists rows st',
    race a b sched st
    = (let (ra, rb) := in_service_order sched (inr tt)
                                        (inl (StoreFailure ConcurrencyConflict)) in
       (ra, rb, st'))
    /\ one_wins (fst (fst (race a b sched st))) (snd (fst (race a b sched st)))
    /\ to_rows (next_seq st) (clock st) (call_events (served_first a b sched)) = Some rows
    /\ log st' = (log st ++ rows)%list
    /\ Forall (fun r => s < sequence_number r) rows.
Proof.
  intros Hok Hwf Hfa Hfb Hea Heb Hcur Hbatch Htouch.
  destruct sched; simpl in Hbatch, Htouch.
  - destruct (served_first_wins a b f s st Hok Hwf Hfa Hfb Hea Heb Hcur Hbatch Htouch)
      as (rows & st1 & H1 & H2 & Hrows & Hlog & Hseq).
    exists rows, st1. unfold race. rewrite H1, H2. simpl.
    repeat split; try assumption. left. split; reflexivity.
  - destruct (served_first_wins b a f s st Hok Hwf Hfb Hfa Heb Hea Hcur Hbatch Htouch)
      as (rows & st1 & H1 & H2 & Hrows & Hlog & Hseq).
    exists rows, st1. unfold race. rewrite H1, H2. simpl.
    repeat split; try assumption. right. split; reflexivity.
Qed.

Lemma race_has_one_winner_witness :
  exists rows st',
    race Sample.callerThree Sample.callerFour SecondThenFirst empty
    = (inl (StoreFailure ConcurrencyConflict), inr tt, st')
    /\ one_wins (fst (fst (race Sample.callerThree Sample.callerFour SecondThenFirst empty)))
                (snd (fst (race Sample.callerThree Sample.callerFour SecondThenFirst empty)))
    /\ to_rows 1 0 [Sample.eventOf "A" 4] = Some rows
    /\ log st' = rows
    /\ Forall (fun r => 0 < sequence_number r) rows.
Proof.
  exact (race_has_one_winner Sample.callerThree Sample.callerFour SecondThenFirst
                             Sample.filterA 0 empty
                             eq_refl eq_refl eq_refl eq_refl eq_refl eq_refl eq_refl
                             eq_refl eq_refl).
Defined.

(** C1 as stated fails: two callers that both observed the maximum 0
    for the filter and append an event outside its scope both succeed,
    and both events are in the log. *)
Lemma race_without_loser :
  let '(ra, rb, st') := race Sample.callerOne Sample.callerTwo FirstThenSecond empty in
  currentMaxSeq Sample.filterA empty = 0
  /\ ra = inr tt /\ rb = inr tt
  /\ ~ one_wins ra rb
  /\ map payload (log st') = [[("x", JNum 1)]; [("x", JNum 2)]].
Proof.
  cbn. repeat split.
  intros [[_ H] | [_ H]]; discriminate H.
Qed.

(** The same holds of two empty batches (the check alone is made). *)
Example race_of_empty_batches :
  race (mkCall Sample.filterA [] (Some 0)) (mkCall Sample.filterA [] (Some 0))
       FirstThenSecond empty
  = (inr tt, inr tt, empty).
Proof. reflexivity. Qed.

(** A successful append keeps the ordering invariant of the log. *)
Lemma ascending_from_app (l1 l2 : list StoredEvent) : forall lo,
  ascending_from lo (l1 ++ l2) =
  ascending_from lo l1
  && ascending_from (match rev l1 with [] => lo | r :: _ => sequence_number r end) l2.
Proof.
  induction l1 as [|x l1 IH]; intros lo; simpl.
  - reflexivity.
  - rewrite IH, <- andb_assoc. f_equal. f_equal.
    destruct (rev l1) eqn:E; simpl; [|reflexivity].
    destruct l1; [reflexivity|]. simpl in E. destruct (rev l1); discriminate.
Qed.

Lemma to_rows_numbered (events : list EventRecord) : forall n now rows lo,
  to_rows n now events = Some rows ->
  lo < n ->
  ascending_from lo rows = true
  /\ forallb (fun r => sequence_number r <? n + Z.of_nat (List.length rows)) rows = true.
Proof.
  induction events as [|e events IH]; intros n now rows lo H Hlo; simpl in H.
  - inversion H. split; reflexivity.
  - destruct (event_tag e) as [t|]; [|discriminate].
    destruct (to_rows (n + 1) now events) as [rest|] eqn:E; [|discriminate].
    inversion H; subst rows; clear H.
    destruct (IH (n + 1) now rest n E ltac:(lia)) as [Hasc Hall].
    split; simpl.
    + rewrite Hasc. apply andb_true_iff. split; [apply Z.ltb_lt; exact Hlo|reflexivity].
    + apply andb_true_iff. split; [apply Z.ltb_lt; lia|].
      rewrite forallb_forall in *. intros r Hr. specialize (Hall r Hr).
      apply Z.ltb_lt in Hall. apply Z.ltb_lt. lia.
Qed.

Lemma append_store_keeps_ok (f : EventFilter) (events : list EventRecord)
      (expected : option Z) (st st' : State) :
  store_ok st = true ->
  append_store f events expected st = (inr tt, st') ->
  store_ok st' = true.
Proof.
  unfold store_ok, append_store. intros Hok H.
  apply andb_prop in Hok. destruct Hok as [Hok Hpos].
  apply andb_prop in Hok. destruct Hok as [Hasc Hbelow].
  apply Z.ltb_lt in Hpos.
  destruct (negb (wf_filter f)); [discriminate|].
  destruct (match expected with Some e => negb (currentMaxSeq f st =? e) | None => false end);
    [discriminate|].
  destruct (to_rows (next_seq st) (clock st) events) as [rows|] eqn:E; [|discriminate].
  inversion H; subst st'; clear H. simpl.
  rewrite forallb_forall in Hbelow.
  assert (Hlast : match rev (log st) with [] => 0 | r :: _ => sequence_number r end
                  < next_seq st).
  { destruct (rev (log st)) as [|r l] eqn:Er; [exact Hpos|].
    apply Z.ltb_lt. apply Hbelow. apply in_rev. rewrite Er. left. reflexivity. }
  destruct (to_rows_numbered _ _ _ _ _ E Hlast) as [Hasc' Hall'].
  rewrite ascending_from_app, Hasc, Hasc'. simpl.
  apply andb_true_iff. split; [|apply Z.ltb_lt; lia].
  rewrite forallb_app. apply andb_true_iff. split; [|exact Hall'].
  apply forallb_forall. intros r Hr. specialize (Hbelow r Hr).
  apply Z.ltb_lt in Hbelow. apply Z.ltb_lt. lia.
Qed.
End StoreProperties.

(* ================================================================== *)
(** ** transfer-money: what the context query leaves out *)

Section TransferContext.
Import Store Account TransferMoney.

(** The state [getTransferState] builds from the records it is given. *)
Lemma getTransferState_arrayStore (f t : string) (st : State) :
  @getTransferState State arrayStore f t st =
  (let allEvents :=
     map deliver (select (mkFilter contextTypes (contextPredicates f t)) (log st)) in
   (inr {| fromAccount := buildAccountState allEvents f;
           toAccount := buildAccountState allEvents t;
           existingTransferIds :=
             map (fun e => get e "transferId")
                 (List.filter (fun e => is_str (typeTag e) "MoneyTransferred") allEvents) |},
    st)).
Proof. reflexivity. Qed.

Lemma contains_singleton_str (payload : object) (key value : string) :
  contains (JObj payload) (JObj [(key, JStr value)]) = true
  <-> lookup key payload = Some (JStr value).
Proof.
  simpl. destruct (lookup key payload) as [w|]; [|split; discriminate].
  rewrite andb_true_r. destruct w; simpl; split; intros H; try discriminate;
    try (inversion H; fail).
  - apply String.eqb_eq in H. subst. reflexivity.
  - inversion H. apply String.eqb_refl.
Qed.

Lemma select_skips (f : EventFilter) (r : StoredEvent) (pre post : list StoredEvent) :
  row_matches f r = false ->
  select f (pre ++ r :: post) = select f (pre ++ post).
Proof.
  intros H. unfold select. rewrite !filter_app. simpl. rewrite H. reflexivity.
Qed.

(** C9: a MoneyTransferred row sent from account [f] to another
    account, with no accountId key, matches none of the four payload
    predicates of the transfer-money context query for source [f] and
    target [t]; the state the slice builds, and with it the balance of
    the source account that decides on sufficient funds, is the same
    with and without that row in the log. *)
Theorem transfer_context_misses_outgoing (f t : string) (r : StoredEvent) :
  f <> t ->
  event_type r = "MoneyTransferred" ->
  lookup "fromAccountId" (payload r) = Some (JStr f) ->
  lookup "toAccountId" (payload r) <> Some (JStr f) ->
  lookup "accountId" (payload r) = None ->
  Forall (fun p => contains (JObj (payload r)) (JObj p) = false) (contextPredicates f t)
  /\ forall (pre post : list StoredEvent) (n c : Z),
       fst (@getTransferState State arrayStore f t
              {| log := pre ++ r :: post; next_seq := n; clock := c |})
       = fst (@getTransferState State arrayStore f t
                {| log := pre ++ post; next_seq := n; clock := c |}).
Proof.
  intros Hft Hty Hfrom Hto Hacc.
  assert (Hnone : Forall (fun p => contains (JObj (payload r)) (JObj p) = false)
                         (contextPredicates f t)).
  { unfold contextPredicates. repeat constructor.
    - apply not_true_is_false. rewrite contains_singleton_str, Hacc. discriminate.
    - apply not_true_is_false. rewrite contains_singleton_str, Hacc. discriminate.
    - apply not_true_is_false. rewrite contains_singleton_str. exact Hto.
    - apply not_true_is_false. rewrite contains_singleton_str, Hfrom.
      intros E. inversion E. contradiction. }
  split; [exact Hnone|].
  intros pre post n c. rewrite !getTransferState_arrayStore. simpl.
  assert (Hrow : row_matches (mkFilter contextTypes (contextPredicates f t)) r = false).
  { unfold row_matches, matches_filter. simpl payload_predicates.
    rewrite Forall_forall in Hnone.
    replace (existsb (fun p => contains (JObj (payload r)) (JObj p)) (contextPredicates f t))
      with false.
    - simpl. apply andb_false_r.
    - symmetry. apply not_true_is_false. intros H. apply existsb_exists in H.
      destruct H as (p & Hp & Hc). rewrite (Hnone p Hp) in Hc. discriminate. }
  rewrite (select_skips _ _ _ _ Hrow). reflexivity.
Qed.

Lemma transfer_context_misses_outgoing_witness :
  Forall (fun p => contains (JObj (payload (Sample.transferred 3 "acc-1" "acc-2" 80 "t-0")))
                            (JObj p) = false)
         (contextPredicates "acc-1" "acc-2")
  /\ fst (@getTransferState State arrayStore "acc-1" "acc-2" Sample.bank_after_transfer)
     = fst (@getTransferState State arrayStore "acc-1" "acc-2" Sample.bank).
Proof.
  destruct (transfer_context_misses_outgoing
              "acc-1" "acc-2" (Sample.transferred 3 "acc-1" "acc-2" 80 "t-0"))
    as [H1 H2]; try reflexivity; try discriminate.
  split; [exact H1|].
  exact (H2 [Sample.opened 1 "acc-1" "Alice" 100; Sample.opened 2 "acc-2" "Bob" 50] [] 4 0).
Defined.

(** On the sample bank: after "acc-1", opened with 100, sent 80 to
    "acc-2", the context still shows a balance of 100, and a second
    transfer of 80 is decided on that balance and appended. *)
Example transfer_decided_on_stale_balance :
  option_map balance
    (match fst (@getTransferState State arrayStore "acc-1" "acc-2"
                                  Sample.bank_after_transfer) with
     | inr ts => fromAccount ts
     | inl _ => None
     end) = Some (Some (JNum 100))
  /\ match @execute State arrayStore (Reference.processTransferCommand 0)
                    Sample.transfer80 Sample.bank_after_transfer with
     | (inr (Success event), st') =>
         ev_amount event = 80%float
         /\ map event_type (log st')
            = ["BankAccountOpened"; "BankAccountOpened";
               "MoneyTransferred"; "MoneyTransferred"]
     | _ => False
     end.
Proof.
  split; [reflexivity|]. vm_compute. split; reflexivity.
Qed.

End TransferContext.

(* ================================================================== *)
(** ** A throwing append becomes a domain error *)

Section AppendThrows.
Import Trace.

Section AnyStore.
Context {S : Type} (inner : IEventStore S).

Lemma transfer_append_throws process cmd (s : S) :
  let run := @TransferMoney.execute _ (traced inner) process cmd (s, []) in
  append_threw (snd (snd run)) ->
  fst run = inr (Failure "InsufficientFunds" "Failed to save transfer event").
Proof.
  unfold TransferMoney.execute, TransferMoney.getTransferState. unfold_run.
  branch; intros H; try reflexivity; no_throw H.
Qed.

Lemma deposit_append_throws process cmd (s : S) :
  let run := @DepositMoney.execute _ (traced inner) process cmd (s, []) in
  append_threw (snd (snd run)) ->
  fst run = inr (Failure "InvalidAmount" "Failed to save deposit event").
Proof.
  unfold DepositMoney.execute, DepositMoney.getDepositState. unfold_run.
  branch; intros H; try reflexivity; no_throw H.
Qed.

Lemma withdraw_append_throws process cmd (s : S) :
  let run := @WithdrawMoney.execute _ (traced inner) process cmd (s, []) in
  append_threw (snd (snd run)) ->
  fst run = inr (Failure "InsufficientFunds" "Failed to save withdrawal event").
Proof.
  unfold WithdrawMoney.execute, WithdrawMoney.getWithdrawState.
  unfold_run.
  branch; intros H; try reflexivity; no_throw H.
Qed.

Lemma withdraw2_append_throws process cmd (s : S) :
  let run := @WithdrawMoney2.execute _ (traced inner) process cmd (s, []) in
  append_threw (snd (snd run)) ->
  fst run = inr (Failure "InsufficientFunds" "Failed to save withdrawal event").
Proof.
  unfold WithdrawMoney2.execute, WithdrawMoney2.getWithdrawState.
  unfold_run.
  branch; intros H; try reflexivity; no_throw H.
Qed.

Lemma open_append_throws process accountId cmd (s : S) :
  let run := @OpenBankAccount.execute _ (traced inner) process accountId cmd (s, []) in
  append_threw (snd (snd run)) ->
  fst run = inr (Failure "InvalidCustomerName" "Failed to save account opening event").
Proof.
  unfold OpenBankAccount.execute, OpenBankAccount.getOpenAccountState. unfold_run.
  branch; intros H; try reflexivity; no_throw H.
Qed.


(** The same error types answer for a missing account. *)
Lemma account_not_found_same_type :
  (forall process cmd (s : S) ts,
      fst (@TransferMoney.getTransferState _ inner (TransferMoney.fromAccountId cmd)
             (TransferMoney.toAccountId cmd) s) = inr ts ->
      TransferMoney.fromAccount ts = None ->
      fst (@TransferMoney.execute _ inner process cmd s)
      = inr (Failure "InsufficientFunds" "From account not found"))
  /\ (forall process cmd (s : S) ws,
        fst (@WithdrawMoney.getWithdrawState _ inner (WithdrawMoney.accountId cmd) s)
        = inr ws ->
        WithdrawMoney.account ws = None ->
        fst (@WithdrawMoney.execute _ inner process cmd s)
        = inr (Failure "InsufficientFunds" "Account not found"))
  /\ (forall process cmd (s : S) ws,
        fst (@WithdrawMoney2.getWithdrawState _ inner (WithdrawMoney.accountId cmd) s)
        = inr ws ->
        WithdrawMoney.account (WithdrawMoney2.state ws) = None ->
        fst (@WithdrawMoney2.execute _ inner process cmd s)
        = inr (Failure "InsufficientFunds" "Account not found"))
  /\ (forall process cmd (s : S) ds,
        fst (@DepositMoney.getDepositState _ inner (DepositMoney.accountId cmd) s) = inr ds ->
        DepositMoney.account ds = None ->
        fst (@DepositMoney.execute _ inner process cmd s)
        = inr (Failure "InvalidAmount" "Account not found")).
Proof.
  repeat split; intros process cmd s st Hstate Hnone.
  - unfold TransferMoney.execute, bind.
    destruct (TransferMoney.getTransferState _ _ s) as [[e|ts] s1]; simpl in *;
      [discriminate|]. inversion Hstate; subst. rewrite Hnone. reflexivity.
  - unfold WithdrawMoney.execute, bind.
    destruct (WithdrawMoney.getWithdrawState _ s) as [[e|ws] s1]; simpl in *;
      [discriminate|]. inversion Hstate; subst. rewrite Hnone. reflexivity.
  - unfold WithdrawMoney2.execute, bind.
    destruct (WithdrawMoney2.getWithdrawState _ s) as [[e|ws] s1]; simpl in *;
      [discriminate|]. inversion Hstate; subst. rewrite Hnone. reflexivity.
  - unfold DepositMoney.execute, bind.
    destruct (DepositMoney.getDepositState _ s) as [[e|ds] s1]; simpl in *;
      [discriminate|]. inversion Hstate; subst. rewrite Hnone. reflexivity.
Qed.

End AnyStore.

(** C6: in every slice execution in which [eventStore.append] throws,
    [execute] does not throw; it returns [success: false] with the
    domain error type InsufficientFunds (transfer-money and both
    withdraw-money variants), InvalidAmount (deposit-money) or
    InvalidCustomerName (open-bank-account). *)
Theorem append_failure_is_domain_error {S : Type} (inner : IEventStore S) :
  (forall process cmd (s : S),
      let run := @TransferMoney.execute _ (traced inner) process cmd (s, []) in
      append_threw (snd (snd run)) ->
      fst run = inr (Failure "InsufficientFunds" "Failed to save transfer event"))
  /\ (forall process cmd (s : S),
        let run := @WithdrawMoney.execute _ (traced inner) process cmd (s, []) in
        append_threw (snd (snd run)) ->
        fst run = inr (Failure "InsufficientFunds" "Failed to save withdrawal event"))
  /\ (forall process cmd (s : S),
        let run := @WithdrawMoney2.execute _ (traced inner) process cmd (s, []) in
        append_threw (snd (snd run)) ->
        fst run = inr (Failure "InsufficientFunds" "Failed to save withdrawal event"))
  /\ (forall process cmd (s : S),
        let run := @DepositMoney.execute _ (traced inner) process cmd (s, []) in
        append_threw (snd (snd run)) ->
        fst run = inr (Failure "InvalidAmount" "Failed to save deposit event"))
  /\ (forall process accountId cmd (s : S),
        let run := @OpenBankAccount.execute _ (traced inner) process accountId cmd (s, []) in
        append_threw (snd (snd run)) ->
        fst run = inr (Failure "InvalidCustomerName" "Failed to save account opening event")).
Proof.
  split; [exact (transfer_append_throws inner)|].
  split; [exact (withdraw_append_throws inner)|].
  split; [exact (withdraw2_append_throws inner)|].
  split; [exact (deposit_append_throws inner)|].
  exact (open_append_throws inner).
Qed.

(** The [append] of the run threw [StoreUnavailable]. *)
Ltac threw :=
  unfold append_threw;
  eexists; eexists; eexists; exists (StoreFailure StoreUnavailable);
  vm_compute; repeat (first [left; reflexivity | right]).

Lemma append_failure_is_domain_error_witness :
  fst (@TransferMoney.execute _ (traced Sample.brokenArrayStore)
         (Reference.processTransferCommand 0) Sample.transfer30 (Sample.bank, []))
  = inr (Failure "InsufficientFunds" "Failed to save transfer event")
  /\ fst (@WithdrawMoney.execute _ (traced Sample.brokenArrayStore)
            (Reference.processWithdrawCommand 0) Sample.withdraw10 (Sample.bank, []))
     = inr (Failure "InsufficientFunds" "Failed to save withdrawal event")
  /\ fst (@WithdrawMoney2.execute _ (traced Sample.brokenRecordStore)
            (Reference.processWithdrawCommand 0) Sample.withdraw10 (Sample.bank, []))
     = inr (Failure "InsufficientFunds" "Failed to save withdrawal event")
  /\ fst (@DepositMoney.execute _ (traced Sample.brokenArrayStore)
            (Reference.processDepositCommand 0) Sample.deposit20 (Sample.bank, []))
     = inr (Failure "InvalidAmount" "Failed to save deposit event")
  /\ fst (@OpenBankAccount.execute _ (traced Sample.brokenArrayStore)
            (Reference.processOpenAccountCommand 0) "acc-3" Sample.openCarol
            (Sample.bank, []))
     = inr (Failure "InvalidCustomerName" "Failed to save account opening event").
Proof.
  destruct (append_failure_is_domain_error Sample.brokenArrayStore)
    as (Ht & Hw & _ & Hd & Ho).
  destruct (append_failure_is_domain_error Sample.brokenRecordStore)
    as (_ & _ & Hw2 & _ & _).
  split; [apply Ht; threw|].
  split; [apply Hw; threw|].
  split; [apply Hw2; threw|].
  split; [apply Hd; threw|].
  apply Ho; threw.
Defined.

End AppendThrows.

(* ================================================================== *)
(** ** The two shapes in which a query result is consumed *)

Section QueryShapes.
Import Trace.

Section AnyStore.
Context {S : Type} (store : IEventStore S).

(** Answer the next query of the goal with what the store resolves to. *)
Ltac answer_array H :=
  repeat (cbn;
          match goal with
          | |- context [createFilter ?t ?p] =>
              change (createFilter t p) with (@inr FilterError _ (mkFilter t p))
          | |- context [@query _ _ ?f ?s] =>
              let evs := fresh "evs" in let s' := fresh "s'" in let E := fresh "E" in
              let t := fresh "t" in
              destruct (H f s eq_refl) as (evs & s' & E);
              destruct (awaited_value _ _ _ _ E) as (t & ->)
          end).

Ltac answer_record H :=
  repeat (cbn;
          match goal with
          | |- context [createFilter ?t ?p] =>
              change (createFilter t p) with (@inr FilterError _ (mkFilter t p))
          | |- context [@query _ _ ?f ?s] =>
              let evs := fresh "evs" in let m := fresh "m" in
              let s' := fresh "s'" in let E := fresh "E" in let t := fresh "t" in
              destruct (H f s eq_refl) as (evs & m & s' & E);
              destruct (awaited_value _ _ _ _ E) as (t & ->)
          end).


Lemma arrays_consumed :
  resolves_to_arrays store ->
  forall (s : S) (a b name : string),
    returns (TransferMoney.getTransferState a b s)
    /\ returns (DepositMoney.getDepositState a s)
    /\ returns (OpenBankAccount.getOpenAccountState name s)
    /\ returns (WithdrawMoney.getWithdrawState a s)
    /\ fst (WithdrawMoney2.getWithdrawState a s) = inl TypeError.
Proof.
  intros H s a b name. unfold returns.
  unfold TransferMoney.getTransferState, DepositMoney.getDepositState,
    OpenBankAccount.getOpenAccountState, WithdrawMoney.getWithdrawState,
    WithdrawMoney2.getWithdrawState.
  unfold_run.
  repeat split; answer_array H; try (eexists; reflexivity); reflexivity.
Qed.

Lemma records_consumed :
  resolves_to_records store ->
  forall (s : S) (a b name : string),
    fst (TransferMoney.getTransferState a b s) = inl TypeError
    /\ fst (DepositMoney.getDepositState a s) = inl TypeError
    /\ fst (OpenBankAccount.getOpenAccountState name s) = inl TypeError
    /\ fst (WithdrawMoney.getWithdrawState a s) = inl TypeError
    /\ returns (WithdrawMoney2.getWithdrawState a s).
Proof.
  intros H s a b name. unfold returns.
  unfold TransferMoney.getTransferState, DepositMoney.getDepositState,
    OpenBankAccount.getOpenAccountState, WithdrawMoney.getWithdrawState,
    WithdrawMoney2.getWithdrawState.
  unfold_run.
  repeat split; answer_record H; try (eexists; reflexivity); reflexivity.
Qed.


End AnyStore.

(** C5: deposit-money, transfer-money, open-bank-account and the first
    withdraw-money variant use the value [query] resolves to as a bare
    array; the second withdraw-money variant uses it as a record with
    [events] and [maxSequenceNumber].  Against a store that resolves to
    arrays the former build their state and the latter throws a
    TypeError; against a store that resolves to records it is the
    other way round. *)
Theorem query_result_shapes {S : Type} (store : IEventStore S) :
  (resolves_to_arrays store ->
   forall (s : S) (a b name : string),
     returns (TransferMoney.getTransferState a b s)
     /\ returns (DepositMoney.getDepositState a s)
     /\ returns (OpenBankAccount.getOpenAccountState name s)
     /\ returns (WithdrawMoney.getWithdrawState a s)
     /\ fst (WithdrawMoney2.getWithdrawState a s) = inl TypeError)
  /\ (resolves_to_records store ->
      forall (s : S) (a b name : string),
        fst (TransferMoney.getTransferState a b s) = inl TypeError
        /\ fst (DepositMoney.getDepositState a s) = inl TypeError
        /\ fst (OpenBankAccount.getOpenAccountState name s) = inl TypeError
        /\ fst (WithdrawMoney.getWithdrawState a s) = inl TypeError
        /\ returns (WithdrawMoney2.getWithdrawState a s)).
Proof.
  split; [exact (arrays_consumed store)|exact (records_consumed store)].
Qed.

Lemma arrayStore_resolves_to_arrays : resolves_to_arrays Store.arrayStore.
Proof.
  intros f s Hwf. simpl. rewrite await_async. unfold Store.query_store. rewrite Hwf.
  eexists. eexists. reflexivity.
Qed.

Lemma recordStore_resolves_to_records : resolves_to_records Store.recordStore.
Proof.
  intros f s Hwf. simpl. rewrite await_async. unfold Store.query_store. rewrite Hwf.
  eexists. eexists. eexists. reflexivity.
Qed.

Lemma query_result_shapes_witness :
  (returns (@WithdrawMoney.getWithdrawState _ Store.arrayStore "acc-1" Sample.bank)
   /\ fst (@WithdrawMoney2.getWithdrawState _ Store.arrayStore "acc-1" Sample.bank)
      = inl TypeError)
  /\ (fst (@WithdrawMoney.getWithdrawState _ Store.recordStore "acc-1" Sample.bank)
      = inl TypeError
      /\ returns (@WithdrawMoney2.getWithdrawState _ Store.recordStore "acc-1" Sample.bank)).
Proof.
  split.
  - destruct (proj1 (query_result_shapes Store.arrayStore) arrayStore_resolves_to_arrays
                    Sample.bank "acc-1" "acc-2" "Alice") as (_ & _ & _ & H1 & H2).
    split; [exact H1|exact H2].
  - destruct (proj2 (query_result_shapes Store.recordStore) recordStore_resolves_to_records
                    Sample.bank "acc-1" "acc-2" "Alice") as (_ & _ & _ & H1 & H2).
    split; [exact H1|exact H2].
Defined.

End QueryShapes.

(* ================================================================== *)
(** ** The currency of a command that names none *)

Section CurrencyDefault.
Import Trace.

Section AnyStore.
Context {S : Type} (inner : IEventStore S).


Lemma transfer_event_currency ev :
  get (TransferMoney.MoneyTransferredEvent ev) "currency" = TransferMoney.ev_currency ev.
Proof.
  unfold get, TransferMoney.MoneyTransferredEvent.
  destruct (TransferMoney.ev_currency ev); reflexivity.
Qed.






Lemma deposit_event_currency ev :
  get (DepositMoney.MoneyDepositedEvent ev) "currency" = DepositMoney.ev_currency ev.
Proof.
  unfold get, DepositMoney.MoneyDepositedEvent.
  destruct (DepositMoney.ev_currency ev); reflexivity.
Qed.


Lemma withdraw_event_currency ev :
  get (WithdrawMoney.MoneyWithdrawnEvent ev) "currency" = WithdrawMoney.ev_currency ev.
Proof.
  unfold get, WithdrawMoney.MoneyWithdrawnEvent.
  destruct (WithdrawMoney.ev_currency ev); reflexivity.
Qed.



End AnyStore.





(** The transfer slice on the sample bank: the command names no
    currency, the event returned and appended is in USD. *)
Example transfer_without_currency :
  match @TransferMoney.execute _ Store.arrayStore (Reference.processTransferCommand 0)
                               Sample.transfer30 Sample.bank with
  | (inr (Success event), st') =>
      TransferMoney.ev_currency event = Some (JStr "USD")
      /\ option_map (fun r => lookup "currency" (Store.payload r))
                    (nth_error (Store.log st') 2) = Some (Some (JStr "USD"))
  | _ => False
  end.
Proof. vm_compute. split; reflexivity. Qed.

End CurrencyDefault.

(* ================================================================== *)
(** ** The filters of a slice's queries and of its append *)

Section AppendScopes.
Import Trace Scopes.

Section AnyStore.
Context {S : Type} (inner : IEventStore S).

Ltac only_filter :=
  let fa := fresh "fa" in let H := fresh "H" in
  intros fa H; cbn in H;
  repeat (destruct H as [H | H]; [subst fa; reflexivity|]); contradiction.

Lemma transfer_calls process cmd (s : S) :
  let calls := calls_of (@TransferMoney.execute _ (traced inner) process cmd) s in
  query_filters calls =
    [transferQuery (TransferMoney.fromAccountId cmd) (TransferMoney.toAccountId cmd)]
  /\ forall fa, In fa (append_filters calls) ->
                fa = transferAppend (TransferMoney.transferId cmd).
Proof.
  unfold calls_of, TransferMoney.execute, TransferMoney.getTransferState. unfold_run.
  branch; (split; [reflexivity|only_filter]).
Qed.

Lemma deposit_calls process cmd (s : S) :
  let calls := calls_of (@DepositMoney.execute _ (traced inner) process cmd) s in
  query_filters calls = [depositQuery (DepositMoney.accountId cmd)]
  /\ forall fa, In fa (append_filters calls) ->
                fa = depositAppend (DepositMoney.accountId cmd).
Proof.
  unfold calls_of, DepositMoney.execute, DepositMoney.getDepositState. unfold_run.
  branch; (split; [reflexivity|only_filter]).
Qed.

(** The three queries of a withdraw-money run: a query that throws
    before returning its promise ends the array literal, so the
    queries made are the first ones of the three, and all three once
    the run goes on to append. *)
Ltac three_queries :=
  split; [unfold withdrawQueries; eexists; reflexivity|];
  split; [first [ intros _; reflexivity
                | let H := fresh "H" in intros H; exfalso; apply H; reflexivity ]
         |only_filter].

Lemma withdraw_calls process cmd (s : S) :
  let calls := calls_of (@WithdrawMoney.execute _ (traced inner) process cmd) s in
  (exists rest, withdrawQueries (WithdrawMoney.accountId cmd)
                = (query_filters calls ++ rest)%list)
  /\ (append_filters calls <> [] ->
      query_filters calls = withdrawQueries (WithdrawMoney.accountId cmd))
  /\ forall fa, In fa (append_filters calls) ->
                fa = withdrawAppend (WithdrawMoney.accountId cmd).
Proof.
  unfold calls_of, WithdrawMoney.execute, WithdrawMoney.getWithdrawState. unfold_run.
  branch; three_queries.
Qed.

Lemma withdraw2_calls process cmd (s : S) :
  let calls := calls_of (@WithdrawMoney2.execute _ (traced inner) process cmd) s in
  (exists rest, withdrawQueries (WithdrawMoney.accountId cmd)
                = (query_filters calls ++ rest)%list)
  /\ (append_filters calls <> [] ->
      query_filters calls = withdrawQueries (WithdrawMoney.accountId cmd))
  /\ forall fa, In fa (append_filters calls) ->
                fa = withdrawAppend2 (WithdrawMoney.accountId cmd).
Proof.
  unfold calls_of, WithdrawMoney2.execute, WithdrawMoney2.getWithdrawState. unfold_run.
  branch; three_queries.
Qed.

Lemma open_calls process accountId cmd (s : S) :
  let calls := calls_of (@OpenBankAccount.execute _ (traced inner) process accountId cmd) s in
  query_filters calls = [openQuery]
  /\ forall fa, In fa (append_filters calls) ->
                fa = openAppend (OpenBankAccount.customerName cmd).
Proof.
  unfold calls_of, OpenBankAccount.execute, OpenBankAccount.getOpenAccountState. unfold_run.
  branch; (split; [reflexivity|only_filter]).
Qed.


End AnyStore.

Lemma transfer_scope_differs f t id : ~ same_scope (transferQuery f t) (transferAppend id).
Proof. intros [_ H]. discriminate H. Qed.

Lemma deposit_scope_differs a : ~ same_scope (depositQuery a) (depositAppend a).
Proof.
  intros [H _]. destruct (H "BankAccountOpened") as [H1 _].
  cbn in H1. destruct H1 as [E | []]; [left; reflexivity|discriminate E].
Qed.

Lemma withdraw_scope_differs a q :
  In q (withdrawQueries a) -> ~ same_scope q (withdrawAppend a).
Proof.
  intros [<- | [<- | [<- | []]]] [H E].
  - destruct (H "BankAccountOpened") as [H1 _].
    cbn in H1. destruct H1 as [E1 | []]; [left; reflexivity|discriminate E1].
  - discriminate E.
  - discriminate E.
Qed.

Lemma withdraw2_scope_differs a q :
  In q (withdrawQueries a) -> ~ same_scope q (withdrawAppend2 a).
Proof.
  intros [<- | [<- | [<- | []]]] [_ E]; discriminate E.
Qed.

Lemma open_scope_differs name : ~ same_scope openQuery (openAppend name).
Proof. intros [_ H]. discriminate H. Qed.

Lemma covers_by_inclusion (g f : EventFilter) :
  incl (event_types f) (event_types g) ->
  payload_predicates f <> [] ->
  incl (payload_predicates f) (payload_predicates g) ->
  covers g f.
Proof.
  intros Ht Hne Hp r. unfold Store.row_matches, matches_filter.
  rewrite !andb_true_iff, !orb_true_iff, !existsb_exists.
  intros [(t & Hin & He) Hpred]. split.
  - exists t. split; [apply Ht; exact Hin|exact He].
  - right. destruct Hpred as [Hnil | (p & Hin' & Hc)].
    + destruct (payload_predicates f); [contradiction|discriminate].
    + exists p. split; [apply Hp; exact Hin'|exact Hc].
Qed.

Lemma withdraw2_covers a q :
  In q (withdrawQueries a) -> covers (withdrawAppend2 a) q.
Proof.
  intros [<- | [<- | [<- | []]]]; apply covers_by_inclusion;
    try discriminate; intros x Hx; cbn in *; intuition.
Qed.

(** C2, as amended: in every execution each slice queries with its own
    query filter(s) (the withdraw-money variants with the first of
    their three when a query throws before returning its promise, with
    all three in every execution that appends) and appends, when it
    appends, with its own append filter, and the two never have the
    same scope: transfer-money
    queries on account membership and appends on [transferId];
    deposit-money and the first withdraw-money variant append on a
    single event type of the account; open-bank-account queries every
    opening and appends on [customerName]; the second withdraw-money
    variant appends with one filter that covers the scope of each of
    its three query filters without being equal to any of them. *)
Theorem append_scope_of_slices {S : Type} (inner : IEventStore S) :
  (forall process cmd (s : S),
      let calls := calls_of (@TransferMoney.execute _ (traced inner) process cmd) s in
      query_filters calls =
        [transferQuery (TransferMoney.fromAccountId cmd) (TransferMoney.toAccountId cmd)]
      /\ (forall fa, In fa (append_filters calls) ->
                     fa = transferAppend (TransferMoney.transferId cmd))
      /\ ~ same_scope
            (transferQuery (TransferMoney.fromAccountId cmd) (TransferMoney.toAccountId cmd))
            (transferAppend (TransferMoney.transferId cmd)))
  /\ (forall process cmd (s : S),
        let calls := calls_of (@DepositMoney.execute _ (traced inner) process cmd) s in
        query_filters calls = [depositQuery (DepositMoney.accountId cmd)]
        /\ (forall fa, In fa (append_filters calls) ->
                       fa = depositAppend (DepositMoney.accountId cmd))
        /\ ~ same_scope (depositQuery (DepositMoney.accountId cmd))
                        (depositAppend (DepositMoney.accountId cmd)))
  /\ (forall process cmd (s : S),
        let calls := calls_of (@WithdrawMoney.execute _ (traced inner) process cmd) s in
        (exists rest, withdrawQueries (WithdrawMoney.accountId cmd)
                      = (query_filters calls ++ rest)%list)
        /\ (append_filters calls <> [] ->
            query_filters calls = withdrawQueries (WithdrawMoney.accountId cmd))
        /\ (forall fa, In fa (append_filters calls) ->
                       fa = withdrawAppend (WithdrawMoney.accountId cmd))
        /\ (forall q, In q (withdrawQueries (WithdrawMoney.accountId cmd)) ->
                      ~ same_scope q (withdrawAppend (WithdrawMoney.accountId cmd))))
  /\ (forall process cmd (s : S),
        let calls := calls_of (@WithdrawMoney2.execute _ (traced inner) process cmd) s in
        (exists rest, withdrawQueries (WithdrawMoney.accountId cmd)
                      = (query_filters calls ++ rest)%list)
        /\ (append_filters calls <> [] ->
            query_filters calls = withdrawQueries (WithdrawMoney.accountId cmd))
        /\ (forall fa, In fa (append_filters calls) ->
                       fa = withdrawAppend2 (WithdrawMoney.accountId cmd))
        /\ (forall q, In q (withdrawQueries (WithdrawMoney.accountId cmd)) ->
                      ~ same_scope q (withdrawAppend2 (WithdrawMoney.accountId cmd))
                      /\ covers (withdrawAppend2 (WithdrawMoney.accountId cmd)) q))
  /\ (forall process accountId cmd (s : S),
        let calls :=
          calls_of (@OpenBankAccount.execute _ (traced inner) process accountId cmd) s in
        query_filters calls = [openQuery]
        /\ (forall fa, In fa (append_filters calls) ->
                       fa = openAppend (OpenBankAccount.customerName cmd))
        /\ ~ same_scope openQuery (openAppend (OpenBankAccount.customerName cmd))).
Proof.
  split; [|split; [|split; [|split]]].
  - intros process cmd s.
    destruct (transfer_calls inner process cmd s) as [Hq Ha].
    split; [exact Hq|]. split; [exact Ha|]. apply transfer_scope_differs.
  - intros process cmd s.
    destruct (deposit_calls inner process cmd s) as [Hq Ha].
    split; [exact Hq|]. split; [exact Ha|]. apply deposit_scope_differs.
  - intros process cmd s.
    destruct (withdraw_calls inner process cmd s) as (Hp & Hq & Ha).
    split; [exact Hp|]. split; [exact Hq|]. split; [exact Ha|].
    apply withdraw_scope_differs.
  - intros process cmd s.
    destruct (withdraw2_calls inner process cmd s) as (Hp & Hq & Ha).
    split; [exact Hp|]. split; [exact Hq|]. split; [exact Ha|].
    intros q Hin. split; [apply withdraw2_scope_differs|apply withdraw2_covers]; exact Hin.
  - intros process accountId cmd s.
    destruct (open_calls inner process accountId cmd s) as [Hq Ha].
    split; [exact Hq|]. split; [exact Ha|]. apply open_scope_differs.
Qed.

(** The calls of the transfer-money slice on the sample bank. *)
Lemma append_scope_of_slices_witness :
  hd openQuery
     (append_filters
        (calls_of (@TransferMoney.execute _ (traced Store.arrayStore)
                     (Reference.processTransferCommand 0) Sample.transfer30)
                  Sample.bank))
  = transferAppend "t-1"
  /\ hd openQuery
        (append_filters
           (calls_of (@WithdrawMoney2.execute _ (traced Store.recordStore)
                        (Reference.processWithdrawCommand 0) Sample.withdraw10)
                     Sample.bank))
     = withdrawAppend2 "acc-1"
  /\ covers (withdrawAppend2 "acc-1") (transferFromFilter "acc-1").
Proof.
  split; [|split].
  - apply (proj1 (proj2 (proj1 (append_scope_of_slices Store.arrayStore)
                               (Reference.processTransferCommand 0) Sample.transfer30
                               Sample.bank))).
    vm_compute. left. reflexivity.
  - destruct (append_scope_of_slices Store.recordStore) as (_ & _ & _ & H & _).
    apply (proj1 (proj2 (proj2 (H (Reference.processWithdrawCommand 0) Sample.withdraw10
                                  Sample.bank)))).
    vm_compute. left. reflexivity.
  - destruct (append_scope_of_slices Store.recordStore) as (_ & _ & _ & H & _).
    apply (proj2 (proj2 (proj2 (H (Reference.processWithdrawCommand 0) Sample.withdraw10
                                  Sample.bank)))).
    right. left. reflexivity.
Defined.

(** C2 as stated fails: on the sample bank the transfer-money slice
    queries with the four account predicates and then appends with a
    filter on [transferId] alone. *)
Lemma transfer_append_scope_differs :
  let calls := calls_of (@TransferMoney.execute _ (traced Store.arrayStore)
                           (Reference.processTransferCommand 0) Sample.transfer30)
                        Sample.bank in
  query_filters calls = [transferQuery "acc-1" "acc-2"]
  /\ append_filters calls = [transferAppend "t-1"]
  /\ ~ scope_kept calls.
Proof.
  split; [reflexivity|]. split; [reflexivity|].
  intros H.
  apply (transfer_scope_differs "acc-1" "acc-2" "t-1").
  apply H; left; reflexivity.
Qed.

End AppendScopes.

(* ================================================================== *)
(** ** The slices at work on the store *)

Section Scenarios.
Import Store.

(** Opening two accounts in an empty store leaves the sample bank. *)
Example two_openings_make_the_bank :
  let alice := {| OpenBankAccount.customerName := "Alice";
                  OpenBankAccount.accountType := None;
                  OpenBankAccount.initialDeposit := Some 100%float;
                  OpenBankAccount.currency := None |} in
  let bob := {| OpenBankAccount.customerName := "Bob";
                OpenBankAccount.accountType := None;
                OpenBankAccount.initialDeposit := Some 50%float;
                OpenBankAccount.currency := None |} in
  let open := @OpenBankAccount.execute _ arrayStore (Reference.processOpenAccountCommand 0) in
  snd (open "acc-2" bob (snd (open "acc-1" alice empty))) = Sample.bank.
Proof. reflexivity. Qed.

(** A customer name that is taken is refused with the error type that
    also answers for a failed append. *)
Example taken_name_is_refused :
  fst (@OpenBankAccount.execute _ arrayStore (Reference.processOpenAccountCommand 0) "acc-3"
         {| OpenBankAccount.customerName := "Alice"; OpenBankAccount.accountType := None;
            OpenBankAccount.initialDeposit := None; OpenBankAccount.currency := None |}
         Sample.bank)
  = inr (Failure "InvalidCustomerName" "Customer name already exists").
Proof. reflexivity. Qed.

(** Scenarios S1 and S2 of the specification. *)
Example append_then_read :
  let f := Sample.filterA in
  let st1 := snd (append_store f [Sample.eventOf "A" 1] (Some 0) empty) in
  fst (append_store f [Sample.eventOf "A" 1] (Some 0) empty) = inr tt
  /\ (exists rows, fst (query_store WithMax f st1) = inr (QRecord (map deliver rows) 1)
                   /\ map payload rows = [[("x", JNum 1)]])
  /\ append_store f [Sample.eventOf "A" 2] (Some 0) st1
     = (inl (StoreFailure ConcurrencyConflict), st1).
Proof.
  cbn. split; [reflexivity|]. split; [|reflexivity].
  eexists. split; reflexivity.
Qed.

(** Scenario S3: the payload predicates are a disjunction. *)
Example payload_disjunction :
  let f := mkFilter ["T"] [] in
  let st3 := snd (append_store f [Sample.eventOf "T" 1; Sample.eventOf "T" 2;
                                  Sample.eventOf "T" 3] None empty) in
  match fst (query_store WithMax (mkFilter ["T"] [[("x", JNum 1)]; [("x", JNum 3)]]) st3) with
  | inr (QRecord events maxSequenceNumber) =>
      map (fun e => get e "x") events = [Some (JNum 1); Some (JNum 3)]
      /\ maxSequenceNumber = 3
  | _ => False
  end.
Proof. cbn. split; reflexivity. Qed.

(** The second withdraw-money variant against the store of the
    specification: the withdrawal is appended under the expectation
    read from the three queries. *)
Example withdraw_with_expectation :
  match @WithdrawMoney2.execute _ recordStore (Reference.processWithdrawCommand 0)
                                Sample.withdraw10 Sample.bank with
  | (inr (Success event), st') =>
      WithdrawMoney.ev_currency event = Some (JStr "USD")
      /\ map sequence_number (log st') = [1; 2; 3]
  | _ => False
  end.
Proof. vm_compute. split; reflexivity. Qed.

(** The append filter of the second variant also reaches rows that
    none of its three queries read: with such a row last in the log
    the expectation is stale from the start, the append is refused and
    the log stays as it was. *)
Example withdraw_conflict_leaves_log :
  let stray := {| sequence_number := 3; occurred_at := 0; event_type := "MoneyDeposited";
                  payload := [("toAccountId", JStr "acc-1")]; metadata := [] |} in
  let st := {| log := (log Sample.bank ++ [stray])%list; next_seq := 4; clock := 0 |} in
  @WithdrawMoney2.execute _ recordStore (Reference.processWithdrawCommand 0)
                          Sample.withdraw10 st
  = (inr (Failure "InsufficientFunds" "Failed to save withdrawal event"), st)
  /\ append_store (Scopes.withdrawAppend2 "acc-1") [] (Some 2) st
     = (inl (StoreFailure ConcurrencyConflict), st).
Proof. split; reflexivity. Qed.

End Scenarios.

(* ================================================================== *)
(** ** buildAccountState: what moves a balance and what does not *)

Section AccountFrame.
Import Account AccountSpec Facts.

Lemma find_skip {A : Type} (p : A -> bool) (pre post : list A) (x : A) :
  p x = false -> find p (pre ++ x :: post) = find p (pre ++ post).
Proof.
  intros H. induction pre as [|y pre IH]; simpl.
  - rewrite H. reflexivity.
  - destruct (p y); [reflexivity|exact IH].
Qed.

Lemma fold_skip {A B : Type} (f : A -> B -> A) (pre post : list B) (x : B) :
  (forall acc, f acc x = acc) ->
  forall init, fold_left f (pre ++ x :: post) init = fold_left f (pre ++ post) init.
Proof.
  intros H init. rewrite !fold_left_app. simpl. rewrite H. reflexivity.
Qed.

Lemma find_in_prefix {A : Type} (p : A -> bool) (pre post : list A) :
  (exists o, In o pre /\ p o = true) -> find p (pre ++ post) = find p pre.
Proof.
  intros (o & Hin & Ho). induction pre as [|y pre IH]; simpl; [destruct Hin|].
  destruct (p y) eqn:E; [reflexivity|]. apply IH.
  destruct Hin as [-> | Hin]; [congruence|exact Hin].
Qed.

Lemma find_first_opening_inv evs a o :
  find (is_opening_of a) evs = Some o -> first_opening evs a o.
Proof.
  induction evs as [|x evs IH]; simpl; [discriminate|].
  destruct (is_opening_of a x) eqn:E.
  - intros H. inversion H; subst. exists [], evs.
    repeat split; [rewrite opens_is_opening_of; exact E|intros e []].
  - intros H. destruct (IH H) as (pre & post & -> & Ho & Hpre).
    exists (x :: pre), post. repeat split; [exact Ho|].
    intros e [<- | He]; [rewrite opens_is_opening_of; exact E|apply Hpre; exact He].
Qed.

Lemma unmentioned_not_opening a e : mentions a e = false -> is_opening_of a e = false.
Proof.
  unfold mentions, is_opening_of. intros H.
  apply orb_false_elim in H. destruct H as [H _].
  apply orb_false_elim in H. destruct H as [H _].
  rewrite H. apply andb_false_r.
Qed.

Lemma unmentioned_no_effect a o e acc :
  mentions a e = false -> apply_event a o acc e = acc.
Proof.
  unfold mentions. intros H.
  apply orb_false_elim in H. destruct H as [H Hto].
  apply orb_false_elim in H. destruct H as [Hacc Hfrom].
  unfold apply_event. rewrite Hacc, Hfrom, Hto.
  rewrite !andb_false_r. simpl.
  destruct (is_str (typeTag e) "MoneyTransferred"
            && strict_eq (get e "currency") (get o "currency")); reflexivity.
Qed.

(** X1: buildAccountState ignores the events of other accounts: an event
    none of whose [accountId], [fromAccountId] and [toAccountId] is the
    account id can stand anywhere in the list, or be left out, without
    changing the returned state. *)
Theorem other_accounts_do_not_matter (a : string) (e : EventRecord)
        (pre post : list EventRecord) :
  mentions a e = false ->
  buildAccountState (pre ++ e :: post) a = buildAccountState (pre ++ post) a.
Proof.
  intros H. unfold buildAccountState.
  rewrite (find_skip _ _ _ _ (unmentioned_not_opening a e H)).
  destruct (find (is_opening_of a) (pre ++ post)) as [o|]; [|reflexivity].
  rewrite (fold_skip (apply_event a o) pre post e
                     (fun acc => unmentioned_no_effect a o e acc H)).
  reflexivity.
Qed.

Lemma foreign_currency_no_effect a o e acc :
  strict_eq (get e "currency") (get o "currency") = false ->
  apply_event a o acc e = acc.
Proof.
  intros H. unfold apply_event. rewrite H. rewrite !andb_false_r. reflexivity.
Qed.

(** X2: an event that does not open the account and whose currency is
    not strictly equal to that of the first opening event of the account
    does not change what buildAccountState returns, wherever it stands
    in the list. *)
Theorem foreign_currency_is_ignored (a : string) (e : EventRecord)
        (pre post : list EventRecord) :
  is_opening_of a e = false ->
  (forall o, first_opening (pre ++ post) a o ->
             strict_eq (get e "currency") (get o "currency") = false) ->
  buildAccountState (pre ++ e :: post) a = buildAccountState (pre ++ post) a.
Proof.
  intros Hno Hcur. unfold buildAccountState.
  rewrite (find_skip _ _ _ _ Hno).
  destruct (find (is_opening_of a) (pre ++ post)) as [o|] eqn:Hf; [|reflexivity].
  pose proof (Hcur o (find_first_opening_inv _ _ _ Hf)) as Hc.
  rewrite (fold_skip (apply_event a o) pre post e
                     (fun acc => foreign_currency_no_effect a o e acc Hc)).
  reflexivity.
Qed.

Lemma opening_no_effect a o e acc :
  is_str (typeTag e) "BankAccountOpened" = true -> apply_event a o acc e = acc.
Proof.
  intros H. unfold apply_event.
  rewrite (is_str_excl (typeTag e) "BankAccountOpened" "MoneyDeposited" ltac:(discriminate) H).
  rewrite (is_str_excl (typeTag e) "BankAccountOpened" "MoneyWithdrawn" ltac:(discriminate) H).
  rewrite (is_str_excl (typeTag e) "BankAccountOpened" "MoneyTransferred" ltac:(discriminate) H).
  reflexivity.
Qed.

(** X3: once an opening event of the account is in the list, a later
    event classified BankAccountOpened changes nothing: the state is
    that of the list without it. *)
Theorem reopening_is_ignored (a : string) (e : EventRecord)
        (pre post : list EventRecord) :
  (exists o, In o pre /\ is_opening_of a o = true) ->
  is_str (typeTag e) "BankAccountOpened" = true ->
  buildAccountState (pre ++ e :: post) a = buildAccountState (pre ++ post) a.
Proof.
  intros Hopen Htag. unfold buildAccountState.
  rewrite !(find_in_prefix _ pre _ Hopen).
  destruct (find (is_opening_of a) pre) as [o|]; [|reflexivity].
  rewrite (fold_skip (apply_event a o) pre post e
                     (fun acc => opening_no_effect a o e acc Htag)).
  reflexivity.
Qed.

Lemma still_moves a o acc e : moves a o e = false -> apply_event a o acc e = acc.
Proof.
  intros H. rewrite apply_event_moved. unfold moved. unfold moves in H.
  destruct (movement a o e); [discriminate|discriminate|reflexivity].
Qed.

Lemma fold_movements a o evs : forall acc,
  fold_left (apply_event a o) evs acc
  = fold_left (apply_event a o) (List.filter (moves a o) evs) acc.
Proof.
  induction evs as [|e evs IH]; intros acc; [reflexivity|].
  simpl. destruct (moves a o e) eqn:E.
  - simpl. apply IH.
  - rewrite (still_moves a o acc e E). apply IH.
Qed.

(** X4: buildAccountState depends on its events only through the
    opening event that comes first and through the events that move
    the balance, in their order: two lists with the same first opening
    of the account and the same sequence of deposits, withdrawals and
    transfers of the account in its currency give the same state,
    whatever else they hold and wherever. *)
Theorem only_the_movements_matter (a : string) (evs evs' : list EventRecord) :
  find (is_opening_of a) evs = find (is_opening_of a) evs' ->
  (forall o, find (is_opening_of a) evs = Some o ->
             List.filter (moves a o) evs = List.filter (moves a o) evs') ->
  buildAccountState evs a = buildAccountState evs' a.
Proof.
  intros Hfind Hmoves. unfold buildAccountState. rewrite <- Hfind.
  destruct (find (is_opening_of a) evs) as [o|]; [|reflexivity].
  rewrite (fold_movements a o evs), (fold_movements a o evs'), (Hmoves o eq_refl).
  reflexivity.
Qed.

Lemma buildAccountState_snoc evs a e st :
  buildAccountState evs a = Some st ->
  exists o,
    find (is_opening_of a) evs = Some o
    /\ currency st = get o "currency"
    /\ buildAccountState (evs ++ [e]) a =
       Some {| balance := apply_event a o (balance st) e; currency := currency st |}.
Proof.
  unfold buildAccountState.
  destruct (find (is_opening_of a) evs) as [o|] eqn:Hf; [|discriminate].
  intros H. inversion H; subst; clear H. simpl.
  exists o. split; [reflexivity|]. split; [reflexivity|].
  assert (Hin : exists o', In o' evs /\ is_opening_of a o' = true).
  { apply find_some in Hf. exists o. exact Hf. }
  rewrite (find_in_prefix _ evs [e] Hin), Hf.
  rewrite fold_left_app. reflexivity.
Qed.

(** X5: appending a MoneyTransferred event from [f] to another account
    [t], with a numeric amount [n] in the currency of both, to a list
    in which both have a numeric balance lowers the balance of [f] by
    [n] and raises that of [t] by [n], as doubles subtract and add; the
    currencies stay. *)
Theorem transfer_moves_amount (evs : list EventRecord) (f t : string)
        (tr : EventRecord) (sf st : AccountState) (bf bt n : float) :
  f <> t ->
  buildAccountState evs f = Some sf -> balance sf = Some (JNum bf) ->
  buildAccountState evs t = Some st -> balance st = Some (JNum bt) ->
  is_str (typeTag tr) "MoneyTransferred" = true ->
  is_str (get tr "fromAccountId") f = true ->
  is_str (get tr "toAccountId") t = true ->
  get tr "amount" = Some (JNum n) ->
  strict_eq (get tr "currency") (currency sf) = true ->
  strict_eq (get tr "currency") (currency st) = true ->
  buildAccountState (evs ++ [tr]) f
  = Some {| balance := Some (JNum (bf - n)); currency := currency sf |}
  /\ buildAccountState (evs ++ [tr]) t
     = Some {| balance := Some (JNum (bt + n)); currency := currency st |}.
Proof.
  intros Hft Hf Hbf Ht Hbt Htag Hfrom Hto Hamt Hcf Hct.
  assert (Hnd : is_str (typeTag tr) "MoneyDeposited" = false)
    by exact (is_str_excl (typeTag tr) "MoneyTransferred" "MoneyDeposited"
                          ltac:(discriminate) Htag).
  assert (Hnw : is_str (typeTag tr) "MoneyWithdrawn" = false)
    by exact (is_str_excl (typeTag tr) "MoneyTransferred" "MoneyWithdrawn"
                          ltac:(discriminate) Htag).
  assert (Hfrom_t : is_str (get tr "fromAccountId") t = false).
  { unfold is_str, strict_eq in *.
    destruct (get tr "fromAccountId") as [[| | |x| |]|]; try discriminate.
    apply String.eqb_eq in Hfrom. subst x. apply String.eqb_neq. exact Hft. }
  split.
  - destruct (buildAccountState_snoc evs f tr sf Hf) as (o & _ & Hc & ->).
    unfold apply_event. rewrite Hnd, Hnw, Htag, <- Hc, Hcf, Hfrom, Hamt, Hbf. reflexivity.
  - destruct (buildAccountState_snoc evs t tr st Ht) as (o & _ & Hc & ->).
    unfold apply_event. rewrite Hnd, Hnw, Htag, <- Hc, Hct, Hfrom_t, Hto, Hamt, Hbt.
    reflexivity.
Qed.

End AccountFrame.

(* ================================================================== *)
(** ** get-account and the state of withdraw-money *)

Section GetAccountFacts.
Import Account Facts Store.

Lemma getAccountViewState_arrayStore (a : string) (st : State) :
  @GetAccount.getAccountViewState _ arrayStore a st
  = (inr (accountView (accountEvents a st) a), st).
Proof.
  assert (H : @GetAccount.getAccountViewState _ arrayStore a st
              = (match find (fun e => is_str (typeTag e) "BankAccountOpened")
                            (accountEvents a st) with
                 | None => ret None
                 | Some openingEvent =>
                     ret (Some {| GetAccount.ba_accountId := get openingEvent "accountId";
                                  GetAccount.ba_customerName := get openingEvent "customerName";
                                  GetAccount.ba_accountType := get openingEvent "accountType";
                                  GetAccount.ba_balance :=
                                    fold_left (GetAccount.apply_event a openingEvent)
                                              (accountEvents a st)
                                              (get openingEvent "initialDeposit");
                                  GetAccount.ba_currency := get openingEvent "currency";
                                  GetAccount.ba_openedAt := get openingEvent "openedAt" |})
                 end) st) by reflexivity.
  rewrite H. unfold accountView.
  destruct (find (fun e => is_str (typeTag e) "BankAccountOpened") (accountEvents a st));
    reflexivity.
Qed.

Lemma getWithdrawState_arrayStore (a : string) (st : State) :
  @WithdrawMoney.getWithdrawState _ arrayStore a st
  = (inr {| WithdrawMoney.account := buildAccountState (accountEvents a st) a;
            WithdrawMoney.existingWithdrawalIds :=
              map (fun e => get e "withdrawalId")
                  (List.filter (fun e => is_str (typeTag e) "MoneyWithdrawn")
                     (map deliver (select (Scopes.accountEventsFilter a) (log st)))) |},
     st).
Proof. reflexivity. Qed.

Lemma row_matches_single (types : list string) (p : object) (r : StoredEvent) :
  row_matches (mkFilter types [p]) r = true ->
  In (event_type r) types /\ contains (JObj (payload r)) (JObj p) = true.
Proof.
  unfold row_matches, matches_filter. simpl.
  rewrite andb_true_iff, orb_false_r, existsb_exists.
  intros [(t & Hin & He) Hc]. apply String.eqb_eq in He. subst t.
  split; assumption.
Qed.

Lemma deliver_get (r : StoredEvent) (key : string) :
  key <> "event_type" -> key <> "sequence_number" -> key <> "occurred_at" ->
  get (deliver r) key = lookup key (payload r).
Proof.
  intros H1 H2 H3. unfold get, deliver. simpl.
  apply String.eqb_neq in H1, H2, H3. rewrite H1, H2, H3. reflexivity.
Qed.

Lemma deliver_typeTag (r : StoredEvent) :
  event_type r <> "" -> typeTag (deliver r) = Some (JStr (event_type r)).
Proof.
  intros H. unfold typeTag, js_or, get, deliver. simpl.
  apply String.eqb_neq in H. rewrite H. reflexivity.
Qed.

Lemma accountEvents_shaped (a : string) (st : State) :
  Forall (fun e => account_shaped a e = true) (accountEvents a st).
Proof.
  unfold accountEvents. rewrite !Forall_app. repeat split;
    apply Forall_forall; intros e He; apply in_map_iff in He;
    destruct He as (r & <- & Hr); unfold select in Hr; apply filter_In in Hr;
    destruct Hr as [_ Hm]; apply row_matches_single in Hm; destruct Hm as [Hty Hc];
    unfold account_shaped.
  - apply orb_true_iff. right.
    rewrite deliver_get by discriminate.
    apply contains_singleton_str in Hc. rewrite Hc. unfold is_str. simpl.
    apply String.eqb_refl.
  - apply orb_true_iff. left. destruct Hty as [Hty | []].
    rewrite deliver_typeTag by (rewrite <- Hty; discriminate).
    rewrite <- Hty. reflexivity.
  - apply orb_true_iff. left. destruct Hty as [Hty | []].
    rewrite deliver_typeTag by (rewrite <- Hty; discriminate).
    rewrite <- Hty. reflexivity.
Qed.

Lemma shaped_opening a e :
  account_shaped a e = true ->
  is_str (typeTag e) "BankAccountOpened" = is_opening_of a e.
Proof.
  unfold account_shaped, is_opening_of. intros H.
  destruct (is_str (typeTag e) "BankAccountOpened") eqn:Ho; [|reflexivity].
  rewrite (is_str_excl (typeTag e) "BankAccountOpened" "MoneyTransferred"
                       ltac:(discriminate) Ho) in H.
  simpl in H. rewrite H. reflexivity.
Qed.

Lemma shaped_apply_event a o acc e :
  account_shaped a e = true ->
  GetAccount.apply_event a o acc e = apply_event a o acc e.
Proof.
  unfold account_shaped, GetAccount.apply_event, apply_event. intros H.
  destruct (is_str (typeTag e) "MoneyTransferred") eqn:Ht.
  - rewrite (is_str_excl (typeTag e) "MoneyTransferred" "MoneyDeposited"
                         ltac:(discriminate) Ht).
    rewrite (is_str_excl (typeTag e) "MoneyTransferred" "MoneyWithdrawn"
                         ltac:(discriminate) Ht).
    reflexivity.
  - simpl in H. rewrite H. rewrite !andb_true_r. reflexivity.
Qed.

Lemma find_ext_on {A : Type} (p q : A -> bool) (l : list A) :
  Forall (fun x => p x = q x) l -> find p l = find q l.
Proof.
  induction 1 as [|x l Hx _ IH]; simpl; [reflexivity|].
  rewrite Hx, IH. reflexivity.
Qed.

Lemma fold_left_ext_on {A B : Type} (f g : A -> B -> A) (l : list B) :
  Forall (fun x => forall acc, f acc x = g acc x) l ->
  forall init, fold_left f l init = fold_left g l init.
Proof.
  induction 1 as [|x l Hx _ IH]; intros init; simpl; [reflexivity|].
  rewrite Hx. apply IH.
Qed.

Lemma accountView_shaped (a : string) (evs : list EventRecord) :
  Forall (fun e => account_shaped a e = true) evs ->
  view_state (accountView evs a) = buildAccountState evs a.
Proof.
  intros Hall. unfold accountView, buildAccountState.
  rewrite (find_ext_on (fun e => is_str (typeTag e) "BankAccountOpened") (is_opening_of a) evs).
  2:{ eapply Forall_impl; [|exact Hall]. intros e He. apply shaped_opening. exact He. }
  destruct (find (is_opening_of a) evs) as [o|]; [|reflexivity].
  simpl. f_equal. f_equal.
  apply fold_left_ext_on.
  eapply Forall_impl; [|exact Hall]. intros e He acc. apply shaped_apply_event. exact He.
Qed.

(** X6: on a list in which every event is a transfer or carries the
    [accountId] of the account, getAccountViewState, which does not
    compare [accountId], agrees with buildAccountState: the view is
    null exactly when the state is, and has its balance and currency. *)
Theorem view_agrees_with_state (a : string) (evs : list EventRecord) :
  Forall (fun e => account_shaped a e = true) evs ->
  view_state (accountView evs a) = buildAccountState evs a.
Proof. exact (accountView_shaped a evs). Qed.

(** X7: on the store, for every log and account id, get-account and
    getWithdrawState of withdraw-money return and leave the store as it
    was, and get-account shows the balance and currency on which
    withdraw-money decides, null when withdraw-money finds no account. *)
Theorem get_account_shows_withdraw_balance (a : string) (st : State) :
  exists view ws,
    @GetAccount.execute _ arrayStore (GetAccount.mkQuery a) st = (inr view, st)
    /\ @WithdrawMoney.getWithdrawState _ arrayStore a st = (inr ws, st)
    /\ view_state view = WithdrawMoney.account ws.
Proof.
  eexists. eexists. split; [|split].
  - unfold GetAccount.execute. simpl. apply getAccountViewState_arrayStore.
  - apply getWithdrawState_arrayStore.
  - simpl. apply accountView_shaped. apply accountEvents_shaped.
Qed.

End GetAccountFacts.

(* ================================================================== *)
(** ** What a run of a slice reports *)

Section RunFacts.
Import Trace Facts.
Context {S : Type} (inner : IEventStore S).

Ltac reported :=
  unfold reports_what_happened; cbn;
  first [ intros ? ?; discriminate
        | eexists; split; reflexivity
        | eexists; eexists; reflexivity ].

Lemma transfer_reports process cmd (s : S) :
  let run := @TransferMoney.execute _ (traced inner) process cmd (s, []) in
  reports_what_happened TransferMoney.MoneyTransferredEvent (fst run) (snd (snd run)).
Proof.
  unfold TransferMoney.execute, TransferMoney.getTransferState. unfold_run.
  branch; reported.
Qed.

Lemma deposit_reports process cmd (s : S) :
  let run := @DepositMoney.execute _ (traced inner) process cmd (s, []) in
  reports_what_happened DepositMoney.MoneyDepositedEvent (fst run) (snd (snd run)).
Proof.
  unfold DepositMoney.execute, DepositMoney.getDepositState. unfold_run.
  branch; reported.
Qed.

Lemma withdraw_reports process cmd (s : S) :
  let run := @WithdrawMoney.execute _ (traced inner) process cmd (s, []) in
  reports_what_happened WithdrawMoney.MoneyWithdrawnEvent (fst run) (snd (snd run)).
Proof.
  unfold WithdrawMoney.execute, WithdrawMoney.getWithdrawState. unfold_run.
  branch; reported.
Qed.

Lemma withdraw2_reports process cmd (s : S) :
  let run := @WithdrawMoney2.execute _ (traced inner) process cmd (s, []) in
  reports_what_happened WithdrawMoney.MoneyWithdrawnEvent (fst run) (snd (snd run)).
Proof.
  unfold WithdrawMoney2.execute, WithdrawMoney2.getWithdrawState. unfold_run.
  branch; reported.
Qed.

Lemma open_reports process accountId cmd (s : S) :
  let run := @OpenBankAccount.execute _ (traced inner) process accountId cmd (s, []) in
  reports_what_happened OpenBankAccount.BankAccountOpenedEvent (fst run) (snd (snd run)).
Proof.
  unfold OpenBankAccount.execute, OpenBankAccount.getOpenAccountState. unfold_run.
  branch; reported.
Qed.

Ltac thrown :=
  unfold throws_only_from; cbn; first [reflexivity | eexists; reflexivity].

Lemma transfer_throws process cmd (s : S) :
  throws_only_from
    (@TransferMoney.getTransferState _ inner (TransferMoney.fromAccountId cmd)
                                     (TransferMoney.toAccountId cmd) s)
    (@TransferMoney.execute _ inner process cmd s).
Proof.
  unfold TransferMoney.execute, bind.
  destruct (TransferMoney.getTransferState _ _ s) as [[e|ts] s1]; [thrown|].
  unfold_run. branch; thrown.
Qed.

Lemma deposit_throws process cmd (s : S) :
  throws_only_from
    (@DepositMoney.getDepositState _ inner (DepositMoney.accountId cmd) s)
    (@DepositMoney.execute _ inner process cmd s).
Proof.
  unfold DepositMoney.execute, bind.
  destruct (DepositMoney.getDepositState _ s) as [[e|ts] s1]; [thrown|].
  unfold_run. branch; thrown.
Qed.

Lemma withdraw_throws process cmd (s : S) :
  throws_only_from
    (@WithdrawMoney.getWithdrawState _ inner (WithdrawMoney.accountId cmd) s)
    (@WithdrawMoney.execute _ inner process cmd s).
Proof.
  unfold WithdrawMoney.execute, bind.
  destruct (WithdrawMoney.getWithdrawState _ s) as [[e|ts] s1]; [thrown|].
  unfold_run. branch; thrown.
Qed.

Lemma withdraw2_throws process cmd (s : S) :
  throws_only_from
    (@WithdrawMoney2.getWithdrawState _ inner (WithdrawMoney.accountId cmd) s)
    (@WithdrawMoney2.execute _ inner process cmd s).
Proof.
  unfold WithdrawMoney2.execute, bind.
  destruct (WithdrawMoney2.getWithdrawState _ s) as [[e|ts] s1]; [thrown|].
  unfold_run. branch; thrown.
Qed.

Lemma open_throws process accountId cmd (s : S) :
  throws_only_from
    (@OpenBankAccount.getOpenAccountState _ inner (OpenBankAccount.customerName cmd) s)
    (@OpenBankAccount.execute _ inner process accountId cmd s).
Proof.
  unfold OpenBankAccount.execute, bind.
  destruct (OpenBankAccount.getOpenAccountState _ s) as [[e|ts] s1]; [thrown|].
  unfold_run. branch; thrown.
Qed.

(** X8: on any store a run of a command slice calls [append] at most
    once; it returns success exactly when that call returned, and the
    batch of the call was then the decided event alone; when the call
    threw the run returns a failure; without a call it does not return
    success. *)
Theorem runs_report_what_happened (s : S) :
  (forall process cmd,
      let run := @TransferMoney.execute _ (traced inner) process cmd (s, []) in
      reports_what_happened TransferMoney.MoneyTransferredEvent (fst run) (snd (snd run)))
  /\ (forall process cmd,
        let run := @DepositMoney.execute _ (traced inner) process cmd (s, []) in
        reports_what_happened DepositMoney.MoneyDepositedEvent (fst run) (snd (snd run)))
  /\ (forall process cmd,
        let run := @WithdrawMoney.execute _ (traced inner) process cmd (s, []) in
        reports_what_happened WithdrawMoney.MoneyWithdrawnEvent (fst run) (snd (snd run)))
  /\ (forall process cmd,
        let run := @WithdrawMoney2.execute _ (traced inner) process cmd (s, []) in
        reports_what_happened WithdrawMoney.MoneyWithdrawnEvent (fst run) (snd (snd run)))
  /\ (forall process accountId cmd,
        let run := @OpenBankAccount.execute _ (traced inner) process accountId cmd (s, []) in
        reports_what_happened OpenBankAccount.BankAccountOpenedEvent
                              (fst run) (snd (snd run))).
Proof.
  split; [|split; [|split; [|split]]]; intros.
  - apply transfer_reports.
  - apply deposit_reports.
  - apply withdraw_reports.
  - apply withdraw2_reports.
  - apply open_reports.
Qed.

(** X9: on any store a command slice throws exactly what the reading
    of its state throws, and returns a result once the state was read:
    a failing query is not turned into a domain error, and no failure
    of the append leaves the slice as an exception. *)
Theorem runs_throw_only_from_reading (s : S) :
  (forall process cmd,
      throws_only_from
        (@TransferMoney.getTransferState _ inner (TransferMoney.fromAccountId cmd)
                                         (TransferMoney.toAccountId cmd) s)
        (@TransferMoney.execute _ inner process cmd s))
  /\ (forall process cmd,
        throws_only_from
          (@DepositMoney.getDepositState _ inner (DepositMoney.accountId cmd) s)
          (@DepositMoney.execute _ inner process cmd s))
  /\ (forall process cmd,
        throws_only_from
          (@WithdrawMoney.getWithdrawState _ inner (WithdrawMoney.accountId cmd) s)
          (@WithdrawMoney.execute _ inner process cmd s))
  /\ (forall process cmd,
        throws_only_from
          (@WithdrawMoney2.getWithdrawState _ inner (WithdrawMoney.accountId cmd) s)
          (@WithdrawMoney2.execute _ inner process cmd s))
  /\ (forall process accountId cmd,
        throws_only_from
          (@OpenBankAccount.getOpenAccountState _ inner (OpenBankAccount.customerName cmd) s)
          (@OpenBankAccount.execute _ inner process accountId cmd s)).
Proof.
  split; [|split; [|split; [|split]]]; intros.
  - apply transfer_throws.
  - apply deposit_throws.
  - apply withdraw_throws.
  - apply withdraw2_throws.
  - apply open_throws.
Qed.

(** X10: get-account only reads: on any store it never calls [append];
    its queries are the three queries of withdraw-money for the
    account, in that order, as far as the array literal of
    [Promise.all] gets: at least the first, and all three on a store
    whose [query] returns a promise and does not throw. *)
Theorem get_account_only_reads q (s : S) :
  let calls := calls_of (@GetAccount.execute _ (traced inner) q) s in
  append_calls calls = []
  /\ query_filters calls <> []
  /\ (exists rest, Scopes.withdrawQueries (GetAccount.accountId q)
                   = (query_filters calls ++ rest)%list)
  /\ ((forall f s', exists t r, fst (@query S inner f s') = Promised t r) ->
      query_filters calls = Scopes.withdrawQueries (GetAccount.accountId q)).
Proof.
  unfold calls_of, GetAccount.execute, GetAccount.getAccountViewState. unfold_run.
  branch.
  all: split; [reflexivity|].
  all: split; [discriminate|].
  all: split; [unfold Scopes.withdrawQueries; eexists; reflexivity|].
  all: intros Hp.
  all: first
         [ reflexivity
         | exfalso;
           match goal with
           | E : query ?f ?s0 = (Threw _, _) |- _ =>
               let Ht := fresh "Ht" in
               destruct (Hp f s0) as (? & ? & Ht); rewrite E in Ht; discriminate Ht
           end ].
Qed.

End RunFacts.

(* ================================================================== *)
(** ** The slices on the store: one row per success *)

Section StoreRuns.
Import Account Facts Store.

Lemma getDepositState_arrayStore (a : string) (st : State) :
  @DepositMoney.getDepositState _ arrayStore a st =
  (let events := map deliver (select (Scopes.depositQuery a) (log st)) in
   (inr {| DepositMoney.account :=
             match find (fun e => is_str (typeTag e) "BankAccountOpened") events with
             | Some o => Some {| DepositMoney.acc_currency := get o "currency" |}
             | None => None
             end;
           DepositMoney.existingDepositIds :=
             map (fun e => get e "depositId")
                 (List.filter (fun e => is_str (typeTag e) "MoneyDeposited") events) |},
    st)).
Proof. reflexivity. Qed.

Lemma getOpenAccountState_arrayStore (name : string) (st : State) :
  @OpenBankAccount.getOpenAccountState _ arrayStore name st =
  (inr (map (fun e => get e "customerName")
            (map deliver (select Scopes.openQuery (log st)))), st).
Proof. reflexivity. Qed.

Lemma getWithdrawState_recordStore (a : string) (st : State) :
  @WithdrawMoney2.getWithdrawState _ recordStore a st =
  (inr {| WithdrawMoney2.state :=
            {| WithdrawMoney.account := buildAccountState (accountEvents a st) a;
               WithdrawMoney.existingWithdrawalIds :=
                 map (fun e => get e "withdrawalId")
                     (List.filter (fun e => is_str (typeTag e) "MoneyWithdrawn")
                        (map deliver (select (Scopes.accountEventsFilter a) (log st)))) |};
          WithdrawMoney2.maxSequenceNumber :=
            math_max3 (currentMaxSeq (Scopes.accountEventsFilter a) st)
                      (currentMaxSeq (Scopes.transferFromFilter a) st)
                      (currentMaxSeq (Scopes.transferToFilter a) st) |},
   st).
Proof. reflexivity. Qed.

Lemma transfer_adds_its_event process cmd (st : State) :
  adds_its_event "MoneyTransferred" TransferMoney.MoneyTransferredEvent st
                 (@TransferMoney.execute _ arrayStore process cmd st).
Proof.
  unfold adds_its_event, TransferMoney.execute.
  rewrite (bind_returned _ _ _ _ _ (getTransferState_arrayStore _ _ st)).
  cbv zeta. cbn [TransferMoney.fromAccount TransferMoney.toAccount
                 TransferMoney.existingTransferIds].
  destruct (buildAccountState _ (TransferMoney.fromAccountId cmd)) as [fa|]; [|reflexivity].
  destruct (buildAccountState _ (TransferMoney.toAccountId cmd)) as [ta|]; [|reflexivity].
  destruct (process _ _ _) as [ev|ty m]; reflexivity.
Qed.

Lemma deposit_adds_its_event process cmd (st : State) :
  adds_its_event "MoneyDeposited" DepositMoney.MoneyDepositedEvent st
                 (@DepositMoney.execute _ arrayStore process cmd st).
Proof.
  unfold adds_its_event, DepositMoney.execute.
  rewrite (bind_returned _ _ _ _ _ (getDepositState_arrayStore _ st)).
  cbv zeta. cbn [DepositMoney.account DepositMoney.existingDepositIds].
  destruct (find _ _) as [o|]; [|reflexivity].
  destruct (process _ _) as [ev|ty m]; reflexivity.
Qed.

Lemma withdraw_adds_its_event process cmd (st : State) :
  adds_its_event "MoneyWithdrawn" WithdrawMoney.MoneyWithdrawnEvent st
                 (@WithdrawMoney.execute _ arrayStore process cmd st).
Proof.
  unfold adds_its_event, WithdrawMoney.execute.
  rewrite (bind_returned _ _ _ _ _ (getWithdrawState_arrayStore _ st)).
  cbn [WithdrawMoney.account WithdrawMoney.existingWithdrawalIds].
  destruct (buildAccountState _ _) as [acc|]; [|reflexivity].
  cbv zeta. destruct (process _ _ _) as [ev|ty m]; reflexivity.
Qed.

Lemma open_adds_its_event process accountId cmd (st : State) :
  adds_its_event "BankAccountOpened" OpenBankAccount.BankAccountOpenedEvent st
                 (@OpenBankAccount.execute _ arrayStore process accountId cmd st).
Proof.
  unfold adds_its_event, OpenBankAccount.execute.
  rewrite (bind_returned _ _ _ _ _ (getOpenAccountState_arrayStore _ st)).
  cbv zeta. destruct (process _ _ _) as [ev|ty m]; reflexivity.
Qed.

Lemma withdraw2_adds_its_event process cmd (st : State) :
  adds_its_event "MoneyWithdrawn" WithdrawMoney.MoneyWithdrawnEvent st
                 (@WithdrawMoney2.execute _ recordStore process cmd st).
Proof.
  unfold adds_its_event, WithdrawMoney2.execute.
  rewrite (bind_returned _ _ _ _ _ (getWithdrawState_recordStore _ st)).
  cbn [WithdrawMoney.account WithdrawMoney.existingWithdrawalIds WithdrawMoney2.state
       WithdrawMoney2.maxSequenceNumber].
  destruct (buildAccountState _ _) as [acc|]; [|reflexivity].
  cbv zeta. destruct (process _ _ _) as [ev|ty m]; [|reflexivity].
  unfold try_catch, bind, newFilter.
  change (createFilter WithdrawMoney2.appendTypes
            (WithdrawMoney2.appendPredicates (WithdrawMoney.accountId cmd)))
    with (@inr FilterError _ (Scopes.withdrawAppend2 (WithdrawMoney.accountId cmd))).
  cbn [ret]. 
  unfold recordStore. rewrite await_append_eventStore.
  unfold append_store.
  change (wf_filter (Scopes.withdrawAppend2 (WithdrawMoney.accountId cmd))) with true.
  cbn [negb].
  destruct (negb (currentMaxSeq _ st =? _)); reflexivity.
Qed.

(** X11: on the store a run that returns success leaves the log longer
    by the row of its event, numbered with the next sequence number and
    tagged with the event's type; every other run leaves the store as
    it was. *)
Theorem runs_add_their_event (st : State) :
  (forall process cmd,
      adds_its_event "MoneyTransferred" TransferMoney.MoneyTransferredEvent st
                     (@TransferMoney.execute _ arrayStore process cmd st))
  /\ (forall process cmd,
        adds_its_event "MoneyDeposited" DepositMoney.MoneyDepositedEvent st
                       (@DepositMoney.execute _ arrayStore process cmd st))
  /\ (forall process cmd,
        adds_its_event "MoneyWithdrawn" WithdrawMoney.MoneyWithdrawnEvent st
                       (@WithdrawMoney.execute _ arrayStore process cmd st))
  /\ (forall process cmd,
        adds_its_event "MoneyWithdrawn" WithdrawMoney.MoneyWithdrawnEvent st
                       (@WithdrawMoney2.execute _ recordStore process cmd st))
  /\ (forall process accountId cmd,
        adds_its_event "BankAccountOpened" OpenBankAccount.BankAccountOpenedEvent st
                       (@OpenBankAccount.execute _ arrayStore process accountId cmd st)).
Proof.
  split; [|split; [|split; [|split]]]; intros.
  - apply transfer_adds_its_event.
  - apply deposit_adds_its_event.
  - apply withdraw_adds_its_event.
  - apply withdraw2_adds_its_event.
  - apply open_adds_its_event.
Qed.
End StoreRuns.

(* ================================================================== *)
(** ** A row added by one slice, read by the next *)

Section Composition.
Import Account Facts Store.

Lemma select_added (f : EventFilter) (st : State) (r : StoredEvent) :
  select f (log (added st r))
  = (select f (log st) ++ (if row_matches f r then [r] else []))%list.
Proof.
  unfold select, added. simpl. rewrite filter_app. simpl.
  destruct (row_matches f r); reflexivity.
Qed.

Lemma map_deliver_if (b : bool) (r : StoredEvent) :
  map deliver (if b then [r] else []) = if b then [deliver r] else [].
Proof. destruct b; reflexivity. Qed.

Lemma find_none_of {A : Type} (p : A -> bool) (l extra : list A) :
  (forall x, In x extra -> p x = false) -> find p (l ++ extra) = find p l.
Proof.
  intros H. induction l as [|y l IH]; simpl.
  - destruct (find p extra) eqn:E; [|reflexivity].
    apply find_some in E. destruct E as [Hin Hp]. rewrite (H _ Hin) in Hp. discriminate.
  - destruct (p y); [reflexivity|exact IH].
Qed.

Lemma find_perm_tail {A : Type} (p : A -> bool) (x : A) :
  p x = false ->
  forall (l1 l2 l3 : list A) (b1 b2 b3 : bool),
    find p ((l1 ++ (if b1 then [x] else [])) ++ (l2 ++ (if b2 then [x] else []))
            ++ (l3 ++ (if b3 then [x] else [])))
    = find p (l1 ++ l2 ++ l3).
Proof.
  intros Hx l1 l2 l3 b1 b2 b3.
  assert (skip : forall (b : bool) l, find p ((if b then [x] else []) ++ l) = find p l).
  { intros [] l; simpl; [rewrite Hx|]; reflexivity. }
  assert (step : forall l l' (b : bool),
             find p ((l ++ (if b then [x] else [])) ++ l') = find p (l ++ l')).
  { intros l l' b. rewrite <- app_assoc.
    induction l as [|y l IH]; simpl; [apply skip|].
    destruct (p y); [reflexivity|exact IH]. }
  rewrite step.
  replace (l1 ++ (l2 ++ (if b2 then [x] else [])) ++ l3 ++ (if b3 then [x] else []))%list
    with ((l1 ++ l2) ++ (if b2 then [x] else []) ++ l3 ++ (if b3 then [x] else []))%list
    by (rewrite <- !app_assoc; reflexivity).
  assert (mid : forall l l', find p (l ++ (if b2 then [x] else []) ++ l') = find p (l ++ l')).
  { intros l l'. induction l as [|y l IH]; simpl; [apply skip|].
    destruct (p y); [reflexivity|exact IH]. }
  rewrite mid.
  replace ((l1 ++ l2) ++ l3 ++ (if b3 then [x] else []))%list
    with ((l1 ++ l2 ++ l3) ++ (if b3 then [x] else []))%list
    by (rewrite <- !app_assoc; reflexivity).
  apply find_none_of. intros y Hy. destruct b3; [|destruct Hy].
  destruct Hy as [<- | []]. exact Hx.
Qed.

(** After a row was added that does not open the account, the account
    is found as before, with its currency. *)
Lemma opening_after_row (a : string) (st : State) (r : StoredEvent) :
  is_opening_of a (deliver r) = false ->
  find (is_opening_of a) (accountEvents a (added st r))
  = find (is_opening_of a) (accountEvents a st).
Proof.
  intros Hno. unfold accountEvents. rewrite !select_added, !map_app, !map_deliver_if.
  apply (find_perm_tail _ _ Hno).
Qed.

Lemma account_after_row (a : string) (st : State) (r : StoredEvent) acc :
  is_opening_of a (deliver r) = false ->
  buildAccountState (accountEvents a st) a = Some acc ->
  exists acc', buildAccountState (accountEvents a (added st r)) a = Some acc'
               /\ currency acc' = currency acc.
Proof.
  intros Hno. unfold buildAccountState. rewrite (opening_after_row a st r Hno).
  destruct (find (is_opening_of a) (accountEvents a st)) as [o|]; [|discriminate].
  intros H. inversion H; subst acc; clear H.
  eexists. split; [reflexivity|reflexivity].
Qed.

(** Where the record of the new row stands among the events of the
    account: last, when no result of a later query follows it. *)
Lemma accountEvents_added_account (a : string) (st : State) (r : StoredEvent) :
  row_matches (Scopes.accountEventsFilter a) r = true ->
  row_matches (Scopes.transferFromFilter a) r = false ->
  row_matches (Scopes.transferToFilter a) r = false ->
  no_transfers a st ->
  accountEvents a (added st r) = (accountEvents a st ++ [deliver r])%list.
Proof.
  intros H1 H2 H3 [Hf Ht]. unfold no_incoming in Ht. unfold accountEvents.
  rewrite !select_added, H1, H2, H3, Hf, Ht, !map_app. simpl.
  rewrite !app_nil_r. reflexivity.
Qed.

Lemma accountEvents_added_from (a : string) (st : State) (r : StoredEvent) :
  row_matches (Scopes.accountEventsFilter a) r = false ->
  row_matches (Scopes.transferFromFilter a) r = true ->
  row_matches (Scopes.transferToFilter a) r = false ->
  no_incoming a st ->
  accountEvents a (added st r) = (accountEvents a st ++ [deliver r])%list.
Proof.
  intros H1 H2 H3 Ht. unfold no_incoming in Ht. unfold accountEvents.
  rewrite !select_added, H1, H2, H3, Ht, !map_app. simpl.
  rewrite !app_nil_r, <- !app_assoc. reflexivity.
Qed.

Lemma accountEvents_added_to (a : string) (st : State) (r : StoredEvent) :
  row_matches (Scopes.accountEventsFilter a) r = false ->
  row_matches (Scopes.transferFromFilter a) r = false ->
  row_matches (Scopes.transferToFilter a) r = true ->
  accountEvents a (added st r) = (accountEvents a st ++ [deliver r])%list.
Proof.
  intros H1 H2 H3. unfold accountEvents.
  rewrite !select_added, H1, H2, H3, !map_app. simpl.
  rewrite !app_nil_r, <- !app_assoc. reflexivity.
Qed.

Lemma row_get (st : State) (tag : string) (e : EventRecord) (key : string) :
  key <> "event_type" -> key <> "sequence_number" -> key <> "occurred_at" ->
  get (deliver (row_of st tag e)) key = get e key.
Proof. intros H1 H2 H3. rewrite deliver_get by assumption. reflexivity. Qed.

Lemma row_typeTag (st : State) (tag : string) (e : EventRecord) :
  tag <> "" -> typeTag (deliver (row_of st tag e)) = Some (JStr tag).
Proof. intros H. apply deliver_typeTag. exact H. Qed.

Lemma withdrawn_matches (a : string) (st : State) (ev : WithdrawMoney.MoneyWithdrawn) :
  WithdrawMoney.ev_accountId ev = a ->
  let r := row_of st "MoneyWithdrawn" (WithdrawMoney.MoneyWithdrawnEvent ev) in
  row_matches (Scopes.accountEventsFilter a) r = true
  /\ row_matches (Scopes.transferFromFilter a) r = false
  /\ row_matches (Scopes.transferToFilter a) r = false.
Proof.
  intros <-. unfold row_matches, matches_filter. cbn.
  rewrite String.eqb_refl. repeat split; reflexivity.
Qed.

Lemma deposited_matches (a : string) (st : State) (ev : DepositMoney.MoneyDeposited) :
  DepositMoney.ev_accountId ev = a ->
  let r := row_of st "MoneyDeposited" (DepositMoney.MoneyDepositedEvent ev) in
  row_matches (Scopes.accountEventsFilter a) r = true
  /\ row_matches (Scopes.transferFromFilter a) r = false
  /\ row_matches (Scopes.transferToFilter a) r = false.
Proof.
  intros <-. unfold row_matches, matches_filter. cbn.
  rewrite String.eqb_refl. repeat split; reflexivity.
Qed.

Lemma transferred_matches_from (st : State) (ev : TransferMoney.MoneyTransferred) :
  TransferMoney.ev_fromAccountId ev <> TransferMoney.ev_toAccountId ev ->
  let r := row_of st "MoneyTransferred" (TransferMoney.MoneyTransferredEvent ev) in
  row_matches (Scopes.accountEventsFilter (TransferMoney.ev_fromAccountId ev)) r = false
  /\ row_matches (Scopes.transferFromFilter (TransferMoney.ev_fromAccountId ev)) r = true
  /\ row_matches (Scopes.transferToFilter (TransferMoney.ev_fromAccountId ev)) r = false.
Proof.
  intros Hft. unfold row_matches, matches_filter. cbn.
  rewrite String.eqb_refl. apply String.eqb_neq in Hft. rewrite Hft.
  repeat split; reflexivity.
Qed.

Lemma transferred_matches_to (st : State) (ev : TransferMoney.MoneyTransferred) :
  TransferMoney.ev_fromAccountId ev <> TransferMoney.ev_toAccountId ev ->
  let r := row_of st "MoneyTransferred" (TransferMoney.MoneyTransferredEvent ev) in
  row_matches (Scopes.accountEventsFilter (TransferMoney.ev_toAccountId ev)) r = false
  /\ row_matches (Scopes.transferFromFilter (TransferMoney.ev_toAccountId ev)) r = false
  /\ row_matches (Scopes.transferToFilter (TransferMoney.ev_toAccountId ev)) r = true.
Proof.
  intros Hft. unfold row_matches, matches_filter. cbn.
  rewrite String.eqb_refl.
  assert (H : String.eqb (TransferMoney.ev_toAccountId ev) (TransferMoney.ev_fromAccountId ev)
              = false) by (apply String.eqb_neq; congruence).
  rewrite H. repeat split; reflexivity.
Qed.

Lemma is_str_refl (s : string) : is_str (Some (JStr s)) s = true.
Proof. unfold is_str, strict_eq. apply String.eqb_refl. Qed.

Lemma apply_withdrawn a o acc (st : State) (ev : WithdrawMoney.MoneyWithdrawn) :
  WithdrawMoney.ev_accountId ev = a ->
  strict_eq (WithdrawMoney.ev_currency ev) (get o "currency") = true ->
  apply_event a o acc (deliver (row_of st "MoneyWithdrawn" (WithdrawMoney.MoneyWithdrawnEvent ev)))
  = js_sub acc (Some (JNum (WithdrawMoney.ev_amount ev))).
Proof.
  intros <- Hc. unfold apply_event.
  rewrite row_typeTag by discriminate. rewrite !row_get by discriminate.
  rewrite withdraw_event_currency, Hc.
  change (get (WithdrawMoney.MoneyWithdrawnEvent ev) "accountId")
    with (Some (JStr (WithdrawMoney.ev_accountId ev))).
  change (get (WithdrawMoney.MoneyWithdrawnEvent ev) "amount")
    with (Some (JNum (WithdrawMoney.ev_amount ev))).
  rewrite !is_str_refl. reflexivity.
Qed.

Lemma apply_deposited a o acc (st : State) (ev : DepositMoney.MoneyDeposited) :
  DepositMoney.ev_accountId ev = a ->
  strict_eq (DepositMoney.ev_currency ev) (get o "currency") = true ->
  apply_event a o acc (deliver (row_of st "MoneyDeposited" (DepositMoney.MoneyDepositedEvent ev)))
  = js_add acc (Some (JNum (DepositMoney.ev_amount ev))).
Proof.
  intros <- Hc. unfold apply_event.
  rewrite row_typeTag by discriminate. rewrite !row_get by discriminate.
  rewrite deposit_event_currency, Hc.
  change (get (DepositMoney.MoneyDepositedEvent ev) "accountId")
    with (Some (JStr (DepositMoney.ev_accountId ev))).
  change (get (DepositMoney.MoneyDepositedEvent ev) "amount")
    with (Some (JNum (DepositMoney.ev_amount ev))).
  rewrite !is_str_refl. reflexivity.
Qed.

Lemma not_opening_row a (st : State) (tag : string) (e : EventRecord) :
  tag <> "" -> tag <> "BankAccountOpened" ->
  is_opening_of a (deliver (row_of st tag e)) = false.
Proof.
  intros H1 H2. unfold is_opening_of. rewrite row_typeTag by exact H1.
  unfold is_str, strict_eq. apply String.eqb_neq in H2. rewrite H2. reflexivity.
Qed.

(** The state of an account after a row whose record stands last among
    its events: one more turn of the loop on the old balance. *)
Lemma state_after_last_row a (st : State) (tag : string) (e : EventRecord) acc :
  accountEvents a (added st (row_of st tag e))
  = (accountEvents a st ++ [deliver (row_of st tag e)])%list ->
  buildAccountState (accountEvents a st) a = Some acc ->
  exists o,
    currency acc = get o "currency"
    /\ buildAccountState (accountEvents a (added st (row_of st tag e))) a
       = Some {| balance := apply_event a o (balance acc) (deliver (row_of st tag e));
                 currency := currency acc |}.
Proof.
  intros Hlast Hacc. rewrite Hlast.
  destruct (buildAccountState_snoc _ a (deliver (row_of st tag e)) acc Hacc)
    as (o & _ & Hcur & Hsnoc).
  exists o. split; [exact Hcur|exact Hsnoc].
Qed.

Lemma success_state {E : Type} tag (record : E -> EventRecord) (st st' : State)
      (run : (exn + Result E) * State) ev :
  adds_its_event tag record st run -> run = (inr (Success ev), st') ->
  st' = added st (row_of st tag (record ev)).
Proof. intros H ->. exact H. Qed.

(** X12: on the store, after a successful withdrawal for the commanded
    account, the next getWithdrawState finds the account with its
    currency and the id of the withdrawal after the earlier ones; when
    the withdrawal is in the currency of the account and the log holds
    no transfer from or to the account, the balance it finds is the old
    balance minus the amount. *)
Theorem withdrawal_is_seen process cmd (st st' : State) ev ws acc :
  @WithdrawMoney.execute _ arrayStore process cmd st = (inr (Success ev), st') ->
  WithdrawMoney.ev_accountId ev = WithdrawMoney.accountId cmd ->
  fst (@WithdrawMoney.getWithdrawState _ arrayStore (WithdrawMoney.accountId cmd) st) = inr ws ->
  WithdrawMoney.account ws = Some acc ->
  exists ws' acc',
    @WithdrawMoney.getWithdrawState _ arrayStore (WithdrawMoney.accountId cmd) st' = (inr ws', st')
    /\ WithdrawMoney.existingWithdrawalIds ws'
       = (WithdrawMoney.existingWithdrawalIds ws
          ++ [Some (JStr (WithdrawMoney.ev_withdrawalId ev))])%list
    /\ WithdrawMoney.account ws' = Some acc'
    /\ currency acc' = currency acc
    /\ (strict_eq (WithdrawMoney.ev_currency ev) (currency acc) = true ->
        no_transfers (WithdrawMoney.accountId cmd) st ->
        balance acc' = js_sub (balance acc) (Some (JNum (WithdrawMoney.ev_amount ev)))).
Proof.
  intros Hrun Hid Hws Hacc.
  pose proof (success_state _ _ _ _ _ _ (withdraw_adds_its_event process cmd st) Hrun) as ->.
  rewrite getWithdrawState_arrayStore in Hws. simpl in Hws. inversion Hws; subst ws; clear Hws.
  simpl in Hacc.
  destruct (withdrawn_matches _ st ev Hid) as (Hm & Hmf & Hmt).
  destruct (account_after_row _ st
              (row_of st "MoneyWithdrawn" (WithdrawMoney.MoneyWithdrawnEvent ev)) acc
              (not_opening_row _ st "MoneyWithdrawn" (WithdrawMoney.MoneyWithdrawnEvent ev)
                 ltac:(discriminate) ltac:(discriminate)) Hacc)
    as (acc' & Hacc' & Hcur').
  eexists. exists acc'. split; [apply getWithdrawState_arrayStore|].
  cbn [WithdrawMoney.account WithdrawMoney.existingWithdrawalIds].
  split; [|split; [exact Hacc'|split; [exact Hcur'|]]].
  - rewrite select_added, Hm, map_app, filter_app, map_app. f_equal.
    unfold get. cbn. destruct (WithdrawMoney.ev_currency ev); reflexivity.
  - intros Hcur Hnone.
    destruct (state_after_last_row _ st "MoneyWithdrawn"
                (WithdrawMoney.MoneyWithdrawnEvent ev) acc
                (accountEvents_added_account _ st _ Hm Hmf Hmt Hnone) Hacc) as (o & Ho & Hst).
    rewrite Hst in Hacc'. inversion Hacc'; subst acc'. simpl.
    rewrite apply_withdrawn; [reflexivity|exact Hid|rewrite <- Ho; exact Hcur].
Qed.

Lemma get_account_arrayStore (a : string) (st : State) :
  @GetAccount.execute _ arrayStore (GetAccount.mkQuery a) st
  = (inr (accountView (accountEvents a st) a), st).
Proof. unfold GetAccount.execute. simpl. apply getAccountViewState_arrayStore. Qed.

Lemma view_of_store (a : string) (st : State) :
  view_state (accountView (accountEvents a st) a) = buildAccountState (accountEvents a st) a.
Proof. apply accountView_shaped. apply accountEvents_shaped. Qed.

(** X13: on the store, after a successful deposit for the commanded
    account, get-account still shows the account, in its currency, and
    the next getDepositState finds the same account and the id of the
    deposit after the earlier ones; when the deposit is in the currency
    of the account and the log holds no transfer from or to the
    account, the balance shown is the old balance plus the amount. *)
Theorem deposit_is_seen process cmd (st st' : State) ev view acc ds :
  @DepositMoney.execute _ arrayStore process cmd st = (inr (Success ev), st') ->
  DepositMoney.ev_accountId ev = DepositMoney.accountId cmd ->
  fst (@GetAccount.execute _ arrayStore (GetAccount.mkQuery (DepositMoney.accountId cmd)) st)
  = inr view ->
  view_state view = Some acc ->
  fst (@DepositMoney.getDepositState _ arrayStore (DepositMoney.accountId cmd) st) = inr ds ->
  exists view' acc' ds',
    @GetAccount.execute _ arrayStore (GetAccount.mkQuery (DepositMoney.accountId cmd)) st'
    = (inr view', st')
    /\ view_state view' = Some acc'
    /\ currency acc' = currency acc
    /\ (strict_eq (DepositMoney.ev_currency ev) (currency acc) = true ->
        no_transfers (DepositMoney.accountId cmd) st ->
        balance acc' = js_add (balance acc) (Some (JNum (DepositMoney.ev_amount ev))))
    /\ @DepositMoney.getDepositState _ arrayStore (DepositMoney.accountId cmd) st'
       = (inr ds', st')
    /\ DepositMoney.existingDepositIds ds'
       = (DepositMoney.existingDepositIds ds
          ++ [Some (JStr (DepositMoney.ev_depositId ev))])%list
    /\ DepositMoney.account ds' = DepositMoney.account ds.
Proof.
  intros Hrun Hid Hview Hacc Hds.
  pose proof (success_state _ _ _ _ _ _ (deposit_adds_its_event process cmd st) Hrun) as ->.
  rewrite get_account_arrayStore in Hview. simpl in Hview.
  inversion Hview; subst view; clear Hview.
  rewrite view_of_store in Hacc.
  rewrite getDepositState_arrayStore in Hds. cbv zeta in Hds. simpl fst in Hds.
  inversion Hds; subst ds; clear Hds.
  assert (Hq : row_matches (Scopes.depositQuery (DepositMoney.accountId cmd))
                 (row_of st "MoneyDeposited" (DepositMoney.MoneyDepositedEvent ev)) = true).
  { rewrite <- Hid. unfold row_matches, matches_filter. cbn.
    rewrite String.eqb_refl. reflexivity. }
  destruct (deposited_matches _ st ev Hid) as (Hm & Hmf & Hmt).
  destruct (account_after_row _ st
              (row_of st "MoneyDeposited" (DepositMoney.MoneyDepositedEvent ev)) acc
              (not_opening_row _ st "MoneyDeposited" (DepositMoney.MoneyDepositedEvent ev)
                 ltac:(discriminate) ltac:(discriminate)) Hacc)
    as (acc' & Hacc' & Hcur').
  eexists. exists acc'. eexists.
  split; [apply get_account_arrayStore|].
  split; [rewrite view_of_store; exact Hacc'|].
  split; [exact Hcur'|]. split.
  { intros Hcur Hnone.
    destruct (state_after_last_row _ st "MoneyDeposited"
                (DepositMoney.MoneyDepositedEvent ev) acc
                (accountEvents_added_account _ st _ Hm Hmf Hmt Hnone) Hacc) as (o & Ho & Hst).
    rewrite Hst in Hacc'. inversion Hacc'; subst acc'. simpl.
    rewrite apply_deposited; [reflexivity|exact Hid|rewrite <- Ho; exact Hcur]. }
  split; [apply getDepositState_arrayStore|].
  cbv zeta. cbn [DepositMoney.account DepositMoney.existingDepositIds].
  rewrite select_added, Hq, map_app. split.
  - rewrite filter_app, map_app. f_equal.
    unfold get. cbn. destruct (DepositMoney.ev_currency ev); reflexivity.
  - rewrite find_none_of; [reflexivity|].
    intros x [<- | []]. reflexivity.
Qed.

Lemma apply_transferred_out f o acc (st : State) (ev : TransferMoney.MoneyTransferred) :
  TransferMoney.ev_fromAccountId ev = f ->
  strict_eq (TransferMoney.ev_currency ev) (get o "currency") = true ->
  apply_event f o acc
    (deliver (row_of st "MoneyTransferred" (TransferMoney.MoneyTransferredEvent ev)))
  = js_sub acc (Some (JNum (TransferMoney.ev_amount ev))).
Proof.
  intros <- Hc. unfold apply_event.
  rewrite row_typeTag by discriminate. rewrite !row_get by discriminate.
  rewrite transfer_event_currency, Hc.
  change (get (TransferMoney.MoneyTransferredEvent ev) "fromAccountId")
    with (Some (JStr (TransferMoney.ev_fromAccountId ev))).
  change (get (TransferMoney.MoneyTransferredEvent ev) "amount")
    with (Some (JNum (TransferMoney.ev_amount ev))).
  rewrite !is_str_refl. reflexivity.
Qed.

Lemma apply_transferred_in f t o acc (st : State) (ev : TransferMoney.MoneyTransferred) :
  f <> t ->
  TransferMoney.ev_fromAccountId ev = f -> TransferMoney.ev_toAccountId ev = t ->
  strict_eq (TransferMoney.ev_currency ev) (get o "currency") = true ->
  apply_event t o acc
    (deliver (row_of st "MoneyTransferred" (TransferMoney.MoneyTransferredEvent ev)))
  = js_add acc (Some (JNum (TransferMoney.ev_amount ev))).
Proof.
  intros Hft <- <- Hc. unfold apply_event.
  rewrite row_typeTag by discriminate. rewrite !row_get by discriminate.
  rewrite transfer_event_currency, Hc.
  change (get (TransferMoney.MoneyTransferredEvent ev) "fromAccountId")
    with (Some (JStr (TransferMoney.ev_fromAccountId ev))).
  change (get (TransferMoney.MoneyTransferredEvent ev) "toAccountId")
    with (Some (JStr (TransferMoney.ev_toAccountId ev))).
  change (get (TransferMoney.MoneyTransferredEvent ev) "amount")
    with (Some (JNum (TransferMoney.ev_amount ev))).
  rewrite !is_str_refl.
  assert (H : is_str (Some (JStr (TransferMoney.ev_fromAccountId ev)))
                     (TransferMoney.ev_toAccountId ev) = false).
  { unfold is_str, strict_eq. apply String.eqb_neq. exact Hft. }
  rewrite H. reflexivity.
Qed.

(** X14: on the store, after a successful transfer between two
    different accounts, get-account still shows both, in their
    currencies; when the transfer is in the currency of the target,
    the balance shown for the target is its old balance plus the
    amount; when it is in the currency of the source and the log holds
    no transfer to the source, the balance shown for the source is its
    old balance minus the amount. *)
Theorem transfer_is_seen process cmd (st st' : State) ev vf vt accf acct :
  @TransferMoney.execute _ arrayStore process cmd st = (inr (Success ev), st') ->
  TransferMoney.ev_fromAccountId ev <> TransferMoney.ev_toAccountId ev ->
  fst (@GetAccount.execute _ arrayStore
         (GetAccount.mkQuery (TransferMoney.ev_fromAccountId ev)) st) = inr vf ->
  fst (@GetAccount.execute _ arrayStore
         (GetAccount.mkQuery (TransferMoney.ev_toAccountId ev)) st) = inr vt ->
  view_state vf = Some accf -> view_state vt = Some acct ->
  exists vf' vt' accf' acct',
    @GetAccount.execute _ arrayStore
       (GetAccount.mkQuery (TransferMoney.ev_fromAccountId ev)) st' = (inr vf', st')
    /\ @GetAccount.execute _ arrayStore
         (GetAccount.mkQuery (TransferMoney.ev_toAccountId ev)) st' = (inr vt', st')
    /\ view_state vf' = Some accf' /\ currency accf' = currency accf
    /\ view_state vt' = Some acct' /\ currency acct' = currency acct
    /\ (strict_eq (TransferMoney.ev_currency ev) (currency acct) = true ->
        balance acct' = js_add (balance acct) (Some (JNum (TransferMoney.ev_amount ev))))
    /\ (strict_eq (TransferMoney.ev_currency ev) (currency accf) = true ->
        no_incoming (TransferMoney.ev_fromAccountId ev) st ->
        balance accf' = js_sub (balance accf) (Some (JNum (TransferMoney.ev_amount ev)))).
Proof.
  intros Hrun Hft Hvf Hvt Haf Hat.
  pose proof (success_state _ _ _ _ _ _ (transfer_adds_its_event process cmd st) Hrun) as ->.
  rewrite get_account_arrayStore in Hvf, Hvt. simpl in Hvf, Hvt.
  inversion Hvf; subst vf; clear Hvf. inversion Hvt; subst vt; clear Hvt.
  rewrite view_of_store in Haf, Hat.
  destruct (transferred_matches_from st ev Hft) as (Hf1 & Hf2 & Hf3).
  destruct (transferred_matches_to st ev Hft) as (Ht1 & Ht2 & Ht3).
  destruct (account_after_row _ st
              (row_of st "MoneyTransferred" (TransferMoney.MoneyTransferredEvent ev)) accf
              (not_opening_row _ st "MoneyTransferred" (TransferMoney.MoneyTransferredEvent ev)
                 ltac:(discriminate) ltac:(discriminate)) Haf)
    as (accf' & Haf' & Hcf').
  destruct (account_after_row _ st
              (row_of st "MoneyTransferred" (TransferMoney.MoneyTransferredEvent ev)) acct
              (not_opening_row _ st "MoneyTransferred" (TransferMoney.MoneyTransferredEvent ev)
                 ltac:(discriminate) ltac:(discriminate)) Hat)
    as (acct' & Hat' & Hct').
  eexists. eexists. exists accf', acct'.
  split; [apply get_account_arrayStore|]. split; [apply get_account_arrayStore|].
  rewrite !view_of_store.
  split; [exact Haf'|]. split; [exact Hcf'|]. split; [exact Hat'|]. split; [exact Hct'|].
  split.
  - intros Hct.
    destruct (state_after_last_row _ st "MoneyTransferred"
                (TransferMoney.MoneyTransferredEvent ev) acct
                (accountEvents_added_to _ st _ Ht1 Ht2 Ht3) Hat) as (o & Ho & Hst).
    rewrite Hst in Hat'. inversion Hat'; subst acct'. simpl.
    rewrite (apply_transferred_in _ _ o _ st ev Hft eq_refl eq_refl);
      [reflexivity|rewrite <- Ho; exact Hct].
  - intros Hcf Hnone.
    destruct (state_after_last_row _ st "MoneyTransferred"
                (TransferMoney.MoneyTransferredEvent ev) accf
                (accountEvents_added_from _ st _ Hf1 Hf2 Hf3 Hnone) Haf) as (o & Ho & Hst).
    rewrite Hst in Haf'. inversion Haf'; subst accf'. simpl.
    rewrite apply_transferred_out; [reflexivity|reflexivity|rewrite <- Ho; exact Hcf].
Qed.

End Composition.

(* ================================================================== *)
(** ** The second withdraw-money variant in isolation, and the
       invariant of the log *)

Section Isolation.
Import Account Facts Store.

Lemma ascending_above (rows : list StoredEvent) : forall lo,
  ascending_from lo rows = true -> forall r, In r rows -> lo < sequence_number r.
Proof.
  induction rows as [|x rows IH]; intros lo H r Hr; [destruct Hr|].
  simpl in H. apply andb_prop in H. destruct H as [Hx Hrest]. apply Z.ltb_lt in Hx.
  destruct Hr as [<- | Hr]; [exact Hx|].
  pose proof (IH _ Hrest r Hr). lia.
Qed.

Lemma store_ok_positive (st : State) :
  store_ok st = true -> forall r, In r (log st) -> 0 < sequence_number r.
Proof.
  unfold store_ok. intros H.
  apply andb_prop in H. destruct H as [H _]. apply andb_prop in H. destruct H as [H _].
  apply ascending_above. exact H.
Qed.

Lemma fold_max_highest (rows : list StoredEvent) : forall m,
  0 <= m ->
  fold_left (fun m r' => Z.max m (sequence_number r')) rows m = Z.max m (highest rows).
Proof.
  induction rows as [|x rows IH]; intros m Hm; simpl.
  - lia.
  - rewrite IH by lia. lia.
Qed.

Lemma max_seq_of_highest (rows : list StoredEvent) :
  (forall r, In r rows -> 0 < sequence_number r) -> max_seq_of rows = highest rows.
Proof.
  destruct rows as [|x rows]; intros H; [reflexivity|]. simpl.
  pose proof (H x (or_introl eq_refl)).
  rewrite fold_max_highest by lia. reflexivity.
Qed.

Lemma highest_nonneg rows : 0 <= highest rows.
Proof. induction rows; simpl; lia. Qed.

Lemma highest_filter_or (pa p1 p2 p3 : StoredEvent -> bool) (rows : list StoredEvent) :
  (forall r, In r rows -> pa r = p1 r || p2 r || p3 r) ->
  highest (List.filter pa rows)
  = math_max3 (highest (List.filter p1 rows)) (highest (List.filter p2 rows))
              (highest (List.filter p3 rows)).
Proof.
  unfold math_max3. induction rows as [|x rows IH]; intros H; [reflexivity|].
  simpl. rewrite (H x (or_introl eq_refl)).
  assert (IH' := IH (fun r Hr => H r (or_intror Hr))).
  destruct (p1 x), (p2 x), (p3 x); simpl; rewrite ?IH'; lia.
Qed.

Lemma domain_row_not_stray (a : string) (r : StoredEvent) :
  domain_row r = true ->
  row_matches (Scopes.withdrawAppend2 a) r
  = row_matches (Scopes.accountEventsFilter a) r
    || row_matches (Scopes.transferFromFilter a) r
    || row_matches (Scopes.transferToFilter a) r.
Proof.
  unfold domain_row, absent, row_matches, matches_filter. cbn.
  destruct (String.eqb (event_type r) "MoneyTransferred") eqn:Et.
  - apply String.eqb_eq in Et. rewrite Et. cbn.
    destruct (lookup "accountId" (payload r)); [discriminate|]. intros _.
    destruct (lookup "fromAccountId" (payload r)) as [w1|];
      destruct (lookup "toAccountId" (payload r)) as [w2|]; cbn;
      rewrite ?andb_true_r, ?orb_false_r; reflexivity.
  - destruct (lookup "fromAccountId" (payload r)); [discriminate|].
    destruct (lookup "toAccountId" (payload r)); [discriminate|]. intros _.
    rewrite !orb_false_r.
    destruct (String.eqb (event_type r) "BankAccountOpened");
      destruct (String.eqb (event_type r) "MoneyDeposited");
      destruct (String.eqb (event_type r) "MoneyWithdrawn"); cbn;
      rewrite ?andb_true_r, ?orb_false_r; reflexivity.
Qed.

Lemma expectation_is_current (a : string) (st : State) :
  store_ok st = true ->
  Forall (fun r => domain_row r = true) (log st) ->
  currentMaxSeq (Scopes.withdrawAppend2 a) st
  = math_max3 (currentMaxSeq (Scopes.accountEventsFilter a) st)
              (currentMaxSeq (Scopes.transferFromFilter a) st)
              (currentMaxSeq (Scopes.transferToFilter a) st).
Proof.
  intros Hok Hdom. unfold currentMaxSeq, select.
  assert (Hpos : forall p r, In r (List.filter p (log st)) -> 0 < sequence_number r).
  { intros p r Hr. apply filter_In in Hr. apply (store_ok_positive st Hok). apply Hr. }
  rewrite !max_seq_of_highest by (apply Hpos).
  apply highest_filter_or. intros r Hr.
  apply domain_row_not_stray. rewrite Forall_forall in Hdom. apply Hdom. exact Hr.
Qed.

(** X15: on the store with an ordered log of rows of the shape the
    slices write, the expectation of the second withdraw-money variant
    is the current maximum of its append filter: run alone it meets no
    conflict and returns the result of the decision function. *)
Theorem withdraw2_returns_the_decision process cmd (st : State) wsr acc :
  store_ok st = true ->
  Forall (fun r => domain_row r = true) (log st) ->
  fst (@WithdrawMoney2.getWithdrawState _ recordStore (WithdrawMoney.accountId cmd) st)
  = inr wsr ->
  WithdrawMoney.account (WithdrawMoney2.state wsr) = Some acc ->
  fst (@WithdrawMoney2.execute _ recordStore process cmd st)
  = inr (process (WithdrawMoney.effectiveCommand cmd acc) (balance acc)
                 (WithdrawMoney.existingWithdrawalIds (WithdrawMoney2.state wsr))).
Proof.
  intros Hok Hdom Hws Hacc.
  rewrite getWithdrawState_recordStore in Hws. simpl fst in Hws.
  inversion Hws; subst wsr; clear Hws.
  cbn [WithdrawMoney.account WithdrawMoney.existingWithdrawalIds WithdrawMoney2.state] in *.
  unfold WithdrawMoney2.execute.
  rewrite (bind_returned _ _ _ _ _ (getWithdrawState_recordStore _ st)).
  cbn [WithdrawMoney.account WithdrawMoney.existingWithdrawalIds WithdrawMoney2.state
       WithdrawMoney2.maxSequenceNumber].
  rewrite Hacc. cbv zeta.
  destruct (process _ _ _) as [ev|ty m]; [|reflexivity].
  unfold try_catch, bind, newFilter.
  change (createFilter WithdrawMoney2.appendTypes
            (WithdrawMoney2.appendPredicates (WithdrawMoney.accountId cmd)))
    with (@inr FilterError _ (Scopes.withdrawAppend2 (WithdrawMoney.accountId cmd))).
  cbn [ret].
  unfold recordStore. rewrite await_append_eventStore.
  unfold append_store.
  change (wf_filter (Scopes.withdrawAppend2 (WithdrawMoney.accountId cmd))) with true.
  cbn [negb].
  rewrite (expectation_is_current _ st Hok Hdom), Z.eqb_refl. reflexivity.
Qed.

Lemma slice_rows_are_domain_rows (st : State) :
  (forall ev, domain_row (row_of st "MoneyTransferred"
                                 (TransferMoney.MoneyTransferredEvent ev)) = true)
  /\ (forall ev, domain_row (row_of st "MoneyDeposited"
                                    (DepositMoney.MoneyDepositedEvent ev)) = true)
  /\ (forall ev, domain_row (row_of st "MoneyWithdrawn"
                                    (WithdrawMoney.MoneyWithdrawnEvent ev)) = true)
  /\ (forall ev, domain_row (row_of st "BankAccountOpened"
                                    (OpenBankAccount.BankAccountOpenedEvent ev)) = true).
Proof.
  repeat split; intros ev; unfold domain_row, absent; cbn.
  - destruct (TransferMoney.ev_currency ev); reflexivity.
  - destruct (DepositMoney.ev_currency ev); reflexivity.
  - destruct (WithdrawMoney.ev_currency ev); reflexivity.
  - destruct (OpenBankAccount.ev_accountType ev), (OpenBankAccount.ev_currency ev); reflexivity.
Qed.

Lemma append_one (f : EventFilter) (e : EventRecord) (tag : string) (st : State) :
  wf_filter f = true -> event_tag e = Some tag ->
  append_store f [e] None st = (inr tt, added st (row_of st tag e)).
Proof.
  intros Hwf Htag. unfold append_store. rewrite Hwf. simpl. rewrite Htag. reflexivity.
Qed.

Lemma added_sound (st : State) (tag : string) (e : EventRecord) :
  event_tag e = Some tag ->
  domain_row (row_of st tag e) = true ->
  sound st -> sound (added st (row_of st tag e)).
Proof.
  intros Htag Hdom [Hok Hall]. split.
  - apply (append_store_keeps_ok (mkFilter ["x"] []) [e] None st _ Hok).
    apply append_one; [reflexivity|exact Htag].
  - simpl. apply Forall_app. split; [exact Hall|]. constructor; [exact Hdom|constructor].
Qed.

Lemma run_keeps_sound {E : Type} (tag : string) (record : E -> EventRecord)
      (st : State) (run : (exn + Result E) * State) :
  (forall ev, event_tag (record ev) = Some tag) ->
  (forall ev, domain_row (row_of st tag (record ev)) = true) ->
  adds_its_event tag record st run ->
  sound st -> sound (snd run).
Proof.
  intros Htag Hdom Hrun Hs. unfold adds_its_event in Hrun.
  destruct run as [[e|[ev|ty m]] st']; simpl in *; subst; try exact Hs.
  apply added_sound; [apply Htag|apply Hdom|exact Hs].
Qed.

(** X16: the slices keep the invariants of the log: when the sequence
    numbers are positive, ascending and below the next one, and every
    row has the shape of the events the slices write, the same holds
    after any run of a command slice. *)
Theorem slices_keep_the_log_sound (st : State) :
  sound st ->
  (forall process cmd,
      sound (snd (@TransferMoney.execute _ arrayStore process cmd st)))
  /\ (forall process cmd,
        sound (snd (@DepositMoney.execute _ arrayStore process cmd st)))
  /\ (forall process cmd,
        sound (snd (@WithdrawMoney.execute _ arrayStore process cmd st)))
  /\ (forall process cmd,
        sound (snd (@WithdrawMoney2.execute _ recordStore process cmd st)))
  /\ (forall process accountId cmd,
        sound (snd (@OpenBankAccount.execute _ arrayStore process accountId cmd st))).
Proof.
  intros Hs. destruct (slice_rows_are_domain_rows st) as (Ht & Hd & Hw & Ho).
  split; [|split; [|split; [|split]]]; intros.
  - eapply run_keeps_sound; [|exact Ht|apply transfer_adds_its_event|exact Hs]. reflexivity.
  - eapply run_keeps_sound; [|exact Hd|apply deposit_adds_its_event|exact Hs]. reflexivity.
  - eapply run_keeps_sound; [|exact Hw|apply withdraw_adds_its_event|exact Hs]. reflexivity.
  - eapply run_keeps_sound; [|exact Hw|apply withdraw2_adds_its_event|exact Hs]. reflexivity.
  - eapply run_keeps_sound; [|exact Ho|apply open_adds_its_event|exact Hs]. reflexivity.
Qed.
End Isolation.

(* ------------------------------------------------------------------ *)
(** ** Decisions and unknown accounts *)

Section Decisions.
Import Account Facts Store.

(** X17: on the store the slices that append without an expectation
    return the result of the decision function on the state read, for
    every log: once the accounts are found, their append is not
    refused. *)
Theorem unchecked_slices_return_the_decision (st : State) :
  (forall process cmd ts fa ta,
      fst (@TransferMoney.getTransferState _ arrayStore (TransferMoney.fromAccountId cmd)
             (TransferMoney.toAccountId cmd) st) = inr ts ->
      TransferMoney.fromAccount ts = Some fa -> TransferMoney.toAccount ts = Some ta ->
      fst (@TransferMoney.execute _ arrayStore process cmd st)
      = inr (process (TransferMoney.effectiveCommand cmd fa) (balance fa)
                     (TransferMoney.existingTransferIds ts)))
  /\ (forall process cmd ds acc,
        fst (@DepositMoney.getDepositState _ arrayStore (DepositMoney.accountId cmd) st)
        = inr ds ->
        DepositMoney.account ds = Some acc ->
        fst (@DepositMoney.execute _ arrayStore process cmd st)
        = inr (process (DepositMoney.effectiveCommand cmd acc)
                       (DepositMoney.existingDepositIds ds)))
  /\ (forall process cmd ws acc,
        fst (@WithdrawMoney.getWithdrawState _ arrayStore (WithdrawMoney.accountId cmd) st)
        = inr ws ->
        WithdrawMoney.account ws = Some acc ->
        fst (@WithdrawMoney.execute _ arrayStore process cmd st)
        = inr (process (WithdrawMoney.effectiveCommand cmd acc) (balance acc)
                       (WithdrawMoney.existingWithdrawalIds ws)))
  /\ (forall process accountId cmd names,
        fst (@OpenBankAccount.getOpenAccountState _ arrayStore
               (OpenBankAccount.customerName cmd) st) = inr names ->
        fst (@OpenBankAccount.execute _ arrayStore process accountId cmd st)
        = inr (process cmd accountId names)).
Proof.
  split; [|split; [|split]].
  - intros process cmd ts fa ta Hts Hfa Hta.
    rewrite getTransferState_arrayStore in Hts. cbv zeta in Hts. simpl fst in Hts.
    inversion Hts; subst ts; clear Hts.
    cbn [TransferMoney.fromAccount TransferMoney.toAccount
         TransferMoney.existingTransferIds] in *.
    unfold TransferMoney.execute.
    rewrite (bind_returned _ _ _ _ _ (getTransferState_arrayStore _ _ st)).
    cbv zeta. cbn [TransferMoney.fromAccount TransferMoney.toAccount
                   TransferMoney.existingTransferIds].
    rewrite Hfa, Hta. destruct (process _ _ _) as [ev|ty m]; reflexivity.
  - intros process cmd ds acc Hds Hacc.
    rewrite getDepositState_arrayStore in Hds. cbv zeta in Hds. simpl fst in Hds.
    inversion Hds; subst ds; clear Hds.
    cbn [DepositMoney.account DepositMoney.existingDepositIds] in *.
    unfold DepositMoney.execute.
    rewrite (bind_returned _ _ _ _ _ (getDepositState_arrayStore _ st)).
    cbv zeta. cbn [DepositMoney.account DepositMoney.existingDepositIds].
    rewrite Hacc. destruct (process _ _) as [ev|ty m]; reflexivity.
  - intros process cmd ws acc Hws Hacc.
    rewrite getWithdrawState_arrayStore in Hws. simpl fst in Hws.
    inversion Hws; subst ws; clear Hws.
    cbn [WithdrawMoney.account WithdrawMoney.existingWithdrawalIds] in *.
    unfold WithdrawMoney.execute.
    rewrite (bind_returned _ _ _ _ _ (getWithdrawState_arrayStore _ st)).
    cbn [WithdrawMoney.account WithdrawMoney.existingWithdrawalIds].
    rewrite Hacc. cbv zeta. destruct (process _ _ _) as [ev|ty m]; reflexivity.
  - intros process accountId cmd names Hn.
    rewrite getOpenAccountState_arrayStore in Hn. simpl fst in Hn.
    inversion Hn; subst names; clear Hn.
    unfold OpenBankAccount.execute.
    rewrite (bind_returned _ _ _ _ _ (getOpenAccountState_arrayStore _ st)).
    cbv zeta. destruct (process _ _ _) as [ev|ty m]; reflexivity.
Qed.

Lemma delivered_opening (a : string) (r : StoredEvent) :
  is_opening_of a (deliver r) = true ->
  event_type r = "BankAccountOpened" /\ lookup "accountId" (payload r) = Some (JStr a).
Proof.
  unfold is_opening_of. intros H. apply andb_prop in H. destruct H as [Ht Ha].
  rewrite deliver_get in Ha by discriminate.
  split.
  - destruct (String.eqb (event_type r) "") eqn:E.
    + unfold typeTag, js_or, get, deliver in Ht. simpl in Ht. rewrite E in Ht. discriminate.
    + apply String.eqb_neq in E. rewrite (deliver_typeTag r E) in Ht.
      unfold is_str, strict_eq in Ht. apply String.eqb_eq in Ht. exact Ht.
  - unfold is_str, strict_eq in Ha.
    destruct (lookup "accountId" (payload r)) as [[| | |x| |]|]; try discriminate.
    apply String.eqb_eq in Ha. subst. reflexivity.
Qed.

Lemma unknown_no_state (a : string) (st : State) (rows : list StoredEvent) :
  unknown a st -> incl rows (log st) ->
  buildAccountState (map deliver rows) a = None.
Proof.
  intros Hu Hin. unfold buildAccountState.
  destruct (find (is_opening_of a) (map deliver rows)) as [o|] eqn:Hf; [|reflexivity].
  apply find_some in Hf. destruct Hf as [Ho Hop].
  apply in_map_iff in Ho. destruct Ho as (r & <- & Hr).
  apply delivered_opening in Hop. destruct Hop as [Ht Ha].
  exfalso. exact (Hu r (Hin r Hr) Ht Ha).
Qed.

Lemma select_incl f rows : incl (select f rows) rows.
Proof. intros r Hr. unfold select in Hr. apply filter_In in Hr. apply Hr. Qed.

Lemma accountEvents_rows (a : string) (st : State) :
  exists rows, accountEvents a st = map deliver rows /\ incl rows (log st).
Proof.
  exists (select (Scopes.accountEventsFilter a) (log st)
          ++ select (Scopes.transferFromFilter a) (log st)
          ++ select (Scopes.transferToFilter a) (log st))%list.
  split; [unfold accountEvents; rewrite !map_app; reflexivity|].
  repeat apply incl_app; apply select_incl.
Qed.

Lemma delivered_tag (t : string) (r : StoredEvent) :
  is_str (typeTag (deliver r)) t = true -> event_type r = t.
Proof.
  intros Ht. destruct (String.eqb (event_type r) "") eqn:E.
  - unfold typeTag, js_or, get, deliver in Ht. simpl in Ht. rewrite E in Ht. discriminate.
  - apply String.eqb_neq in E. rewrite (deliver_typeTag r E) in Ht.
    unfold is_str, strict_eq in Ht. apply String.eqb_eq in Ht. exact Ht.
Qed.

Lemma unknown_no_opening (a : string) (st : State) :
  unknown a st ->
  find (fun e => is_str (typeTag e) "BankAccountOpened")
       (map deliver (select (Scopes.depositQuery a) (log st))) = None.
Proof.
  intros Hu.
  destruct (find _ _) as [o|] eqn:Hf; [|reflexivity].
  apply find_some in Hf. destruct Hf as [Ho Hop].
  apply in_map_iff in Ho. destruct Ho as (r & <- & Hr).
  apply delivered_tag in Hop.
  unfold select in Hr. apply filter_In in Hr. destruct Hr as [Hr Hm].
  apply row_matches_single in Hm. destruct Hm as [_ Hc].
  apply contains_singleton_str in Hc.
  exfalso. exact (Hu r Hr Hop Hc).
Qed.

Lemma unknown_accountEvents (a : string) (st : State) :
  unknown a st -> buildAccountState (accountEvents a st) a = None.
Proof.
  intros Hu. destruct (accountEvents_rows a st) as (rows & -> & Hin).
  exact (unknown_no_state a st rows Hu Hin).
Qed.

(** X18: on the store, for an account id that no BankAccountOpened row
    carries: get-account returns null, deposit-money fails with
    InvalidAmount and both withdraw-money variants with
    InsufficientFunds, message "Account not found"; transfer-money fails
    with InsufficientFunds, "From account not found" when the account is
    the source, that or "To account not found" when it is the target;
    the store stays as it was. *)
Theorem unknown_account_is_refused (a : string) (st : State) :
  unknown a st ->
  @GetAccount.execute _ arrayStore (GetAccount.mkQuery a) st = (inr None, st)
  /\ (forall process cmd,
        DepositMoney.accountId cmd = a ->
        @DepositMoney.execute _ arrayStore process cmd st
        = (inr (Failure "InvalidAmount" "Account not found"), st))
  /\ (forall process cmd,
        WithdrawMoney.accountId cmd = a ->
        @WithdrawMoney.execute _ arrayStore process cmd st
        = (inr (Failure "InsufficientFunds" "Account not found"), st)
        /\ @WithdrawMoney2.execute _ recordStore process cmd st
           = (inr (Failure "InsufficientFunds" "Account not found"), st))
  /\ (forall process cmd,
        TransferMoney.fromAccountId cmd = a \/ TransferMoney.toAccountId cmd = a ->
        exists message,
          @TransferMoney.execute _ arrayStore process cmd st
          = (inr (Failure "InsufficientFunds" message), st)
          /\ (message = "From account not found" \/ message = "To account not found")
          /\ (TransferMoney.fromAccountId cmd = a -> message = "From account not found")).
Proof.
  intros Hu. split; [|split; [|split]].
  - rewrite get_account_arrayStore.
    pose proof (view_of_store a st) as Hv. rewrite (unknown_accountEvents a st Hu) in Hv.
    destruct (accountView (accountEvents a st) a); [discriminate|reflexivity].
  - intros process cmd <-. unfold DepositMoney.execute.
    rewrite (bind_returned _ _ _ _ _ (getDepositState_arrayStore _ st)).
    cbv zeta. cbn [DepositMoney.account].
    rewrite (unknown_no_opening _ st Hu). reflexivity.
  - intros process cmd <-. split.
    + unfold WithdrawMoney.execute.
      rewrite (bind_returned _ _ _ _ _ (getWithdrawState_arrayStore _ st)).
      cbn [WithdrawMoney.account].
      rewrite (unknown_accountEvents _ st Hu). reflexivity.
    + unfold WithdrawMoney2.execute.
      rewrite (bind_returned _ _ _ _ _ (getWithdrawState_recordStore _ st)).
      cbn [WithdrawMoney.account WithdrawMoney2.state].
      rewrite (unknown_accountEvents _ st Hu). reflexivity.
  - intros process cmd Hc. unfold TransferMoney.execute.
    rewrite (bind_returned _ _ _ _ _ (getTransferState_arrayStore _ _ st)).
    cbv zeta. cbn [TransferMoney.fromAccount TransferMoney.toAccount].
    destruct Hc as [<- | <-].
    + rewrite (unknown_no_state _ st _ Hu (select_incl _ _)).
      eexists. split; [reflexivity|]. split; [left; reflexivity|reflexivity].
    + rewrite (unknown_no_state (TransferMoney.toAccountId cmd) st _ Hu (select_incl _ _)).
      destruct (buildAccountState _ (TransferMoney.fromAccountId cmd)) eqn:Hf.
      * eexists. split; [reflexivity|]. split; [right; reflexivity|].
        intros Heq. rewrite Heq in Hf.
        rewrite (unknown_no_state _ st _ Hu (select_incl _ _)) in Hf. discriminate.
      * eexists. split; [reflexivity|]. split; [left; reflexivity|reflexivity].
Qed.
End Decisions.

(* ------------------------------------------------------------------ *)
(** ** Decisions taken on a log that has moved on *)

Section Stale.
Import Account Facts Store.

Lemma await_append_staleStore (shape : Shape) (seen : State) (f : EventFilter)
      (events : list EventRecord) (expected : option Z) (st : State) :
  await (@append _ (staleStore shape seen) f events expected) st
  = append_store f events expected st.
Proof. apply await_async. Qed.

Lemma stale_getTransferState (f t : string) (seen st : State) :
  @TransferMoney.getTransferState _ (staleStore BareArray seen) f t st
  = (fst (@TransferMoney.getTransferState _ arrayStore f t seen), st).
Proof. reflexivity. Qed.

Lemma stale_getDepositState (a : string) (seen st : State) :
  @DepositMoney.getDepositState _ (staleStore BareArray seen) a st
  = (fst (@DepositMoney.getDepositState _ arrayStore a seen), st).
Proof. reflexivity. Qed.

Lemma stale_getWithdrawState (a : string) (seen st : State) :
  @WithdrawMoney.getWithdrawState _ (staleStore BareArray seen) a st
  = (fst (@WithdrawMoney.getWithdrawState _ arrayStore a seen), st).
Proof. reflexivity. Qed.

Lemma stale_getOpenAccountState (name : string) (seen st : State) :
  @OpenBankAccount.getOpenAccountState _ (staleStore BareArray seen) name st
  = (fst (@OpenBankAccount.getOpenAccountState _ arrayStore name seen), st).
Proof. reflexivity. Qed.

Lemma stale_getWithdrawState2 (a : string) (seen st : State) :
  @WithdrawMoney2.getWithdrawState _ (staleStore WithMax seen) a st
  = (fst (@WithdrawMoney2.getWithdrawState _ recordStore a seen), st).
Proof. reflexivity. Qed.

(** X19: the slices that append without an expectation do not notice
    a log that moved on: when the run on the log its queries saw
    returns success, the run whose append meets any other log returns
    the same success and appends the event there. *)
Theorem unchecked_slices_append_stale_decisions (seen st : State) :
  (forall process cmd ev,
      fst (@TransferMoney.execute _ arrayStore process cmd seen) = inr (Success ev) ->
      @TransferMoney.execute _ (staleStore BareArray seen) process cmd st
      = (inr (Success ev),
         added st (row_of st "MoneyTransferred" (TransferMoney.MoneyTransferredEvent ev))))
  /\ (forall process cmd ev,
        fst (@DepositMoney.execute _ arrayStore process cmd seen) = inr (Success ev) ->
        @DepositMoney.execute _ (staleStore BareArray seen) process cmd st
        = (inr (Success ev),
           added st (row_of st "MoneyDeposited" (DepositMoney.MoneyDepositedEvent ev))))
  /\ (forall process cmd ev,
        fst (@WithdrawMoney.execute _ arrayStore process cmd seen) = inr (Success ev) ->
        @WithdrawMoney.execute _ (staleStore BareArray seen) process cmd st
        = (inr (Success ev),
           added st (row_of st "MoneyWithdrawn" (WithdrawMoney.MoneyWithdrawnEvent ev))))
  /\ (forall process accountId cmd ev,
        fst (@OpenBankAccount.execute _ arrayStore process accountId cmd seen)
        = inr (Success ev) ->
        @OpenBankAccount.execute _ (staleStore BareArray seen) process accountId cmd st
        = (inr (Success ev),
           added st (row_of st "BankAccountOpened"
                            (OpenBankAccount.BankAccountOpenedEvent ev)))).
Proof.
  split; [|split; [|split]].
  - intros process cmd ev. unfold TransferMoney.execute.
    rewrite (bind_returned _ _ _ _ _ (getTransferState_arrayStore _ _ seen)).
    rewrite (bind_returned _ _ _ _ _ (stale_getTransferState _ _ seen st)).
    try rewrite getTransferState_arrayStore.
    cbv zeta. cbn [fst TransferMoney.fromAccount TransferMoney.toAccount
                   TransferMoney.existingTransferIds].
    destruct (buildAccountState _ (TransferMoney.fromAccountId cmd)) as [fa|];
      [|discriminate].
    destruct (buildAccountState _ (TransferMoney.toAccountId cmd)) as [ta|];
      [|discriminate].
    destruct (process _ _ _) as [e|ty m]; [|discriminate].
    intros H. simpl in H. inversion H; subst e. reflexivity.
  - intros process cmd ev. unfold DepositMoney.execute.
    rewrite (bind_returned _ _ _ _ _ (getDepositState_arrayStore _ seen)).
    rewrite (bind_returned _ _ _ _ _ (stale_getDepositState _ seen st)).
    try rewrite getDepositState_arrayStore.
    cbv zeta. cbn [fst DepositMoney.account DepositMoney.existingDepositIds].
    destruct (find _ _) as [o|]; [|discriminate].
    destruct (process _ _) as [e|ty m]; [|discriminate].
    intros H. simpl in H. inversion H; subst e. reflexivity.
  - intros process cmd ev. unfold WithdrawMoney.execute.
    rewrite (bind_returned _ _ _ _ _ (getWithdrawState_arrayStore _ seen)).
    rewrite (bind_returned _ _ _ _ _ (stale_getWithdrawState _ seen st)).
    try rewrite getWithdrawState_arrayStore.
    cbn [fst WithdrawMoney.account WithdrawMoney.existingWithdrawalIds].
    destruct (buildAccountState _ _) as [acc|]; [|discriminate].
    cbv zeta. destruct (process _ _ _) as [e|ty m]; [|discriminate].
    intros H. simpl in H. inversion H; subst e. reflexivity.
  - intros process accountId cmd ev. unfold OpenBankAccount.execute.
    rewrite (bind_returned _ _ _ _ _ (getOpenAccountState_arrayStore _ seen)).
    rewrite (bind_returned _ _ _ _ _ (stale_getOpenAccountState _ seen st)).
    try rewrite getOpenAccountState_arrayStore.
    cbv zeta. cbn [fst]. destruct (process _ _ _) as [e|ty m]; [|discriminate].
    intros H. simpl in H. inversion H; subst e. reflexivity.
Qed.

Lemma currentMaxSeq_added_in (f : EventFilter) (st : State) (r : StoredEvent) :
  row_matches f r = true -> sequence_number r <= currentMaxSeq f (added st r).
Proof.
  intros Hm. unfold currentMaxSeq. rewrite select_added, Hm.
  apply max_seq_of_upper. apply in_or_app. right. left. reflexivity.
Qed.

Lemma max3_below (a b c n : Z) : a < n -> b < n -> c < n -> math_max3 a b c < n.
Proof. unfold math_max3. lia. Qed.

(** X20: the second withdraw-money variant notices it: when a row of
    the scope of its append filter was added after its queries were
    answered, the run returns a failure and leaves the log as it found
    it; the failure is InsufficientFunds, "Failed to save withdrawal
    event", when the withdrawal would have succeeded on the log the
    queries saw. *)
Theorem stale_withdrawal_is_refused process cmd (seen : State) (tag : string)
        (e : EventRecord) :
  store_ok seen = true ->
  row_matches (Scopes.withdrawAppend2 (WithdrawMoney.accountId cmd)) (row_of seen tag e)
  = true ->
  exists type message,
    @WithdrawMoney2.execute _ (staleStore WithMax seen) process cmd
                            (added seen (row_of seen tag e))
    = (inr (Failure type message), added seen (row_of seen tag e))
    /\ (forall ev,
          fst (@WithdrawMoney2.execute _ recordStore process cmd seen) = inr (Success ev) ->
          type = "InsufficientFunds" /\ message = "Failed to save withdrawal event").
Proof.
  intros Hok Hm. unfold WithdrawMoney2.execute.
  rewrite (bind_returned _ _ _ _ _ (getWithdrawState_recordStore _ seen)).
  rewrite (bind_returned _ _ _ _ _ (stale_getWithdrawState2 _ seen _)).
  try rewrite getWithdrawState_recordStore.
  cbn [fst WithdrawMoney.account WithdrawMoney.existingWithdrawalIds WithdrawMoney2.state
       WithdrawMoney2.maxSequenceNumber].
  destruct (buildAccountState _ _) as [acc|];
    [|eexists; eexists; split; [reflexivity|intros ev H; discriminate H]].
  cbv zeta. destruct (process _ _ _) as [ev|ty m];
    [|eexists; eexists; split; [reflexivity|intros ev H; discriminate H]].
  unfold try_catch, bind, newFilter.
  change (createFilter WithdrawMoney2.appendTypes
            (WithdrawMoney2.appendPredicates (WithdrawMoney.accountId cmd)))
    with (@inr FilterError _ (Scopes.withdrawAppend2 (WithdrawMoney.accountId cmd))).
  cbn [ret].
  rewrite await_append_staleStore.
  unfold recordStore. rewrite await_append_eventStore.
  unfold append_store.
  change (wf_filter (Scopes.withdrawAppend2 (WithdrawMoney.accountId cmd))) with true.
  cbn [negb].
  pose proof (currentMaxSeq_added_in _ seen _ Hm) as Hge.
  pose proof (max3_below _ _ _ _
                (currentMaxSeq_below_next (Scopes.accountEventsFilter (WithdrawMoney.accountId cmd)) seen Hok)
                (currentMaxSeq_below_next (Scopes.transferFromFilter (WithdrawMoney.accountId cmd)) seen Hok)
                (currentMaxSeq_below_next (Scopes.transferToFilter (WithdrawMoney.accountId cmd)) seen Hok)) as Hlt.
  change (sequence_number (row_of seen tag e)) with (next_seq seen) in Hge.
  match goal with
  | |- context [negb (currentMaxSeq ?f (added ?s ?r) =? ?b)] =>
      replace (negb (currentMaxSeq f (added s r) =? b)) with true
        by (symmetry; apply negb_true_iff, Z.eqb_neq; intros Heq;
            apply (Z.lt_irrefl (next_seq seen)); eapply Z.le_lt_trans; [exact Hge|];
            rewrite Heq; exact Hlt)
  end.
  eexists; eexists; split; [reflexivity|]. intros; split; reflexivity.
Qed.

Lemma currentMaxSeq_added_out (f : EventFilter) (st : State) (r : StoredEvent) :
  row_matches f r = false -> currentMaxSeq f (added st r) = currentMaxSeq f st.
Proof.
  intros Hm. unfold currentMaxSeq. rewrite select_added, Hm, app_nil_r. reflexivity.
Qed.

(** X21: a row outside the scope of its append filter does not disturb
    the second withdraw-money variant: when such a row is added to a
    sound log after the queries were answered, a withdrawal that would
    have succeeded on the log the queries saw returns the same success,
    and its event is appended after that row. *)
Theorem unrelated_append_does_not_disturb process cmd (seen : State) (r : StoredEvent) ev :
  sound seen ->
  row_matches (Scopes.withdrawAppend2 (WithdrawMoney.accountId cmd)) r = false ->
  fst (@WithdrawMoney2.execute _ recordStore process cmd seen) = inr (Success ev) ->
  @WithdrawMoney2.execute _ (staleStore WithMax seen) process cmd (added seen r)
  = (inr (Success ev),
     added (added seen r)
           (row_of (added seen r) "MoneyWithdrawn" (WithdrawMoney.MoneyWithdrawnEvent ev))).
Proof.
  intros [Hok Hdom] Hm. unfold WithdrawMoney2.execute.
  rewrite (bind_returned _ _ _ _ _ (getWithdrawState_recordStore _ seen)).
  rewrite (bind_returned _ _ _ _ _ (stale_getWithdrawState2 _ seen _)).
  try rewrite getWithdrawState_recordStore.
  cbn [fst WithdrawMoney.account WithdrawMoney.existingWithdrawalIds WithdrawMoney2.state
       WithdrawMoney2.maxSequenceNumber].
  destruct (buildAccountState _ _) as [acc|]; [|discriminate].
  cbv zeta. destruct (process _ _ _) as [e|ty m]; [|discriminate].
  unfold try_catch, bind, newFilter.
  change (createFilter WithdrawMoney2.appendTypes
            (WithdrawMoney2.appendPredicates (WithdrawMoney.accountId cmd)))
    with (@inr FilterError _ (Scopes.withdrawAppend2 (WithdrawMoney.accountId cmd))).
  cbn [ret].
  rewrite await_append_staleStore.
  unfold recordStore. rewrite await_append_eventStore.
  unfold append_store.
  change (wf_filter (Scopes.withdrawAppend2 (WithdrawMoney.accountId cmd))) with true.
  cbn [negb].
  match goal with
  | |- context [negb (?a =? ?b)] =>
      replace (negb (a =? b)) with false
        by (symmetry; apply negb_false_iff, Z.eqb_eq;
            rewrite (currentMaxSeq_added_out _ seen r Hm);
            exact (expectation_is_current _ seen Hok Hdom))
  end.
  match goal with
  | |- context [negb (?a =? ?b)] =>
      replace (negb (a =? b)) with false
        by (symmetry; apply negb_false_iff, Z.eqb_eq;
            exact (expectation_is_current _ seen Hok Hdom))
  end.
  intros H. simpl in H. inversion H; subst e. reflexivity.
Qed.

End Stale.

(* ------------------------------------------------------------------ *)
(** ** The properties on the sample bank *)

Section SampleRuns.
Import Account AccountSpec Facts Store.

(** A deposit to "acc-2" among the history of "acc-1". *)
Lemma other_accounts_do_not_matter_witness :
  mentions "acc-1" (Cases.depositFor "acc-2" 40 "USD") = false
  /\ buildAccountState (Sample.history ++ Cases.depositFor "acc-2" 40 "USD" :: [])%list "acc-1"
     = buildAccountState (Sample.history ++ [])%list "acc-1".
Proof.
  split; [reflexivity|].
  apply (other_accounts_do_not_matter "acc-1" (Cases.depositFor "acc-2" 40 "USD")
                                      Sample.history []).
  reflexivity.
Defined.

Lemma sample_first_opening (o : EventRecord) :
  first_opening (Sample.history ++ [])%list "acc-1" o ->
  o = hd (mkRecord [] None) Sample.history.
Proof.
  intros (pre & post & Heq & Ho & Hpre).
  destruct pre as [|x pre].
  - simpl in Heq. inversion Heq. reflexivity.
  - simpl in Heq. inversion Heq as [[Hx Hrest]].
    assert (Hf := Hpre x (or_introl eq_refl)). rewrite <- Hx in Hf. discriminate Hf.
Qed.

(** A deposit in GBP to the USD account "acc-1". *)
Lemma foreign_currency_is_ignored_witness :
  is_opening_of "acc-1" (Cases.depositFor "acc-1" 9 "GBP") = false
  /\ buildAccountState (Sample.history ++ Cases.depositFor "acc-1" 9 "GBP" :: [])%list "acc-1"
     = buildAccountState (Sample.history ++ [])%list "acc-1".
Proof.
  split; [reflexivity|].
  apply (foreign_currency_is_ignored "acc-1" (Cases.depositFor "acc-1" 9 "GBP")
                                     Sample.history []); [reflexivity|].
  intros o Ho. rewrite (sample_first_opening o Ho). reflexivity.
Defined.

(** "acc-1" opened a second time, with 999 USD. *)
Lemma reopening_is_ignored_witness :
  is_opening_of "acc-1" (hd (mkRecord [] None) Sample.history) = true
  /\ buildAccountState (Sample.history ++ Cases.openingFor "acc-1" 999 :: [])%list "acc-1"
     = buildAccountState (Sample.history ++ [])%list "acc-1".
Proof.
  split; [reflexivity|].
  apply (reopening_is_ignored "acc-1" (Cases.openingFor "acc-1" 999) Sample.history []);
    [|reflexivity].
  exists (hd (mkRecord [] None) Sample.history). split; [left; reflexivity|reflexivity].
Defined.

(** The sample history with its deposit in EUR moved. *)
Lemma only_the_movements_matter_witness :
  List.filter (moves "acc-1" (hd (mkRecord [] None) Sample.history)) Sample.history
  = List.filter (moves "acc-1" (hd (mkRecord [] None) Sample.history)) Cases.shuffled
  /\ buildAccountState Sample.history "acc-1" = buildAccountState Cases.shuffled "acc-1".
Proof.
  split; [reflexivity|].
  apply (only_the_movements_matter "acc-1" Sample.history Cases.shuffled); [reflexivity|].
  intros o Ho. inversion Ho; subst o. reflexivity.
Defined.

(** 80 USD from "acc-1" (100) to "acc-2" (50). *)
Lemma transfer_moves_amount_witness :
  buildAccountState Cases.bankEvents "acc-1"
  = Some {| balance := Some (JNum 100); currency := Some (JStr "USD") |}
  /\ buildAccountState Cases.bankEvents "acc-2"
     = Some {| balance := Some (JNum 50); currency := Some (JStr "USD") |}
  /\ buildAccountState (Cases.bankEvents ++ [Cases.transfer80Event])%list "acc-1"
     = Some {| balance := Some (JNum (100 - 80)); currency := Some (JStr "USD") |}
  /\ buildAccountState (Cases.bankEvents ++ [Cases.transfer80Event])%list "acc-2"
     = Some {| balance := Some (JNum (50 + 80)); currency := Some (JStr "USD") |}.
Proof.
  split; [reflexivity|]. split; [reflexivity|].
  apply (transfer_moves_amount Cases.bankEvents "acc-1" "acc-2" Cases.transfer80Event
           {| balance := Some (JNum 100); currency := Some (JStr "USD") |}
           {| balance := Some (JNum 50); currency := Some (JStr "USD") |} 100 50 80);
    try reflexivity.
  discriminate.
Defined.

(** The sample history is what the account queries deliver for "acc-1". *)
Lemma view_agrees_with_state_witness :
  Forall (fun e => account_shaped "acc-1" e = true) Sample.history
  /\ view_state (accountView Sample.history "acc-1") = buildAccountState Sample.history "acc-1".
Proof.
  assert (H : Forall (fun e => account_shaped "acc-1" e = true) Sample.history).
  { repeat constructor. }
  split; [exact H|].
  exact (view_agrees_with_state "acc-1" Sample.history H).
Defined.

(** The store of the README returns promises: get-account makes its
    three queries on it. *)
Lemma get_account_only_reads_witness :
  Trace.query_filters
    (Trace.calls_of (@GetAccount.execute _ (Trace.traced arrayStore)
                       (GetAccount.mkQuery "acc-1")) Sample.bank)
  = Scopes.withdrawQueries "acc-1".
Proof.
  apply (proj2 (proj2 (proj2 (get_account_only_reads arrayStore (GetAccount.mkQuery "acc-1")
                                                     Sample.bank)))).
  intros f s'. unfold arrayStore, eventStore, query, async.
  destruct (query_store BareArray f s') as [r s1]. exists 0%nat, r. reflexivity.
Defined.

Lemma bank_sound : sound Sample.bank.
Proof. split; [reflexivity|repeat constructor]. Qed.

(** 10 USD withdrawn from "acc-1", which has no transfers: the next
    reading finds 90 USD and the withdrawal's id. *)
Lemma withdrawal_is_seen_witness :
  @WithdrawMoney.execute _ arrayStore (Reference.processWithdrawCommand 0)
                         Sample.withdraw10 Sample.bank
  = (inr (Success Cases.withdrawn10), Cases.after_withdrawal)
  /\ no_transfers "acc-1" Sample.bank
  /\ exists ws' acc',
      @WithdrawMoney.getWithdrawState _ arrayStore "acc-1" Cases.after_withdrawal
      = (inr ws', Cases.after_withdrawal)
      /\ WithdrawMoney.existingWithdrawalIds ws' = ([] ++ [Some (JStr "w-1")])%list
      /\ WithdrawMoney.account ws' = Some acc'
      /\ currency acc' = Some (JStr "USD")
      /\ balance acc' = js_sub (Some (JNum 100)) (Some (JNum 10)).
Proof.
  split; [reflexivity|]. split; [split; reflexivity|].
  destruct (withdrawal_is_seen (Reference.processWithdrawCommand 0) Sample.withdraw10
              Sample.bank Cases.after_withdrawal Cases.withdrawn10
              {| WithdrawMoney.account :=
                   Some {| balance := Some (JNum 100); currency := Some (JStr "USD") |};
                 WithdrawMoney.existingWithdrawalIds := [] |}
              {| balance := Some (JNum 100); currency := Some (JStr "USD") |}
              eq_refl eq_refl eq_refl eq_refl)
    as (ws' & acc' & H1 & H2 & H3 & H4 & H5).
  exists ws', acc'.
  split; [exact H1|]. split; [exact H2|]. split; [exact H3|]. split; [exact H4|].
  apply H5; [reflexivity|split; reflexivity].
Defined.

(** 20 USD deposited to "acc-1": get-account shows 120 USD, the next
    deposit finds the deposit's id. *)
Lemma deposit_is_seen_witness :
  @DepositMoney.execute _ arrayStore (Reference.processDepositCommand 0)
                        Sample.deposit20 Sample.bank
  = (inr (Success Cases.deposited20), Cases.after_deposit)
  /\ exists view' acc' ds',
      @GetAccount.execute _ arrayStore (GetAccount.mkQuery "acc-1") Cases.after_deposit
      = (inr view', Cases.after_deposit)
      /\ view_state view' = Some acc'
      /\ currency acc' = Some (JStr "USD")
      /\ balance acc' = js_add (Some (JNum 100)) (Some (JNum 20))
      /\ DepositMoney.existingDepositIds ds' = ([] ++ [Some (JStr "d-1")])%list.
Proof.
  split; [reflexivity|].
  destruct (deposit_is_seen (Reference.processDepositCommand 0) Sample.deposit20
              Sample.bank Cases.after_deposit Cases.deposited20
              (accountView (accountEvents "acc-1" Sample.bank) "acc-1")
              {| balance := Some (JNum 100); currency := Some (JStr "USD") |}
              {| DepositMoney.account :=
                   Some {| DepositMoney.acc_currency := Some (JStr "USD") |};
                 DepositMoney.existingDepositIds := [] |}
              eq_refl eq_refl eq_refl eq_refl eq_refl)
    as (view' & acc' & ds' & H1 & H2 & H3 & H4 & _ & H6 & _).
  exists view', acc', ds'.
  split; [exact H1|]. split; [exact H2|]. split; [exact H3|].
  split; [apply H4; [reflexivity|split; reflexivity]|exact H6].
Defined.

(** 30 USD from "acc-1" to "acc-2": get-account shows 70 and 80 USD. *)
Lemma transfer_is_seen_witness :
  @TransferMoney.execute _ arrayStore (Reference.processTransferCommand 0)
                         Sample.transfer30 Sample.bank
  = (inr (Success Cases.transferred30), Cases.after_transfer)
  /\ exists vf' vt' accf' acct',
      @GetAccount.execute _ arrayStore (GetAccount.mkQuery "acc-1") Cases.after_transfer
      = (inr vf', Cases.after_transfer)
      /\ @GetAccount.execute _ arrayStore (GetAccount.mkQuery "acc-2") Cases.after_transfer
         = (inr vt', Cases.after_transfer)
      /\ view_state vf' = Some accf' /\ view_state vt' = Some acct'
      /\ balance accf' = js_sub (Some (JNum 100)) (Some (JNum 30))
      /\ balance acct' = js_add (Some (JNum 50)) (Some (JNum 30)).
Proof.
  split; [reflexivity|].
  assert (Hft : TransferMoney.ev_fromAccountId Cases.transferred30
                <> TransferMoney.ev_toAccountId Cases.transferred30) by discriminate.
  destruct (transfer_is_seen (Reference.processTransferCommand 0) Sample.transfer30
              Sample.bank Cases.after_transfer Cases.transferred30
              (accountView (accountEvents "acc-1" Sample.bank) "acc-1")
              (accountView (accountEvents "acc-2" Sample.bank) "acc-2")
              {| balance := Some (JNum 100); currency := Some (JStr "USD") |}
              {| balance := Some (JNum 50); currency := Some (JStr "USD") |}
              eq_refl Hft eq_refl eq_refl eq_refl eq_refl)
    as (vf' & vt' & accf' & acct' & H1 & H2 & H3 & _ & H5 & _ & H7 & H8).
  exists vf', vt', accf', acct'.
  split; [exact H1|]. split; [exact H2|]. split; [exact H3|]. split; [exact H5|].
  split; [apply H8; reflexivity|apply H7; reflexivity].
Defined.

(** The second variant on the sample bank returns the reference
    decision for 10 USD. *)
Lemma withdraw2_returns_the_decision_witness :
  store_ok Sample.bank = true
  /\ fst (@WithdrawMoney2.execute _ recordStore (Reference.processWithdrawCommand 0)
            Sample.withdraw10 Sample.bank)
     = inr (Success Cases.withdrawn10).
Proof.
  split; [reflexivity|].
  exact (withdraw2_returns_the_decision (Reference.processWithdrawCommand 0)
           Sample.withdraw10 Sample.bank
           {| WithdrawMoney2.state :=
                {| WithdrawMoney.account :=
                     Some {| balance := Some (JNum 100); currency := Some (JStr "USD") |};
                   WithdrawMoney.existingWithdrawalIds := [] |};
              WithdrawMoney2.maxSequenceNumber := 1 |}
           {| balance := Some (JNum 100); currency := Some (JStr "USD") |}
           eq_refl (proj2 bank_sound) eq_refl eq_refl).
Defined.

(** The sample bank after the transfer slice ran on it. *)
Lemma slices_keep_the_log_sound_witness :
  sound Sample.bank
  /\ sound (snd (@TransferMoney.execute _ arrayStore (Reference.processTransferCommand 0)
                   Sample.transfer30 Sample.bank)).
Proof.
  split; [exact bank_sound|].
  exact (proj1 (slices_keep_the_log_sound Sample.bank bank_sound)
               (Reference.processTransferCommand 0) Sample.transfer30).
Defined.

(** The first variant on the sample bank returns the reference decision
    for 10 USD. *)
Lemma unchecked_slices_return_the_decision_witness :
  fst (@WithdrawMoney.execute _ arrayStore (Reference.processWithdrawCommand 0)
         Sample.withdraw10 Sample.bank)
  = inr (Success Cases.withdrawn10).
Proof.
  exact (proj1 (proj2 (proj2 (unchecked_slices_return_the_decision Sample.bank)))
           (Reference.processWithdrawCommand 0) Sample.withdraw10
           {| WithdrawMoney.account :=
                Some {| balance := Some (JNum 100); currency := Some (JStr "USD") |};
              WithdrawMoney.existingWithdrawalIds := [] |}
           {| balance := Some (JNum 100); currency := Some (JStr "USD") |}
           eq_refl eq_refl).
Defined.

Lemma nobody_unknown : unknown "acc-9" Sample.bank.
Proof.
  intros r Hr Ht Ha. simpl in Hr.
  destruct Hr as [<- | [<- | []]]; discriminate Ha.
Qed.

(** "acc-9" was never opened in the sample bank. *)
Lemma unknown_account_is_refused_witness :
  unknown "acc-9" Sample.bank
  /\ @GetAccount.execute _ arrayStore (GetAccount.mkQuery "acc-9") Sample.bank
     = (inr None, Sample.bank).
Proof.
  split; [exact nobody_unknown|].
  exact (proj1 (unknown_account_is_refused "acc-9" Sample.bank nobody_unknown)).
Defined.

(** The second caller decided on the sample bank, where "acc-1" holds
    100 USD; the first caller's 60 USD are in the log by the time of the
    append: both withdrawals are in the log afterwards. *)
Lemma unchecked_slices_append_stale_decisions_witness :
  fst (@WithdrawMoney.execute _ arrayStore (Reference.processWithdrawCommand 0)
         (Cases.withdraw60 "w-2") Sample.bank)
  = inr (Success (Cases.withdrawn60 "w-2"))
  /\ @WithdrawMoney.execute _ (staleStore BareArray Sample.bank)
        (Reference.processWithdrawCommand 0) (Cases.withdraw60 "w-2")
        Cases.after_first_caller
     = (inr (Success (Cases.withdrawn60 "w-2")),
        added Cases.after_first_caller
              (row_of Cases.after_first_caller "MoneyWithdrawn"
                      (WithdrawMoney.MoneyWithdrawnEvent (Cases.withdrawn60 "w-2")))).
Proof.
  split; [reflexivity|].
  exact (proj1 (proj2 (proj2 (unchecked_slices_append_stale_decisions
                                Sample.bank Cases.after_first_caller)))
           (Reference.processWithdrawCommand 0) (Cases.withdraw60 "w-2")
           (Cases.withdrawn60 "w-2") eq_refl).
Defined.

(** The same two callers with the second variant: the second caller's
    withdrawal is refused and the log stays as the first caller left
    it. *)
Lemma stale_withdrawal_is_refused_witness :
  store_ok Sample.bank = true
  /\ exists type message,
      @WithdrawMoney2.execute _ (staleStore WithMax Sample.bank)
         (Reference.processWithdrawCommand 0) (Cases.withdraw60 "w-2")
         Cases.after_first_caller
      = (inr (Failure type message), Cases.after_first_caller)
      /\ (forall ev,
            fst (@WithdrawMoney2.execute _ recordStore (Reference.processWithdrawCommand 0)
                   (Cases.withdraw60 "w-2") Sample.bank) = inr (Success ev) ->
            type = "InsufficientFunds" /\ message = "Failed to save withdrawal event").
Proof.
  split; [reflexivity|].
  exact (stale_withdrawal_is_refused (Reference.processWithdrawCommand 0)
           (Cases.withdraw60 "w-2") Sample.bank "MoneyWithdrawn"
           (WithdrawMoney.MoneyWithdrawnEvent (Cases.withdrawn60 "w-1"))
           eq_refl eq_refl).
Defined.

(** A deposit to "acc-2" between the reading and the append of a
    withdrawal from "acc-1". *)
Lemma unrelated_append_does_not_disturb_witness :
  row_matches (Scopes.withdrawAppend2 "acc-1") Cases.depositOfBob = false
  /\ @WithdrawMoney2.execute _ (staleStore WithMax Sample.bank)
        (Reference.processWithdrawCommand 0) Sample.withdraw10
        (added Sample.bank Cases.depositOfBob)
     = (inr (Success Cases.withdrawn10),
        added (added Sample.bank Cases.depositOfBob)
              (row_of (added Sample.bank Cases.depositOfBob) "MoneyWithdrawn"
                      (WithdrawMoney.MoneyWithdrawnEvent Cases.withdrawn10))).
Proof.
  split; [reflexivity|].
  exact (unrelated_append_does_not_disturb (Reference.processWithdrawCommand 0)
           Sample.withdraw10 Sample.bank Cases.depositOfBob Cases.withdrawn10
           bank_sound eq_refl eq_refl).
Defined.

End SampleRuns.
